(** * common-fate/ops: tunnel lifecycle and service registry

    A shallow embedding of the Go packages [protocol], [servicedef],
    [tunnel] and [ops], followed by the properties established about
    them.  Go maps are [gmap]s, Go slices are lists, [error] values are
    an inductive type that keeps the [%w] wrapping chain, and code that
    mutates (the package-level TLS configuration, the captured
    [lastErr], the logger) threads an explicit state. *)

From Stdlib Require Import ZArith QArith Qround Ascii String List Lia.
From stdpp Require Import base option strings pretty gmap list.

Local Open Scope string_scope.
Local Open Scope Z_scope.
Local Open Scope list_scope.

(** ** Go [error] values *)

Module errors.

(** [errorString] is what [errors.New] and a [fmt.Errorf] without
    [%w] build; [wrapError] is [fmt.Errorf] with one [%w] verb, the
    message already formatted; the remaining constructors are the
    sentinel values the code compares against. *)
Inductive error : Type :=
| errorString (msg : string)
| wrapError (msg : string) (err : error)
| Canceled                 (* context.Canceled *)
| DeadlineExceeded         (* context.DeadlineExceeded *)
| ErrWaitTimeout           (* wait.ErrWaitTimeout *)
| SyntaxError (msg : string)                 (* *json.SyntaxError *)
| UnmarshalTypeError (value type_ struct_ field : string).
                                             (* *json.UnmarshalTypeError *)

#[global] Instance error_eq_dec : EqDecision error.
Proof. solve_decision. Defined.

(** [err.Error()] *)
Definition Error (e : error) : string :=
  match e with
  | errorString msg => msg
  | wrapError msg _ => msg
  | Canceled => "context canceled"
  | DeadlineExceeded => "context deadline exceeded"
  | ErrWaitTimeout => "timed out waiting for the condition"
  | SyntaxError msg => msg
  | UnmarshalTypeError value type_ struct_ field =>
    if bool_decide (struct_ = "") && bool_decide (field = "") then
      "json: cannot unmarshal " +:+ value +:+ " into Go value of type " +:+ type_
    else
      "json: cannot unmarshal " +:+ value +:+ " into Go struct field "
      +:+ struct_ +:+ "." +:+ field +:+ " of type " +:+ type_
  end.

(** [errors.Is(err, target)]: equality along the [Unwrap] chain. *)
Fixpoint Is (err target : error) : bool :=
  if decide (err = target) then true
  else match err with
       | wrapError _ inner => Is inner target
       | _ => false
       end.

(** [fmt.Errorf(prefix + ": %w", err)] *)
Definition Errorf_w (prefix : string) (err : error) : error :=
  wrapError (prefix +:+ ": " +:+ Error err) err.

End errors.
Export errors.

(** ** [context.Context] *)

Module context.

(** A context is abstracted by the instant at which it becomes done
    (if ever) and by the [Err()] it reports from then on.  Instants
    are the ticks of the logical clock kept by the tunnel. *)
Record Context : Type := {
  doneAt : option nat;
  cause : error
}.

Definition Background : Context := {| doneAt := None; cause := Canceled |}.

(** [ctx.Err()] observed at instant [now]. *)
Definition Err (ctx : Context) (now : nat) : option error :=
  match doneAt ctx with
  | Some d => if (d <=? now)%nat then Some (cause ctx) else None
  | None => None
  end.

End context.

(** ** Package [protocol]: response codes *)

Module protocol.

(** [ResponseCode] is an unsigned integer type (the generated
    [String] has no [i < 0] test); its values are modelled by
    non-negative [Z].  The ordinals are those pinned by the
    array-index assertions of the generated file. *)
Definition ResponseCode := Z.

Definition CodeOK : ResponseCode := 0.
Definition CodeBadRequest : ResponseCode := 1.
Definition CodeNotFound : ResponseCode := 2.
Definition CodeUnauthorized : ResponseCode := 3.
Definition CodeServerError : ResponseCode := 4.

Definition _ResponseCode_name : string :=
  "CodeOKCodeBadRequestCodeNotFoundCodeUnauthorizedCodeServerError".

Definition _ResponseCode_index : list Z := [0; 6; 20; 32; 48; 63].

(** [int64(i)]: two's-complement reinterpretation on 64 bits. *)
Definition int64 (i : Z) : Z := (i + 2 ^ 63) mod 2 ^ 64 - 2 ^ 63.

(** [strconv.FormatInt(n, 10)] *)
Definition FormatInt10 (n : Z) : string := pretty n.

(** [s[lo:hi]] on a Go string. *)
Definition slice (s : string) (lo hi : Z) : string :=
  String.substring (Z.to_nat lo) (Z.to_nat (hi - lo)) s.

Definition index (i : Z) : Z := nth (Z.to_nat i) _ResponseCode_index 0.

Definition String (i : ResponseCode) : string :=
  if i >=? Z.of_nat (length _ResponseCode_index) - 1 then
    "ResponseCode(" +:+ FormatInt10 (int64 i) +:+ ")"
  else slice _ResponseCode_name (index i) (index (i + 1)).

Record RegisterListenerResponse : Type := { Code : ResponseCode }.

Record RegisterListenerRequest : Type := {
  Version : Z;
  Service : string;
  Metadata : option (gmap string string)   (* [None] is the nil map *)
}.

End protocol.

(** ** Package [tunnel]: connection lifecycle *)

Module tunnel.
Import errors context protocol.

(** Values of the standard library and of the [protocol] package
    that the tunnel uses but that are declared outside the modelled
    files: [net/url] parsing, and the protocol's name and version
    constants. *)
Class Externals : Type := {
  URL : Type;
  url_Parse : string -> error + URL;
  Hostname : URL -> string;
  protocol_Name : string;
  protocol_Version : Z
}.

Inductive Level : Type := LevelDebug | LevelInfo | LevelWarn | LevelError.

(** One [slog] record: level and message (attributes are dropped). *)
Definition Record_ : Type := (Level * string)%type.

(** [tls.Config] and [quic.Config], reduced to the fields the
    package sets or reads. *)
Record tlsConfig : Type := {
  ServerName : string;
  NextProtos : list string
}.

Record quicConfig : Type := {
  MaxIdleTimeout : Z;      (* nanoseconds *)
  KeepAlivePeriod : Z
}.

(** [*tls.Config]: an address in the heap of TLS configurations. *)
Definition tlsPtr : Type := nat.

(** The address held by the package-level variable
    [DefaultTLSConfig]. *)
Definition DefaultTLSConfig : tlsPtr := 0%nat.

Definition Millisecond : Z := 1000000.
Definition Second : Z := 1000 * Millisecond.

Definition DefaultQuicConfig : quicConfig :=
  {| MaxIdleTimeout := 20 * Second; KeepAlivePeriod := 10 * Second |}.

(** Modelled from the spec: [wait.Backoff] of
    k8s.io/apimachinery is not under src/.  The policy is the one
    the spec names: a number of attempts, an initial delay, a
    multiplier and a jitter fraction. *)
Record Backoff : Type := {
  Steps : Z;
  Duration : Z;            (* nanoseconds *)
  Factor : Q;
  Jitter : Q
}.

Definition DefaultBackoff : Backoff :=
  {| Steps := 5;
     Duration := 100 * Millisecond;
     Factor := Qmake 2 1;
     Jitter := Qmake 1 10 |}.

(** Modelled from the spec: [Backoff.Step] is not under src/.  It
    consumes one step and multiplies the delay; the value returned is
    the delay to sleep before jitter is added (the sleep itself lasts
    between that delay and that delay times [1 + Jitter]). *)
Definition Step (b : Backoff) : Z * Backoff :=
  (Duration b,
   {| Steps := Steps b - 1;
      Duration := if Qeq_bool (Factor b) (Qmake 0 1) then Duration b
                  else Qfloor (Qmult (inject_Z (Duration b)) (Factor b));
      Factor := Factor b;
      Jitter := Jitter b |}).

(** The delays slept between [n + 1] attempts. *)
Fixpoint delays (n : nat) (b : Backoff) : list Z :=
  match n with
  | O => []
  | S n' => (Step b).1 :: delays n' (Step b).2
  end.

(** The logical clock of one [DialAndServe] call: every attempt and
    every backoff sleep takes one tick; [sleeps] lists the delays
    slept so far (before jitter). *)
Record timeline : Type := {
  now : nat;
  sleeps : list Z
}.

Definition tick (t : timeline) : timeline :=
  {| now := S (now t); sleeps := sleeps t |}.

Definition sleep (d : Z) (t : timeline) : timeline :=
  {| now := S (now t); sleeps := sleeps t ++ [d] |}.

Section wait.
Context {St : Type}.

(** [wait.ConditionWithContextFunc], as a state transformer. *)
Definition ConditionWithContextFunc : Type :=
  St -> (bool * option error) * St.

(** Modelled from the spec: [wait.ExponentialBackoffWithContext]
    is not under src/.  While steps remain: leave with the
    context's error if the context is done; run the condition
    (one attempt); a condition error or success ends the loop; the
    last step ends it with [ErrWaitTimeout]; otherwise sleep for
    the next delay, leaving with the context's error if the context
    becomes done before the sleep is over. *)
Fixpoint backoff_loop (fuel : nat) (ctx : Context) (b : Backoff)
    (condition : ConditionWithContextFunc) (s : St) (t : timeline)
    : option error * St * timeline :=
  match fuel with
  | O => (Some ErrWaitTimeout, s, t)
  | S fuel' =>
    if Steps b <=? 0 then (Some ErrWaitTimeout, s, t) else
    match context.Err ctx (now t) with
    | Some e => (Some e, s, t)
    | None =>
      let '((ok, err), s1) := condition s in
      let t1 := tick t in
      match err with
      | Some e => (Some e, s1, t1)
      | None =>
        if ok then (None, s1, t1)
        else if Steps b =? 1 then (Some ErrWaitTimeout, s1, t1)
        else
          let '(waitBeforeRetry, b') := Step b in
          let t2 := sleep waitBeforeRetry t1 in
          match context.Err ctx (now t2) with
          | Some e => (Some e, s1, t2)
          | None => backoff_loop fuel' ctx b' condition s1 t2
          end
      end
    end
  end.

Definition ExponentialBackoffWithContext (ctx : Context) (b : Backoff)
    (condition : ConditionWithContextFunc) (s : St) (t : timeline)
    : option error * St * timeline :=
  backoff_loop (Z.to_nat (Steps b)) ctx b condition s t.

End wait.

(** [errors.Is] on a possibly nil error. *)
Definition errIs (err : option error) (target : error) : bool :=
  match err with
  | Some e => Is e target
  | None => false
  end.

(** Modelled from the spec: [wait.Interrupted] is not under src/.
    It recognises the errors with which a wait ends early: the
    backoff budget exhausted, cancellation, deadline. *)
Definition Interrupted (err : option error) : bool :=
  errIs err ErrWaitTimeout || errIs err Canceled || errIs err DeadlineExceeded.

(** What the remote end does on one established connection, as this
    client observes it. *)
Record Connection : Type := {
  OpenStream : option error;
  Encode : RegisterListenerRequest -> option error;
  Decode : error + RegisterListenerResponse;
  ServeQUICConn : option error
}.

(** [quic.DialAddr] for one attempt. *)
Definition Dialer : Type :=
  string -> tlsConfig -> quicConfig -> error + Connection.

(** [Authenticator]: may fail, may rewrite the request it is handed
    a pointer to, may log. *)
Definition Authenticator : Type :=
  RegisterListenerRequest ->
  option error * RegisterListenerRequest * list Record_.

Definition authorizationMetadataKey : string := "Authorization".

Definition defaultAuthenticator : Authenticator :=
  fun rlr =>
    (None, rlr,
     [(LevelWarn,
       "No authenticator provided, attempting to register connection without credentials")]).

Definition BearerAuthenticator (token : string) : Authenticator :=
  fun rlr =>
    let md := match Metadata rlr with Some m => m | None => ∅ end in
    (None,
     {| Version := Version rlr;
        Service := Service rlr;
        Metadata := Some (<[authorizationMetadataKey := "Bearer" +:+ " " +:+ token]> md) |},
     []).

Record Tunnel : Type := {
  Namespace : string;
  TLSConfig : option tlsPtr;
  QuicConfig : option quicConfig;
  Auth : option Authenticator;
  HasOnConnectionReady : bool
}.

Definition coallesce {T : Type} (v : option T) (d : T) : T :=
  match v with
  | None => d
  | Some x => x
  end.

(** The state of the process that the tunnel reads and writes. *)
Record process : Type := {
  tls : tlsPtr -> tlsConfig;                 (* heap of TLS configurations *)
  dials : nat;                               (* calls of [dialAndServe] so far *)
  sent : list RegisterListenerRequest;       (* requests handed to [Encode] *)
  ready : list RegisterListenerResponse;     (* [OnConnectionReady] calls *)
  logs : list Record_
}.

Definition set_tls (p : tlsPtr) (c : tlsConfig) (st : process) : process :=
  {| tls := fun q => if decide (q = p) then c else tls st q;
     dials := dials st; sent := sent st; ready := ready st; logs := logs st |}.

Definition log (lvl : Level) (msg : string) (st : process) : process :=
  {| tls := tls st; dials := dials st; sent := sent st; ready := ready st;
     logs := logs st ++ [(lvl, msg)] |}.

Definition log_all (rs : list Record_) (st : process) : process :=
  {| tls := tls st; dials := dials st; sent := sent st; ready := ready st;
     logs := logs st ++ rs |}.

Definition count_dial (st : process) : process :=
  {| tls := tls st; dials := S (dials st); sent := sent st; ready := ready st;
     logs := logs st |}.

Definition record_sent (r : RegisterListenerRequest) (st : process) : process :=
  {| tls := tls st; dials := dials st; sent := sent st ++ [r]; ready := ready st;
     logs := logs st |}.

Definition record_ready (r : RegisterListenerResponse) (st : process) : process :=
  {| tls := tls st; dials := dials st; sent := sent st; ready := ready st ++ [r];
     logs := logs st |}.

(** The heap at process start: [DefaultTLSConfig] points to a
    configuration with the protocol name and no server name. *)
Definition initial `{Externals} : process :=
  {| tls := fun _ => {| ServerName := ""; NextProtos := [protocol_Name] |};
     dials := 0; sent := []; ready := []; logs := [] |}.

Section Tunnel.
Context `{Externals}.

Definition getTLSConfig (s : Tunnel) (addr : string) (st : process)
    : (error + tlsPtr) * process :=
  let tlsConf := match TLSConfig s with
                 | None => DefaultTLSConfig
                 | Some p => p
                 end in
  if decide (ServerName (tls st tlsConf) = "") then
    match url_Parse addr with
    | inl err => (inl err, st)
    | inr url =>
      (inr tlsConf,
       set_tls tlsConf
         {| ServerName := Hostname url;
            NextProtos := NextProtos (tls st tlsConf) |} st)
    end
  else (inr tlsConf, st).

Definition register (s : Tunnel) (conn : Connection) (st : process)
    : option error * process :=
  match OpenStream conn with
  | Some err => (Some (Errorf_w "accepting stream" err), st)
  | None =>
    let req := {| Version := protocol_Version;
                  Service := Namespace s;
                  Metadata := None |} in
    let auth := match Auth s with
                | Some a => a
                | None => defaultAuthenticator
                end in
    let '(aerr, req, recs) := auth req in
    let st := log_all recs st in
    match aerr with
    | Some err => (Some (Errorf_w "registering new connection" err), st)
    | None =>
      let st := record_sent req st in
      match Encode conn req with
      | Some err =>
        (Some (Errorf_w "encoding register listener request" err), st)
      | None =>
        match Decode conn with
        | inl err =>
          (Some (Errorf_w "decoding register listener response" err), st)
        | inr resp =>
          if negb (Code resp =? CodeOK) then
            (Some (errorString
                     ("unexpected response code: " +:+ protocol.String (Code resp))),
             st)
          else if HasOnConnectionReady s then (None, record_ready resp st)
          else (None, st)
        end
      end
    end
  end.

(** One attempt.  The goroutine that closes the connection once the
    context is done runs beside the attempt; what it does to the
    connection shows in what [ServeQUICConn] returns. *)
Definition dialAndServe (s : Tunnel) (dial : Dialer) (addr : string)
    (st : process) : option error * process :=
  let st := count_dial st in
  match getTLSConfig s addr st with
  | (inl err, st) => (Some err, st)
  | (inr tlsConf, st) =>
    match dial addr (tls st tlsConf) (coallesce (QuicConfig s) DefaultQuicConfig) with
    | inl err => (Some (Errorf_w "QUIC dial error" err), st)
    | inr conn =>
      let st := log LevelDebug "Attempting to register" st in
      match register s conn st with
      | (Some err, st) => (Some err, st)
      | (None, st) =>
        let st := log LevelInfo "Starting server" st in
        (ServeQUICConn conn, st)
      end
    end
  end.

(** The condition closure of [DialAndServe]; the captured
    [lastErr] is the second component of the state. *)
Definition attempt (s : Tunnel) (dialers : nat -> Dialer) (addr : string)
    : @ConditionWithContextFunc (process * option error) :=
  fun '(st, lastErr) =>
    let '(err, st) := dialAndServe s (dialers (dials st)) addr st in
    match err with
    | Some e =>
      if Is e Canceled then ((false, None), (st, Some e))
      else
        ((false, None),
         (log LevelDebug "Error while attempting to dial and register" st, Some e))
    | None => ((true, None), (st, lastErr))
    end.

(** [dialers i] is the behaviour of [quic.DialAddr] at the call of
    [dialAndServe] number [i] of the process. *)
Definition DialAndServe (s : Tunnel) (ctx : Context) (dialers : nat -> Dialer)
    (addr : string) (st : process) (t : timeline)
    : option error * process * timeline :=
  let st := log LevelDebug "Dialing address" st in
  let '(err, (st, lastErr), t) :=
    ExponentialBackoffWithContext ctx DefaultBackoff
      (attempt s dialers addr) (st, None) t in
  let err :=
    if negb (errIs err Canceled) && Interrupted err then lastErr else err in
  (err, st, t).

End Tunnel.

(** A reading of [net/url] for dial addresses written with ASCII
    letters, digits and the characters [.], [-], [:] and [/]: on
    these, [Parse] and [Hostname] follow the library (no user
    information, query, fragment, escape or bracketed address can
    occur).  An address with any other character is refused here,
    which the library need not do.  It instantiates [Externals] in
    the examples. *)
Module url.

Record t : Type := {
  Scheme : string;
  Opaque : string;
  Host : string;
  Path : string
}.

Definition code (c : Ascii.ascii) : N := Ascii.N_of_ascii c.

Definition is_letter (c : Ascii.ascii) : bool :=
  ((97 <=? code c) && (code c <=? 122) || (65 <=? code c) && (code c <=? 90))%N.

Definition is_digit (c : Ascii.ascii) : bool :=
  ((48 <=? code c) && (code c <=? 57))%N.

Definition is_colon (c : Ascii.ascii) : bool := (code c =? 58)%N.
Definition is_slash (c : Ascii.ascii) : bool := (code c =? 47)%N.

Definition in_scope (c : Ascii.ascii) : bool :=
  is_letter c || is_digit c || (code c =? 46)%N || (code c =? 45)%N
  || is_colon c || is_slash c.

Fixpoint all (p : Ascii.ascii -> bool) (s : string) : bool :=
  match s with
  | String.String c rest => p c && all p rest
  | EmptyString => true
  end.

Fixpoint any (p : Ascii.ascii -> bool) (s : string) : bool :=
  match s with
  | String.String c rest => p c || any p rest
  | EmptyString => false
  end.

Definition lower (c : Ascii.ascii) : Ascii.ascii :=
  if ((65 <=? code c) && (code c <=? 90))%N
  then Ascii.ascii_of_N (code c + 32) else c.

Fixpoint ToLower (s : string) : string :=
  match s with
  | String.String c rest => String.String (lower c) (ToLower rest)
  | EmptyString => EmptyString
  end.

Definition quoted (s : string) : string :=
  String.String "034"%char (s +:+ String.String "034"%char "").

(** [&url.Error{Op: "parse", URL: rawURL, Err: err}] *)
Definition parseError (rawURL : string) (err : error) : error :=
  wrapError ("parse " +:+ quoted rawURL +:+ ": " +:+ Error err) err.

(** [getScheme]: [None] when the text has no scheme; a colon in
    first position is an error. *)
Fixpoint getScheme_from (first : bool) (s : string)
    : option (error + string * string) :=
  let more (c : Ascii.ascii) (rest : string) :=
    match getScheme_from false rest with
    | Some (inr (scheme, rest')) => Some (inr (String.String c scheme, rest'))
    | other => other
    end in
  match s with
  | EmptyString => None
  | String.String c rest =>
    if is_letter c then more c rest
    else if is_digit c || (code c =? 43)%N || (code c =? 45)%N || (code c =? 46)%N then
      if first then None else more c rest
    else if is_colon c then
      if first then Some (inl (errorString "missing protocol scheme"))
      else Some (inr ("", rest))
    else None
  end.

Definition getScheme (rawURL : string) : error + string * string :=
  match getScheme_from true rawURL with
  | Some r => r
  | None => inr ("", rawURL)
  end.

(** [strings.Cut(s, "/")], the separator kept at the head of the
    second part. *)
Fixpoint cut_slash (s : string) : string * string :=
  match s with
  | String.String c rest =>
    if is_slash c then ("", s)
    else let '(a, b) := cut_slash rest in (String.String c a, b)
  | EmptyString => ("", "")
  end.

(** The text before the last colon and the text from that colon on,
    if there is a colon. *)
Fixpoint splitLastColon (s : string) : option (string * string) :=
  match s with
  | EmptyString => None
  | String.String c rest =>
    match splitLastColon rest with
    | Some (host, port) => Some (String.String c host, port)
    | None => if is_colon c then Some ("", s) else None
    end
  end.

Definition validOptionalPort (port : string) : bool :=
  match port with
  | EmptyString => true
  | String.String c digits => is_colon c && all is_digit digits
  end.

Definition parseHost (host : string) : error + string :=
  match splitLastColon host with
  | Some (_, colonPort) =>
    if validOptionalPort colonPort then inr host
    else inl (errorString ("invalid port " +:+ quoted colonPort +:+ " after host"))
  | None => inr host
  end.

Definition HasPrefix (s prefix : string) : bool := String.prefix prefix s.

Definition Parse (rawURL : string) : error + t :=
  if negb (all in_scope rawURL) then
    inl (parseError rawURL (errorString "character outside the addresses read here"))
  else
    match getScheme rawURL with
    | inl err => inl (parseError rawURL err)
    | inr (scheme, rest) =>
      let scheme := ToLower scheme in
      if negb (HasPrefix rest "/") then
        if negb (bool_decide (scheme = "")) then
          inr {| Scheme := scheme; Opaque := rest; Host := ""; Path := "" |}
        else if any is_colon (cut_slash rest).1 then
          inl (parseError rawURL
                 (errorString "first path segment in URL cannot contain colon"))
        else inr {| Scheme := scheme; Opaque := ""; Host := ""; Path := rest |}
      else if (negb (bool_decide (scheme = "")) || negb (HasPrefix rest "///"))
              && HasPrefix rest "//" then
        let '(authority, path) :=
          cut_slash (match rest with
                     | String.String _ (String.String _ rest') => rest'
                     | _ => rest
                     end) in
        match parseHost authority with
        | inl err => inl (parseError rawURL err)
        | inr host =>
          inr {| Scheme := scheme; Opaque := ""; Host := host; Path := path |}
        end
      else inr {| Scheme := scheme; Opaque := ""; Host := ""; Path := rest |}
    end.

(** [u.Hostname()]: the host without a valid port. *)
Definition Hostname (u : t) : string :=
  match splitLastColon (Host u) with
  | Some (host, colonPort) => if validOptionalPort colonPort then host else Host u
  | None => Host u
  end.

End url.

Definition sample_Externals : Externals :=
  {| URL := url.t;
     url_Parse := url.Parse;
     Hostname := url.Hostname;
     protocol_Name := "lightwave";
     protocol_Version := 1 |}.

(** Example values: a tunnel with every optional field unset, a
    relay address, and a network on which every dial is refused. *)
Definition plainTunnel : Tunnel :=
  {| Namespace := "worker"; TLSConfig := None; QuicConfig := None;
     Auth := None; HasOnConnectionReady := false |}.

Definition relayAddr : string := "https://relay.example.com:4433".

Definition refused : error := errorString "connection refused".

Definition refusingDialer : Dialer := fun _ _ _ => inl refused.

Definition startOfCall : timeline := {| now := 0; sleeps := [] |}.

(** The request [register] hands to the authenticator, and the
    authenticator it uses. *)
Definition request `{Externals} (s : Tunnel) : RegisterListenerRequest :=
  {| Version := protocol_Version; Service := Namespace s; Metadata := None |}.

Definition authenticator (s : Tunnel) : Authenticator :=
  match Auth s with
  | Some a => a
  | None => defaultAuthenticator
  end.

(** More example values: a relay that accepts, one that answers
    [Unauthorized], a network that refuses the first two dials, an
    authenticator that refuses, and tunnels that use them. *)
Definition acceptingConn : Connection :=
  {| OpenStream := None;
     Encode := fun _ => None;
     Decode := inr {| Code := CodeOK |};
     ServeQUICConn := None |}.

Definition unauthorizedConn : Connection :=
  {| OpenStream := None;
     Encode := fun _ => None;
     Decode := inr {| Code := CodeUnauthorized |};
     ServeQUICConn := None |}.

Definition acceptingDialer : Dialer := fun _ _ _ => inr acceptingConn.

Definition flakyDialers (i : nat) : Dialer :=
  if (i <? 2)%nat then refusingDialer else acceptingDialer.

Definition refusingAuthenticator : Authenticator :=
  fun rlr => (Some (errorString "no token"), rlr, []).

Definition bearerTunnel : Tunnel :=
  {| Namespace := "worker"; TLSConfig := None; QuicConfig := None;
     Auth := Some (BearerAuthenticator "s3cr3t"); HasOnConnectionReady := true |}.

Definition lockedTunnel : Tunnel :=
  {| Namespace := "worker"; TLSConfig := None; QuicConfig := None;
     Auth := Some refusingAuthenticator; HasOnConnectionReady := true |}.

(** A process whose package-level configuration names a server. *)
Definition named `{Externals} : process :=
  set_tls DefaultTLSConfig
    {| ServerName := "relay.example.com"; NextProtos := [protocol_Name] |} initial.

Definition tracedRequest : RegisterListenerRequest :=
  {| Version := 1; Service := "worker"; Metadata := Some {[ "trace" := "abc" ]} |}.

End tunnel.

(** ** Go types and values seen through [reflect] *)

Module reflect.
Import context.

Module StructField.
(** An exported struct field with its [json] tag. *)
Record t : Type := {
  Name : string;
  JSONName : string;
  OmitEmpty : bool
}.
End StructField.

(** The Go types that occur in method signatures of the modelled
    services: the [context.Context] and [error] interfaces, three
    basic types, and named structs over them, all passed by value.
    Other interfaces (the empty one among them), pointers, slices,
    maps and variadic parameters are outside this universe; a
    property that depends on how such a parameter would behave is
    stated for the types it covers. *)
#[warnings="-register-all"] Inductive Type_ : Type :=
| Context_
| Error_
| String_
| Int_
| Bool_
| Struct_ (pkg name : string) (fields : list (StructField.t * Type_)).

(** [Type.String()], as [%T] prints it. *)
Definition TypeString (t : Type_) : string :=
  match t with
  | Context_ => "context.Context"
  | Error_ => "error"
  | String_ => "string"
  | Int_ => "int"
  | Bool_ => "bool"
  | Struct_ pkg name _ => pkg +:+ "." +:+ name
  end.

#[warnings="-register-all"] Inductive Value : Type :=
| VNil                                   (* a nil interface value *)
| VContext (c : Context)
| VError (e : error)
| VString (s : string)
| VInt (z : Z)
| VBool (b : bool)
| VStruct (pkg name : string) (fields : list (StructField.t * Value)).

(** [reflect.New(t).Elem()]: the zero value of a type. *)
Fixpoint Zero (t : Type_) : Value :=
  match t with
  | Context_ | Error_ => VNil
  | String_ => VString ""
  | Int_ => VInt 0
  | Bool_ => VBool false
  | Struct_ pkg name fields =>
    VStruct pkg name (map (fun ft => (ft.1, Zero ft.2)) fields)
  end.

(** Whether [reflect.Value.Call] accepts the value for a parameter
    of the type. *)
Definition assignable (v : Value) (t : Type_) : bool :=
  match v, t with
  | VContext _, Context_ => true
  | VError _, Error_ => true
  | VString _, String_ => true
  | VInt _, Int_ => true
  | VBool _, Bool_ => true
  | VStruct pkg name _, Struct_ pkg' name' _ =>
    bool_decide (pkg = pkg') && bool_decide (name = name')
  | _, _ => false
  end.

(** The types passed by value that [encoding/json] decodes from
    and encodes to text without a failure case of their own:
    strings, integers, booleans and structs of such. *)
Fixpoint plainType (t : Type_) : bool :=
  match t with
  | String_ | Int_ | Bool_ => true
  | Struct_ _ _ fields => forallb (fun ft => plainType ft.2) fields
  | Context_ | Error_ => false
  end.

(** The values of those types. *)
Fixpoint plainValue (v : Value) : bool :=
  match v with
  | VString _ | VInt _ | VBool _ => true
  | VStruct _ _ fields => forallb (fun fv => plainValue fv.2) fields
  | VNil | VContext _ | VError _ => false
  end.

Module Method.
(** A method of the method set of a registered object, bound to
    its receiver: [In] lists the parameter types after the
    receiver, [Func] is what calling it computes. *)
Record t : Type := {
  Name : string;
  In : list Type_;
  Out : list Type_;
  Func : list Value -> list Value
}.
End Method.

Inductive Kind : Type :=
| Invalid | Bool | Int | String | Struct | Interface | Pointer.

End reflect.

(** ** [encoding/json], for the types above *)

Module json.
Import reflect.

Definition dquote : Ascii.ascii := "034"%char.
Definition backslash : Ascii.ascii := "092"%char.

Definition code (c : Ascii.ascii) : N := Ascii.N_of_ascii c.
Definition byte (n : N) : Ascii.ascii := Ascii.ascii_of_N n.

#[warnings="-register-all"] Inductive JSON : Type :=
| JNull
| JBool (b : bool)
| JNumber (literal : string)
| JString (s : string)
| JArray (elems : list JSON)
| JObject (members : list (string * JSON)).

(** Scanning either yields a result and the rest of the input or
    stops with a [*json.SyntaxError]. *)
Definition scan (A : Type) : Type := (error + (A * string))%type.

Definition unexpectedEnd {A} : scan A :=
  inl (SyntaxError "unexpected end of JSON input").

(** The message keeps the offending character; the scanner's note
    on where it stood ([looking for beginning of value] and the
    like) is left out. *)
Definition invalidCharacter {A} (c : Ascii.ascii) : scan A :=
  inl (SyntaxError ("invalid character " +:+ String.String c "")).

Definition is_space (c : Ascii.ascii) : bool :=
  (code c =? 32)%N || (code c =? 9)%N || (code c =? 10)%N || (code c =? 13)%N.

Definition is_digit (c : Ascii.ascii) : bool :=
  (48 <=? code c)%N && (code c <=? 57)%N.

Fixpoint skip_space (s : string) : string :=
  match s with
  | String.String c rest => if is_space c then skip_space rest else s
  | EmptyString => s
  end.

Fixpoint span (p : Ascii.ascii -> bool) (s : string) : string * string :=
  match s with
  | String.String c rest =>
    if p c then let '(a, b) := span p rest in (String.String c a, b)
    else ("", s)
  | EmptyString => ("", "")
  end.

Definition hex (c : Ascii.ascii) : option N :=
  let n := code c in
  if (48 <=? n)%N && (n <=? 57)%N then Some (n - 48)%N
  else if (97 <=? n)%N && (n <=? 102)%N then Some (n - 87)%N
  else if (65 <=? n)%N && (n <=? 70)%N then Some (n - 55)%N
  else None.

Definition hex4 (a b c d : Ascii.ascii) : option N :=
  match hex a, hex b, hex c, hex d with
  | Some x, Some y, Some z, Some w => Some (((x * 16 + y) * 16 + z) * 16 + w)%N
  | _, _, _, _ => None
  end.

(** UTF-8 encoding of a code point. *)
Definition utf8 (cp : N) : string :=
  if (cp <? 128)%N then String.String (byte cp) ""
  else if (cp <? 2048)%N then
    String.String (byte (192 + cp / 64))
      (String.String (byte (128 + cp mod 64)) "")
  else if (cp <? 65536)%N then
    String.String (byte (224 + cp / 4096))
      (String.String (byte (128 + (cp / 64) mod 64))
         (String.String (byte (128 + cp mod 64)) ""))
  else
    String.String (byte (240 + cp / 262144))
      (String.String (byte (128 + (cp / 4096) mod 64))
         (String.String (byte (128 + (cp / 64) mod 64))
            (String.String (byte (128 + cp mod 64)) ""))).

Definition is_high_surrogate (cp : N) : bool := (55296 <=? cp)%N && (cp <? 56320)%N.
Definition is_low_surrogate (cp : N) : bool := (56320 <=? cp)%N && (cp <? 57344)%N.
Definition replacement : N := 65533.

Definition between (lo hi : N) (c : Ascii.ascii) : bool :=
  (lo <=? code c)%N && (code c <=? hi)%N.

(** [utf8.DecodeRuneInString]: the code point at the head of the
    string and the number of bytes it takes.  A byte that does not
    start a well-formed sequence decodes as U+FFFD of width 1. *)
Definition DecodeRune (s : string) : N * nat :=
  match s with
  | EmptyString => (replacement, 0%nat)
  | String.String c0 rest =>
    let b0 := code c0 in
    if (b0 <? 128)%N then (b0, 1%nat)
    else if between 194 223 c0 then
      match rest with
      | String.String c1 _ =>
        if between 128 191 c1
        then (((b0 - 192) * 64 + (code c1 - 128))%N, 2%nat)
        else (replacement, 1%nat)
      | _ => (replacement, 1%nat)
      end
    else if between 224 239 c0 then
      let lo := if (b0 =? 224)%N then 160%N else 128%N in
      let hi := if (b0 =? 237)%N then 159%N else 191%N in
      match rest with
      | String.String c1 (String.String c2 _) =>
        if between lo hi c1 && between 128 191 c2
        then ((((b0 - 224) * 64 + (code c1 - 128)) * 64 + (code c2 - 128))%N, 3%nat)
        else (replacement, 1%nat)
      | _ => (replacement, 1%nat)
      end
    else if between 240 244 c0 then
      let lo := if (b0 =? 240)%N then 144%N else 128%N in
      let hi := if (b0 =? 244)%N then 143%N else 191%N in
      match rest with
      | String.String c1 (String.String c2 (String.String c3 _)) =>
        if between lo hi c1 && between 128 191 c2 && between 128 191 c3
        then (((((b0 - 240) * 64 + (code c1 - 128)) * 64 + (code c2 - 128)) * 64
               + (code c3 - 128))%N, 4%nat)
        else (replacement, 1%nat)
      | _ => (replacement, 1%nat)
      end
    else (replacement, 1%nat)
  end.

Definition simple_escape (c : Ascii.ascii) : option Ascii.ascii :=
  let n := code c in
  if (n =? 34)%N then Some dquote
  else if (n =? 92)%N then Some backslash
  else if (n =? 47)%N then Some "/"%char
  else if (n =? 98)%N then Some (byte 8)
  else if (n =? 102)%N then Some (byte 12)
  else if (n =? 110)%N then Some (byte 10)
  else if (n =? 114)%N then Some (byte 13)
  else if (n =? 116)%N then Some (byte 9)
  else None.

Definition prepend (pre : string) (r : scan string) : scan string :=
  match r with
  | inl e => inl e
  | inr (s, rest) => inr (pre +:+ s, rest)
  end.

(** The body of a string literal, after its opening quote.  The
    text is coerced to well-formed UTF-8 as [unquote] does: a byte
    that does not start a well-formed sequence becomes U+FFFD.
    [pending] counts the bytes still to copy of a sequence already
    found well formed. *)
Fixpoint scan_string_from (pending : nat) (s : string) : scan string :=
  match s with
  | EmptyString => unexpectedEnd
  | String.String c rest =>
    match pending with
    | S pending' => prepend (String.String c "") (scan_string_from pending' rest)
    | O =>
    if (code c =? 34)%N then inr ("", rest)
    else if (code c =? 92)%N then
      match rest with
      | EmptyString => unexpectedEnd
      | String.String e rest1 =>
        match simple_escape e with
        | Some ch => prepend (String.String ch "") (scan_string_from 0 rest1)
        | None =>
          if (code e =? 117)%N then
            match rest1 with
            | String.String h1 (String.String h2 (String.String h3 (String.String h4 rest2))) =>
              match hex4 h1 h2 h3 h4 with
              | None => invalidCharacter h1
              | Some cp =>
                if is_high_surrogate cp then
                  match rest2 with
                  | String.String b (String.String u
                      (String.String l1 (String.String l2
                         (String.String l3 (String.String l4 rest3))))) =>
                    match hex4 l1 l2 l3 l4 with
                    | Some lo =>
                      if (code b =? 92)%N && (code u =? 117)%N && is_low_surrogate lo
                      then prepend
                             (utf8 (65536 + (cp - 55296) * 1024 + (lo - 56320))%N)
                             (scan_string_from 0 rest3)
                      else prepend (utf8 replacement) (scan_string_from 0 rest2)
                    | None => prepend (utf8 replacement) (scan_string_from 0 rest2)
                    end
                  | _ => prepend (utf8 replacement) (scan_string_from 0 rest2)
                  end
                else if is_low_surrogate cp then
                  prepend (utf8 replacement) (scan_string_from 0 rest2)
                else prepend (utf8 cp) (scan_string_from 0 rest2)
              end
            | _ => unexpectedEnd
            end
          else invalidCharacter e
        end
      end
    else if (code c <? 32)%N then invalidCharacter c
    else if (code c <? 128)%N then
      prepend (String.String c "") (scan_string_from 0 rest)
    else
      match DecodeRune s with
      | (_, 1%nat) => prepend (utf8 replacement) (scan_string_from 0 rest)
      | (_, size) =>
        prepend (String.String c "") (scan_string_from (Nat.pred size) rest)
      end
    end
  end.

Definition scan_string : string -> scan string := scan_string_from 0.

Definition first (s : string) : option Ascii.ascii :=
  match s with
  | String.String c _ => Some c
  | EmptyString => None
  end.

(** A run of one or more digits. *)
Definition scan_digits (s : string) : scan string :=
  match span is_digit s with
  | (EmptyString, rest) =>
    match first rest with
    | Some c => invalidCharacter c
    | None => unexpectedEnd
    end
  | (ds, rest) => inr (ds, rest)
  end.

(** A number literal: sign, integer part without leading zeros,
    fraction, exponent. *)
Definition scan_number (s : string) : scan string :=
  let '(sign, s1) :=
    match s with
    | String.String c rest => if (code c =? 45)%N then ("-", rest) else ("", s)
    | EmptyString => ("", s)
    end in
  match scan_digits s1 with
  | inl e => inl e
  | inr (int, s2) =>
    let '(int, s2) :=
      match int with
      | String.String z (String.String d ds) =>
        if (code z =? 48)%N then ("0", String.String d ds +:+ s2) else (int, s2)
      | _ => (int, s2)
      end in
    let frac : scan string :=
      match s2 with
      | String.String c rest =>
        if (code c =? 46)%N then prepend "." (scan_digits rest) else inr ("", s2)
      | EmptyString => inr ("", s2)
      end in
    match frac with
    | inl e => inl e
    | inr (fr, s3) =>
      let exp : scan string :=
        match s3 with
        | String.String c rest =>
          if (code c =? 101)%N || (code c =? 69)%N then
            match rest with
            | String.String sg rest' =>
              if (code sg =? 43)%N || (code sg =? 45)%N
              then prepend (String.String c (String.String sg "")) (scan_digits rest')
              else prepend (String.String c "") (scan_digits rest)
            | EmptyString => unexpectedEnd
            end
          else inr ("", s3)
        | EmptyString => inr ("", s3)
        end in
      match exp with
      | inl e => inl e
      | inr (ex, s4) => inr (sign +:+ int +:+ fr +:+ ex, s4)
      end
    end
  end.

(** The rest of [s] after the literal [lit], if [s] starts with it. *)
Fixpoint strip (lit s : string) : option string :=
  match lit, s with
  | EmptyString, _ => Some s
  | String.String a lit', String.String b s' =>
    if Ascii.eqb a b then strip lit' s' else None
  | _, EmptyString => None
  end.

Definition scan_literal (lit : string) (v : JSON) (s : string) : scan JSON :=
  match strip lit s with
  | Some rest => inr (v, rest)
  | None =>
    match s with
    | String.String c _ => invalidCharacter c
    | EmptyString => unexpectedEnd
    end
  end.

(** One value.  [fuel] bounds the number of values, members and
    elements scanned; every one of them consumes input, so the
    length of the input is enough. *)
Fixpoint scan_value (fuel : nat) (s : string) : scan JSON :=
  match fuel with
  | O => inl (SyntaxError "exceeded max depth")
  | S fuel' =>
    match skip_space s with
    | EmptyString => unexpectedEnd
    | String.String c rest =>
      let n := code c in
      if (n =? 123)%N then
        match skip_space rest with
        | String.String c' rest' =>
          if (code c' =? 125)%N then inr (JObject [], rest')
          else
            match scan_members fuel' (String.String c' rest') with
            | inl e => inl e
            | inr (ms, rest'') => inr (JObject ms, rest'')
            end
        | EmptyString => unexpectedEnd
        end
      else if (n =? 91)%N then
        match skip_space rest with
        | String.String c' rest' =>
          if (code c' =? 93)%N then inr (JArray [], rest')
          else
            match scan_elems fuel' (String.String c' rest') with
            | inl e => inl e
            | inr (es, rest'') => inr (JArray es, rest'')
            end
        | EmptyString => unexpectedEnd
        end
      else if (n =? 34)%N then
        match scan_string rest with
        | inl e => inl e
        | inr (str, rest') => inr (JString str, rest')
        end
      else if (n =? 116)%N then scan_literal "true" (JBool true) (String.String c rest)
      else if (n =? 102)%N then scan_literal "false" (JBool false) (String.String c rest)
      else if (n =? 110)%N then scan_literal "null" JNull (String.String c rest)
      else if (n =? 45)%N || is_digit c then
        match scan_number (String.String c rest) with
        | inl e => inl e
        | inr (lit, rest') => inr (JNumber lit, rest')
        end
      else invalidCharacter c
    end
  end

(** The members of an object, from the first key up to and
    including the closing brace. *)
with scan_members (fuel : nat) (s : string) : scan (list (string * JSON)) :=
  match fuel with
  | O => inl (SyntaxError "exceeded max depth")
  | S fuel' =>
    match skip_space s with
    | EmptyString => unexpectedEnd
    | String.String q rest =>
      if negb (code q =? 34)%N then invalidCharacter q
      else
        match scan_string rest with
        | inl e => inl e
        | inr (key, rest1) =>
          match skip_space rest1 with
          | EmptyString => unexpectedEnd
          | String.String colon rest2 =>
            if negb (code colon =? 58)%N then invalidCharacter colon
            else
              match scan_value fuel' rest2 with
              | inl e => inl e
              | inr (v, rest3) =>
                match skip_space rest3 with
                | EmptyString => unexpectedEnd
                | String.String sep rest4 =>
                  if (code sep =? 125)%N then inr ([(key, v)], rest4)
                  else if (code sep =? 44)%N then
                    match scan_members fuel' rest4 with
                    | inl e => inl e
                    | inr (ms, rest5) => inr ((key, v) :: ms, rest5)
                    end
                  else invalidCharacter sep
                end
              end
          end
        end
    end
  end

(** The elements of an array, from the first one up to and
    including the closing bracket. *)
with scan_elems (fuel : nat) (s : string) : scan (list JSON) :=
  match fuel with
  | O => inl (SyntaxError "exceeded max depth")
  | S fuel' =>
    match scan_value fuel' s with
    | inl e => inl e
    | inr (v, rest) =>
      match skip_space rest with
      | EmptyString => unexpectedEnd
      | String.String sep rest' =>
        if (code sep =? 93)%N then inr ([v], rest')
        else if (code sep =? 44)%N then
          match scan_elems fuel' rest' with
          | inl e => inl e
          | inr (vs, rest'') => inr (v :: vs, rest'')
          end
        else invalidCharacter sep
      end
    end
  end.

(** The whole input as one value (the decoder's [checkValid] and
    scan in one pass). *)
Definition parse (data : string) : error + JSON :=
  match scan_value (S (String.length data)) data with
  | inl e => inl e
  | inr (v, rest) =>
    match skip_space rest with
    | EmptyString => inr v
    | String.String c _ => inl (SyntaxError ("invalid character " +:+ String.String c ""))
    end
  end.

(** *** Decoding into a Go value *)

Fixpoint digits_value (s : string) (acc : Z) : option Z :=
  match s with
  | EmptyString => Some acc
  | String.String c rest =>
    if is_digit c then digits_value rest (10 * acc + Z.of_N (code c - 48)) else None
  end.

(** [strconv.ParseInt(lit, 10, 64)] on a JSON number literal. *)
Definition ParseInt (lit : string) : option Z :=
  let r := match lit with
           | String.String c rest =>
             if (code c =? 45)%N then option_map Z.opp (digits_value rest 0)
             else digits_value lit 0
           | EmptyString => None
           end in
  match r with
  | Some z => if (- 2 ^ 63 <=? z) && (z <? 2 ^ 63) then Some z else None
  | None => None
  end.

Definition lower (c : Ascii.ascii) : Ascii.ascii :=
  if (65 <=? code c)%N && (code c <=? 90)%N then byte (code c + 32) else c.

Fixpoint fold_case (s : string) : string :=
  match s with
  | String.String c rest => String.String (lower c) (fold_case rest)
  | EmptyString => EmptyString
  end.

(** The position of the field a key selects: an exact match of the
    JSON name first, a case-insensitive one otherwise. *)
Fixpoint find_by {A} (p : StructField.t -> bool) (fields : list (StructField.t * A))
    : option nat :=
  match fields with
  | [] => None
  | (f, _) :: rest => if p f then Some O else option_map S (find_by p rest)
  end.

Definition find_field {A} (key : string) (fields : list (StructField.t * A))
    : option nat :=
  match find_by (fun f => bool_decide (StructField.JSONName f = key)) fields with
  | Some i => Some i
  | None =>
    find_by (fun f => bool_decide (fold_case (StructField.JSONName f) = fold_case key))
      fields
  end.

Definition first_error (a b : option error) : option error :=
  match a with
  | Some _ => a
  | None => b
  end.

(** Where the decoder stands, for its error messages: the struct
    being decoded and the JSON names of the fields entered. *)
Record errorContext : Type := {
  Struct : string;
  FieldStack : list string
}.

Definition top : errorContext := {| Struct := ""; FieldStack := [] |}.

Definition join_dot (parts : list string) : string :=
  match parts with
  | [] => ""
  | p0 :: ps => fold_left (fun acc q => acc +:+ "." +:+ q) ps p0
  end.

Definition typeError (d : errorContext) (value : string) (t : Type_) : error :=
  UnmarshalTypeError value (TypeString t) (Struct d) (join_dot (FieldStack d)).

(** Storing a JSON value into a Go value of type [t].  A mismatch
    leaves the destination as it is and is reported; as in the
    decoder, decoding goes on and the first mismatch is the error
    returned.  [null] resets an interface and leaves anything else
    alone; keys that select no field are skipped. *)
Fixpoint store (d : errorContext) (j : JSON) (t : Type_) (cur : Value)
    : Value * option error :=
  match j with
  | JNull =>
    match t with
    | Context_ | Error_ => (VNil, None)
    | _ => (cur, None)
    end
  | JBool b =>
    match t with
    | Bool_ => (VBool b, None)
    | _ => (cur, Some (typeError d "bool" t))
    end
  | JNumber lit =>
    match t with
    | Int_ =>
      match ParseInt lit with
      | Some z => (VInt z, None)
      | None => (cur, Some (typeError d ("number " +:+ lit) t))
      end
    | _ => (cur, Some (typeError d "number" t))
    end
  | JString str =>
    match t with
    | String_ => (VString str, None)
    | _ => (cur, Some (typeError d "string" t))
    end
  | JArray _ => (cur, Some (typeError d "array" t))
  | JObject members =>
    match t, cur with
    | Struct_ pkg name types, VStruct _ _ fields =>
      let '(fields', err) :=
        (fix each (ms : list (string * JSON)) (fs : list (StructField.t * Value))
             (err : option error) : list (StructField.t * Value) * option error :=
           match ms with
           | [] => (fs, err)
           | (key, v) :: ms' =>
             match find_field key types with
             | None => each ms' fs err
             | Some i =>
               match types !! i, fs !! i with
               | Some (f, ft), Some (_, old) =>
                 let '(new, e) :=
                   store {| Struct := name;
                            FieldStack := FieldStack d ++ [StructField.JSONName f] |}
                     v ft old in
                 each ms' (<[i := (f, new)]> fs) (first_error err e)
               | _, _ => each ms' fs err
               end
             end
           end) members fields None in
      (VStruct pkg name fields', err)
    | _, _ => (cur, Some (typeError d "object" t))
    end
  end.

(** What [json.Unmarshal(data, &valInt)] leaves in [valInt], an
    interface that holds a pointer to a fresh zero value of [t]:
    the literal [null] resets the interface itself to nil; anything
    else is decoded into the value pointed to. *)
Inductive Unmarshalled : Type :=
| Decoded (v : Value)
| InterfaceNil
| Failed (err : error).

Definition Unmarshal (data : string) (t : Type_) : Unmarshalled :=
  match parse data with
  | inl e => Failed e
  | inr JNull => InterfaceNil
  | inr j =>
    match store top j t (Zero t) with
    | (_, Some e) => Failed e
    | (v, None) => Decoded v
    end
  end.

(** *** Encoding *)

Definition hexdigit (n : N) : Ascii.ascii :=
  if (n <? 10)%N then byte (48 + n) else byte (87 + n).

(** The escape [\u00XX]. *)
Definition u00 (n : N) : string :=
  String.String backslash
    (String.String "u" (String.String "0" (String.String "0"
       (String.String (hexdigit (n / 16)) (String.String (hexdigit (n mod 16)) ""))))).

Definition esc (c : Ascii.ascii) : string :=
  String.String backslash (String.String c "").

(** The escape of U+2028 or U+2029, [\u2028] or [\u2029]. *)
Definition u202 (cp : N) : string :=
  String.String backslash
    (String.String "u" (String.String "2" (String.String "0"
       (String.String "2" (String.String (hexdigit (cp mod 16)) ""))))).

(** [\ufffd], written for a byte that starts no well-formed
    sequence. *)
Definition ufffd : string :=
  String.String backslash
    (String.String "u" (String.String "f" (String.String "f"
       (String.String "f" (String.String "d" ""))))).

(** The body of an encoded string: quotes, backslashes and control
    characters escaped, and also the HTML characters and the line
    separators U+2028 and U+2029, as the default encoder does; a
    byte that starts no well-formed UTF-8 sequence is written as
    [\ufffd]; other multi-byte sequences are copied.  [pending]
    counts the bytes still to copy of a sequence already found well
    formed. *)
Fixpoint escape_from (pending : nat) (s : string) : string :=
  match s with
  | EmptyString => EmptyString
  | String.String c rest =>
    match pending with
    | S pending' => String.String c (escape_from pending' rest)
    | O =>
      let n := code c in
      if (n <? 128)%N then
        (if (n =? 34)%N || (n =? 92)%N then esc c
         else if (n =? 8)%N then esc "b"
         else if (n =? 12)%N then esc "f"
         else if (n =? 10)%N then esc "n"
         else if (n =? 13)%N then esc "r"
         else if (n =? 9)%N then esc "t"
         else if (n <? 32)%N || (n =? 60)%N || (n =? 62)%N || (n =? 38)%N then u00 n
         else String.String c "") +:+ escape_from 0 rest
      else
        match DecodeRune s with
        | (_, 1%nat) => ufffd +:+ escape_from 0 rest
        | (cp, size) =>
          if (cp =? 8232)%N || (cp =? 8233)%N then
            match rest with
            | String.String _ (String.String _ rest') =>
              u202 cp +:+ escape_from 0 rest'
            | _ => u202 cp
            end
          else String.String c (escape_from (Nat.pred size) rest)
        end
    end
  end.

Definition escape : string -> string := escape_from 0.

Definition quote (s : string) : string :=
  String.String dquote (escape s +:+ String.String dquote "").

Definition is_empty_value (v : Value) : bool :=
  match v with
  | VNil => true
  | VString s => bool_decide (s = "")
  | VInt z => z =? 0
  | VBool b => negb b
  | _ => false
  end.

Definition join_comma (parts : list string) : string :=
  match parts with
  | [] => ""
  | p0 :: ps => fold_left (fun acc q => acc +:+ "," +:+ q) ps p0
  end.

(** [json.Marshal]; it has no failure case on these values.  For
    a context or an error the text is that of a value without
    exported fields, as [context.Background()] and [errors.New]
    give. *)
Fixpoint Marshal (v : Value) : string :=
  match v with
  | VNil => "null"
  | VContext _ | VError _ => "{}"
  | VString s => quote s
  | VInt z => pretty z
  | VBool b => if b then "true" else "false"
  | VStruct _ _ fields =>
    "{" +:+
    join_comma
      ((fix each (fs : list (StructField.t * Value)) : list string :=
          match fs with
          | [] => []
          | (f, x) :: fs' =>
            if StructField.OmitEmpty f && is_empty_value x then each fs'
            else (quote (StructField.JSONName f) +:+ ":" +:+ Marshal x) :: each fs'
          end) fields)
    +:+ "}"
  end.

End json.

(** ** Package [servicedef] *)

Module jsonschema.
(** The schema that [jsonschema.Reflect] derives for a type is kept
    symbolic: it is determined by the type it is derived from. *)
Inductive Schema : Type := Reflect (t : reflect.Type_).
End jsonschema.

Module servicedef.

Module RoutingRule.
Record t : Type := {
  Type_ : string;
  Path : string;
  Method : string;
  Target : string
}.
Definition zero : t := {| Type_ := ""; Path := ""; Method := ""; Target := "" |}.
End RoutingRule.

Module RootSchema.
Record t : Type := { Schema : jsonschema.Schema }.
End RootSchema.

Module Operation.
Record t : Type := {
  ID : string;
  Name : string;
  CLIName : string;
  Description : string;
  RoutingRule : RoutingRule.t;
  RequestBody : option RootSchema.t;
  ResponseBody : option (gmap string jsonschema.Schema)
}.
End Operation.

Module Service.
Record t : Type := {
  ID : string;
  CLIName : string;
  Name : string;
  Description : string;
  Operations : list Operation.t
}.
End Service.

Module Definitions.
Record t : Type := { Services : list Service.t }.
End Definitions.

End servicedef.

(** ** Package [ops]: registry and dispatcher *)

Module ops.
Import context reflect servicedef.

Module OperationMetadata.
Record t : Type := { Description : string }.
Definition zero : t := {| Description := "" |}.
End OperationMetadata.

Module ServiceMetadata.
Record t : Type := {
  ID : string;
  DisplayName : string;
  Description : string;
  OperationMetadata : gmap string OperationMetadata.t
}.
Definition zero : t :=
  {| ID := ""; DisplayName := ""; Description := ""; OperationMetadata := ∅ |}.
End ServiceMetadata.

Module Object.
(** A value handed to [Register], as [Build] inspects it:
    its kind, whether it is a nil pointer, its [%T], the name of
    the type it points to, the method set of its type in
    [reflect]'s order, and, when it satisfies
    [ServiceWithMetadata], what its [Metadata()] returns. *)
Record t : Type := {
  Kind : Kind;
  IsNil : bool;
  TypeString : string;
  ElemName : string;
  Methods : list Method.t;
  Metadata : option ServiceMetadata.t
}.
End Object.

Record Registry : Type := {
  services : list Object.t
}.

Definition New : Registry := {| services := [] |}.

Definition Register (h : Registry) (service : Object.t) : Registry :=
  {| services := services h ++ [service] |}.

Record function : Type := {
  method : Method.t;
  inputType : option Type_
}.

Record Handler : Type := {
  routes : gmap string (gmap string function);
  defs : Definitions.t
}.

(** What a call returns: a value, an error, or a run-time panic. *)
Inductive outcome (A : Type) : Type :=
| Ok (a : A)
| Err (e : error)
| Panic (msg : string).
Arguments Ok {A} a.
Arguments Err {A} e.
Arguments Panic {A} msg.

(** One [slog.Error] record: message and the ["error"] attribute. *)
Definition Record_ : Type := (string * error)%type.

Record extractMethodsResult : Type := {
  InputSchema : option jsonschema.Schema;
  InputType : option Type_
}.

Definition is_context (t : Type_) : bool :=
  match t with
  | Context_ => true
  | _ => false
  end.

(** The loop of [extractMethods] from index [i] on; [params] are
    the parameters at the indices [i], [i + 1], ... *)
Fixpoint extractMethods_from (i : nat) (params : list Type_)
    (res : extractMethodsResult) : extractMethodsResult * option error :=
  match params with
  | [] => (res, None)
  | t :: rest =>
    let isCtx := is_context t in
    if negb isCtx && (i =? 1)%nat then
      (res,
       Some (errorString
               ("first arg was not context.Context, got *" +:+ TypeString t)))
    else if (i =? 2)%nat then
      ({| InputSchema := Some (jsonschema.Reflect t); InputType := Some t |}, None)
    else extractMethods_from (S i) rest res
  end.

(** Index 0 is the receiver; the loop starts at index 1. *)
Definition extractMethods (f : Method.t) : extractMethodsResult * option error :=
  extractMethods_from 1 (Method.In f) {| InputSchema := None; InputType := None |}.

Record parseMethodResult : Type := {
  function_ : function;
  operation : Operation.t
}.

Definition lookupOperationMetadata (meta : ServiceMetadata.t) (name : string)
    : OperationMetadata.t :=
  match ServiceMetadata.OperationMetadata meta !! name with
  | Some m => m
  | None => OperationMetadata.zero
  end.

Definition newOperation (name description : string) : Operation.t :=
  {| Operation.ID := name;
     Operation.Name := "";
     Operation.CLIName := "";
     Operation.Description := description;
     Operation.RoutingRule := RoutingRule.zero;
     Operation.RequestBody := None;
     Operation.ResponseBody := None |}.

Definition withRequestBody (op : Operation.t) (schema : option jsonschema.Schema)
    : Operation.t :=
  match schema with
  | Some sch =>
    {| Operation.ID := Operation.ID op;
       Operation.Name := Operation.Name op;
       Operation.CLIName := Operation.CLIName op;
       Operation.Description := Operation.Description op;
       Operation.RoutingRule := Operation.RoutingRule op;
       Operation.RequestBody := Some {| RootSchema.Schema := sch |};
       Operation.ResponseBody := Operation.ResponseBody op |}
  | None => op
  end.

Definition logError (err : option error) : list Record_ :=
  match err with
  | Some e => [("error extracting method", e)]
  | None => []
  end.

(** [parseMethod]; the pair (result, ok) is an option, and the
    records it logs are returned with it. *)
Definition parseMethod (method : Method.t) (methodValue : Method.t)
    (meta : ServiceMetadata.t) : option parseMethodResult * list Record_ :=
  if decide (Method.Name method = "Metadata") then (None, [])
  else
    let opMeta := lookupOperationMetadata meta (Method.Name method) in
    let op := newOperation (Method.Name method) (OperationMetadata.Description opMeta) in
    let '(extract, err) := extractMethods method in
    let op := withRequestBody op (InputSchema extract) in
    (Some {| function_ := {| method := methodValue; inputType := InputType extract |};
             operation := op |},
     logError err).

(** The body of the loop over the methods of one service: the
    route map, the operations of the service definition and the log
    before and after one method. *)
Definition buildMethod (meta : ServiceMetadata.t)
    (acc : gmap string function * list Operation.t * list Record_)
    (method : Method.t)
    : gmap string function * list Operation.t * list Record_ :=
  let '(routeMap, operations, log) := acc in
  if decide (Method.Name method = "Metadata") then acc
  else
    let methodValue := method in
    let opMeta := lookupOperationMetadata meta (Method.Name method) in
    let op := newOperation (Method.Name method) (OperationMetadata.Description opMeta) in
    let '(extract, err) := extractMethods method in
    let log := log ++ logError err in
    let op := withRequestBody op (InputSchema extract) in
    let '(parsed, plog) := parseMethod method methodValue meta in
    let log := log ++ plog in
    match parsed with
    | Some parsed =>
      (<[Operation.ID (operation parsed) :=
           {| method := methodValue; inputType := InputType extract |}]> routeMap,
       operations ++ [op],
       log)
    | None => (routeMap, operations, log)
    end.

Definition notPointer (svc : Object.t) : error :=
  errorString
    ("received a struct that wasn't a pointer for " +:+ Object.TypeString svc +:+
     ": ensure that you call Register() with the address of the struct, e.g. Register(&MyService{})").

Definition alreadyRegistered (id : string) : error :=
  errorString
    ("a service with ID '" +:+ id +:+
     "' has already been registered, please rename the service or remove the second registration (you can update the ID by setting it in Metadata())").

(** The service definition and metadata [Build] starts from. *)
Definition describeService (svc : Object.t) : Service.t * ServiceMetadata.t :=
  match Object.Metadata svc with
  | Some meta =>
    ({| Service.ID := ServiceMetadata.ID meta;
        Service.CLIName := "";
        Service.Name := ServiceMetadata.DisplayName meta;
        Service.Description := ServiceMetadata.Description meta;
        Service.Operations := [] |},
     meta)
  | None =>
    ({| Service.ID := Object.ElemName svc;
        Service.CLIName := "";
        Service.Name := "";
        Service.Description := "";
        Service.Operations := [] |},
     ServiceMetadata.zero)
  end.

Definition withOperations (sdef : Service.t) (ops : list Operation.t) : Service.t :=
  {| Service.ID := Service.ID sdef;
     Service.CLIName := Service.CLIName sdef;
     Service.Name := Service.Name sdef;
     Service.Description := Service.Description sdef;
     Service.Operations := ops |}.

(** What [v.Elem().Type()] panics with when [v] is a nil pointer:
    [Elem] of a nil pointer is the zero [reflect.Value]. *)
Definition zeroValueType : string :=
  "reflect: call of reflect.Value.Type on zero Value".

(** The loop of [Build] over the registered services.  The name of
    the pointed-to type is read before the metadata and before the
    duplicate check, so a nil pointer panics there. *)
Fixpoint buildServices (svcs : list Object.t) (h : Handler) (log : list Record_)
    : outcome Handler * list Record_ :=
  match svcs with
  | [] => (Ok h, log)
  | svc :: rest =>
    match Object.Kind svc with
    | Pointer =>
      if Object.IsNil svc then (Panic zeroValueType, log) else
      let '(sdef, meta) := describeService svc in
      match routes h !! Service.ID sdef with
      | Some _ => (Err (alreadyRegistered (Service.ID sdef)), log)
      | None =>
        let '(routeMap, operations, log) :=
          fold_left (buildMethod meta) (Object.Methods svc)
            (∅, Service.Operations sdef, log) in
        buildServices rest
          {| routes := <[Service.ID sdef := routeMap]> (routes h);
             defs := {| Definitions.Services :=
                          Definitions.Services (defs h)
                          ++ [withOperations sdef operations] |} |}
          log
      end
    | _ => (Err (notPointer svc), log)
    end
  end.

(** [Registry.Build], with the records it logs. *)
Definition Build (r : Registry) : outcome Handler * list Record_ :=
  buildServices (services r)
    {| routes := ∅; defs := {| Definitions.Services := [] |} |} [].

Definition ServiceDefinitions (h : Handler) : Definitions.t := defs h.

(** [reflect.Value.Call]: the arguments must match the parameters
    in number and type. *)
Definition reflectCall (m : Method.t) (args : list Value) : outcome (list Value) :=
  if (length args <? length (Method.In m))%nat then
    Panic "reflect: Call with too few input arguments"
  else if (length (Method.In m) <? length args)%nat then
    Panic "reflect: Call with too many input arguments"
  else if forallb (fun at_ => assignable at_.1 at_.2) (combine args (Method.In m)) then
    Ok (Method.Func m args)
  else Panic "reflect: Call using value of wrong type".

Definition Call (h : Handler) (ctx : Context) (service operation : string)
    (input : string) : outcome string :=
  match routes h !! service with
  | None => Err (errorString ("service " +:+ service +:+ " not found"))
  | Some svcroutes =>
    match svcroutes !! operation with
    | None =>
      Err (errorString
             ("operation " +:+ operation +:+ " not found for service " +:+ service))
    | Some function =>
      let args := [VContext ctx] in
      let prepared : outcome (list Value) :=
        match inputType function with
        | Some t =>
          match json.Unmarshal input t with
          | json.Failed err => Err (Errorf_w "error unmarshalling input" err)
          | json.InterfaceNil => Panic "reflect: call of reflect.Value.Elem on zero Value"
          | json.Decoded v => Ok (args ++ [v])
          end
        | None => Ok args
        end in
      match prepared with
      | Err e => Err e
      | Panic msg => Panic msg
      | Ok args =>
        match reflectCall (method function) args with
        | Err e => Err e
        | Panic msg => Panic msg
        | Ok output =>
          match output with
          | [] => Panic "runtime error: index out of range [0] with length 0"
          | result :: _ => Ok (json.Marshal result)
          end
        end
      end
    end
  end.

(** *** Notions used to state properties *)

(** The service ID [Build] resolves for an object: the one of its
    metadata, or the name of its type. *)
Definition serviceID (svc : Object.t) : string :=
  Service.ID (describeService svc).1.

(** The pair is a key of the routing table. *)
Definition routed (h : Handler) (service operation : string) : Prop :=
  exists svcroutes f,
    routes h !! service = Some svcroutes /\ svcroutes !! operation = Some f.

(** The pair is a service entry and one of its operation entries in
    the definitions document. *)
Definition defined (d : Definitions.t) (service operation : string) : Prop :=
  exists sdef op,
    In sdef (Definitions.Services d) /\ In op (Service.Operations sdef) /\
    Service.ID sdef = service /\ Operation.ID op = operation.

(** The method has a first parameter after the receiver, and it is
    not [context.Context]. *)
Definition firstParamNotContext (m : Method.t) : Prop :=
  exists t rest, Method.In m = t :: rest /\ is_context t = false.

Definition firstParam (m : Method.t) : Type_ :=
  match Method.In m with
  | t :: _ => t
  | [] => Context_
  end.

(** The error [extractMethods] builds for a first parameter of type
    [t]. *)
Definition notContext (t : Type_) : error :=
  errorString ("first arg was not context.Context, got *" +:+ TypeString t).

Definition contains (sub s : string) : Prop :=
  exists pre post, s = pre +:+ sub +:+ post.

(** The route map and the operation list name the same operations. *)
Definition agree (rm : gmap string function) (ops : list Operation.t) : Prop :=
  forall k, is_Some (rm !! k) <-> exists op, In op ops /\ Operation.ID op = k.

Definition noMetadata (rm : gmap string function) (ops : list Operation.t) : Prop :=
  rm !! "Metadata" = None /\
  forall op, In op ops -> Operation.ID op <> "Metadata".

(** The handler after one more service. *)
Definition extend (h : Handler) (svc : Object.t)
    (rm : gmap string function) (ops : list Operation.t) : Handler :=
  {| routes := <[serviceID svc := rm]> (routes h);
     defs := {| Definitions.Services :=
                  Definitions.Services (defs h)
                  ++ [withOperations (describeService svc).1 ops] |} |}.

Fixpoint prefixb (p s : string) : bool :=
  match p, s with
  | EmptyString, _ => true
  | String.String a p', String.String b s' => Ascii.eqb a b && prefixb p' s'
  | _, EmptyString => false
  end.

(** The boolean test for [contains]. *)
Fixpoint containsb (sub s : string) : bool :=
  prefixb sub s ||
  match s with
  | String.String _ rest => containsb sub rest
  | EmptyString => false
  end.

Definition isPointer (svc : Object.t) : Prop := Object.Kind svc = Pointer.

(** A pointer that points to a value: what [Register(&MyService{})]
    hands over. *)
Definition nonNilPointer (svc : Object.t) : Prop :=
  Object.Kind svc = Pointer /\ Object.IsNil svc = false.

(** A nil pointer of a pointer type, as [var s *MyService] followed
    by [Register(s)] hands over. *)
Definition nilPointer (svc : Object.t) : Prop :=
  Object.Kind svc = Pointer /\ Object.IsNil svc = true.

(** *** [Registry.Start] *)

Module StartOpts.
Record t : Type := {
  Namespace : string;
  TLSConfig : option tunnel.tlsPtr;
  QuicConfig : option tunnel.quicConfig;
  HasOnConnectionReady : bool;
  Addr : string
}.
End StartOpts.

(** The tunnel [Start] assembles from its options; it sets no
    authenticator. *)
Definition serverOf (opts : StartOpts.t) : tunnel.Tunnel :=
  {| tunnel.Namespace := StartOpts.Namespace opts;
     tunnel.TLSConfig := StartOpts.TLSConfig opts;
     tunnel.QuicConfig := StartOpts.QuicConfig opts;
     tunnel.Auth := None;
     tunnel.HasOnConnectionReady := StartOpts.HasOnConnectionReady opts |}.

(** [Registry.Start]: what it returns, the process state and the
    clock afterwards.  The handler built is the one the HTTP/3 server
    of the connection serves. *)
Definition Start `{tunnel.Externals} (r : Registry) (ctx : Context)
    (opts : StartOpts.t) (dialers : nat -> tunnel.Dialer)
    (st : tunnel.process) (t : tunnel.timeline)
    : outcome (option error * tunnel.process * tunnel.timeline) :=
  match (Build r).1 with
  | Err err => Ok (Some err, st, t)
  | Panic msg => Panic msg
  | Ok h =>
    Ok (tunnel.DialAndServe (serverOf opts) ctx dialers (StartOpts.Addr opts) st t)
  end.

(** *** [Handler.ServeHTTP] *)

(** [strings.TrimPrefix(s, prefix)] *)
Definition TrimPrefix (s prefix : string) : string :=
  match json.strip prefix s with
  | Some rest => rest
  | None => s
  end.

(** [strings.Split(s, sep)] for a separator of one character. *)
Fixpoint Split (s : string) (sep : Ascii.ascii) : list string :=
  match s with
  | EmptyString => [""]
  | String.String c rest =>
    if Ascii.eqb c sep then "" :: Split rest sep
    else
      match Split rest sep with
      | part :: parts => String.String c part :: parts
      | [] => [String.String c ""]
      end
  end.

Module Request.
(** The request as the handler reads it: method, [URL.Path], what
    [io.ReadAll] gives for the body, and the request's context. *)
Record t : Type := {
  Method : string;
  Path : string;
  Body : error + string;
  Ctx : Context
}.
End Request.

Module ResponseWriter.
(** The status set by [WriteHeader], if any, and the bytes written. *)
Record t : Type := {
  status : option Z;
  body : string
}.
Definition fresh : t := {| status := None; body := "" |}.

Definition WriteHeader (code : Z) (w : t) : t :=
  match status w with
  | Some _ => w
  | None => {| status := Some code; body := body w |}
  end.

(** The first [Write] without a status sets 200. *)
Definition Write (bytes : string) (w : t) : t :=
  {| status := match status w with
               | Some c => Some c
               | None => Some 200
               end;
     body := body w +:+ bytes |}.
End ResponseWriter.

Definition StatusBadRequest : Z := 400.
Definition StatusNotFound : Z := 404.
Definition StatusMethodNotAllowed : Z := 405.

(** [http.StatusText] *)
Definition StatusText (code : Z) : string :=
  if code =? 400 then "Bad Request"
  else if code =? 404 then "Not Found"
  else if code =? 405 then "Method Not Allowed"
  else "".

Section http.
(** [json.NewEncoder(w).Encode(defs)]: the bytes of the definitions
    document, line feed included, or the encoder's error.  The schemas
    inside are those of the jsonschema library, so the encoding is a
    parameter. *)
Variable Encode : Definitions.t -> error + string.

Definition ServeHTTP (h : Handler) (r : Request.t) (w : ResponseWriter.t)
    : outcome ResponseWriter.t * list Record_ :=
  if bool_decide (Request.Method r = "GET") &&
     bool_decide (Request.Path r = "/.lightwave/operations") then
    match Encode (defs h) with
    | inr bytes => (Ok (ResponseWriter.Write bytes w), [])
    | inl err =>
      (Ok (ResponseWriter.Write (Error err) w), [("error marshalling operations", err)])
    end
  else if negb (bool_decide (Request.Method r = "POST")) then
    (Ok (ResponseWriter.Write (StatusText StatusMethodNotAllowed)
           (ResponseWriter.WriteHeader StatusMethodNotAllowed w)), [])
  else
    let urlPath := TrimPrefix (Request.Path r) "/" in
    let parts := Split urlPath "/" in
    match parts with
    | [service; op] =>
      match Request.Body r with
      | inl err =>
        (Ok (ResponseWriter.Write (Error err)
               (ResponseWriter.WriteHeader StatusBadRequest w)), [])
      | inr body =>
        match Call h (Request.Ctx r) service op body with
        | Err err =>
          (Ok (ResponseWriter.Write (Error err)
                 (ResponseWriter.WriteHeader StatusBadRequest w)), [])
        | Panic msg => (Panic msg, [])
        | Ok res => (Ok (ResponseWriter.Write res w), [])
        end
      end
    | _ =>
      (Ok (ResponseWriter.Write ("invalid path: " +:+ Request.Path r)
             (ResponseWriter.WriteHeader StatusNotFound w)), [])
    end.

End http.

(** *** Closed forms used to state properties *)

(** The input type of a method as [Build] binds it: the second
    parameter, when the first one is a context. *)
Definition inputOf (m : Method.t) : option Type_ :=
  match Method.In m with
  | Context_ :: t :: _ => Some t
  | _ => None
  end.

Definition isOperation (m : Method.t) : bool :=
  negb (bool_decide (Method.Name m = "Metadata")).

(** The operation entry of a method of a service with the given
    metadata. *)
Definition operationOf (meta : ServiceMetadata.t) (m : Method.t) : Operation.t :=
  {| Operation.ID := Method.Name m;
     Operation.Name := "";
     Operation.CLIName := "";
     Operation.Description :=
       match ServiceMetadata.OperationMetadata meta !! Method.Name m with
       | Some om => OperationMetadata.Description om
       | None => ""
       end;
     Operation.RoutingRule := RoutingRule.zero;
     Operation.RequestBody :=
       match inputOf m with
       | Some t => Some {| RootSchema.Schema := jsonschema.Reflect t |}
       | None => None
       end;
     Operation.ResponseBody := None |}.

(** The service entry of a registered object. *)
Definition definitionOf (svc : Object.t) : Service.t :=
  match Object.Metadata svc with
  | Some meta =>
    {| Service.ID := ServiceMetadata.ID meta;
       Service.CLIName := "";
       Service.Name := ServiceMetadata.DisplayName meta;
       Service.Description := ServiceMetadata.Description meta;
       Service.Operations :=
         map (operationOf meta) (List.filter isOperation (Object.Methods svc)) |}
  | None =>
    {| Service.ID := Object.ElemName svc;
       Service.CLIName := "";
       Service.Name := "";
       Service.Description := "";
       Service.Operations :=
         map (operationOf ServiceMetadata.zero)
           (List.filter isOperation (Object.Methods svc)) |}
  end.

(** The records [Build] logs for one method. *)
Definition complaints (m : Method.t) : list Record_ :=
  if isOperation m then
    match Method.In m with
    | t :: _ =>
      if is_context t then []
      else [("error extracting method", notContext t);
            ("error extracting method", notContext t)]
    | [] => []
    end
  else [].

(** The route of an operation name within a service: the last method
    of that name that is an operation, bound with its input type. *)
Definition routeOf (methods : list Method.t) (operation : string) : option function :=
  match List.find (fun m => String.eqb (Method.Name m) operation)
          (rev (List.filter isOperation methods)) with
  | Some m => Some {| method := m; inputType := inputOf m |}
  | None => None
  end.

(** The number of occurrences of a character in a string. *)
Fixpoint occurrences (c : Ascii.ascii) (s : string) : nat :=
  match s with
  | EmptyString => O
  | String.String a rest =>
    if Ascii.eqb a c then S (occurrences c rest) else occurrences c rest
  end.

(** The response of a handler that wrote the status and the body once
    to a fresh writer. *)
Definition response (code : Z) (bytes : string) : ResponseWriter.t :=
  {| ResponseWriter.status := Some code; ResponseWriter.body := bytes |}.

End ops.

(** ** The services of the package's tests, and two more *)

Module ops_test.
Import context reflect servicedef ops.

Definition field (name tag : string) (omitempty : bool) : StructField.t :=
  {| StructField.Name := name;
     StructField.JSONName := tag;
     StructField.OmitEmpty := omitempty |}.

Definition fooInput : Type_ :=
  Struct_ "ops" "fooInput"
    [(field "Bar" "bar" false, String_); (field "Other" "other" true, String_)].

Definition secondOutput : Type_ :=
  Struct_ "ops" "secondOutput" [(field "Example" "example" false, String_)].

Definition ServiceMetadata_ : Type_ :=
  Struct_ "ops" "ServiceMetadata"
    [(field "ID" "ID" false, String_);
     (field "DisplayName" "DisplayName" false, String_);
     (field "Description" "Description" false, String_)].

(** [input.Bar] *)
Definition Bar (input : Value) : string :=
  match input with
  | VStruct _ _ ((_, VString bar) :: _) => bar
  | _ => ""
  end.

Definition metadataValue (meta : ServiceMetadata.t) : Value :=
  VStruct "ops" "ServiceMetadata"
    [(field "ID" "ID" false, VString (ServiceMetadata.ID meta));
     (field "DisplayName" "DisplayName" false, VString (ServiceMetadata.DisplayName meta));
     (field "Description" "Description" false, VString (ServiceMetadata.Description meta))].

Definition MetadataMethod (meta : ServiceMetadata.t) : Method.t :=
  {| Method.Name := "Metadata";
     Method.In := [];
     Method.Out := [ServiceMetadata_];
     Method.Func := fun _ => [metadataValue meta] |}.

(** [func (example) Foo(ctx, input fooInput) string] and the like. *)
Definition hello (name : string) : Method.t :=
  {| Method.Name := name;
     Method.In := [Context_; fooInput];
     Method.Out := [String_];
     Method.Func := fun args =>
       match args with
       | [_; input] => [VString ("hello " +:+ Bar input)]
       | _ => []
       end |}.

(** [func (s second) Foo(ctx, input fooInput) (secondOutput, error)] *)
Definition helloStruct (name : string) : Method.t :=
  {| Method.Name := name;
     Method.In := [Context_; fooInput];
     Method.Out := [secondOutput; Error_];
     Method.Func := fun args =>
       match args with
       | [_; input] =>
         [VStruct "ops" "secondOutput"
            [(field "Example" "example" false, VString ("hello " +:+ Bar input))];
          VNil]
       | _ => []
       end |}.

Definition exampleMetadata : ServiceMetadata.t :=
  {| ServiceMetadata.ID := "example";
     ServiceMetadata.DisplayName := "Example";
     ServiceMetadata.Description := "My Example service";
     ServiceMetadata.OperationMetadata :=
       {[ "Foo" := {| OperationMetadata.Description := "does foo" |} ]} |}.

(** [&example{}] *)
Definition example : Object.t :=
  {| Object.Kind := Pointer;
     Object.IsNil := false;
     Object.TypeString := "*ops.example";
     Object.ElemName := "example";
     Object.Methods := [hello "Bar"; hello "Foo"; MetadataMethod exampleMetadata];
     Object.Metadata := Some exampleMetadata |}.

(** [var unset *example], a nil pointer to the same type. *)
Definition unset : Object.t :=
  {| Object.Kind := Pointer;
     Object.IsNil := true;
     Object.TypeString := "*ops.example";
     Object.ElemName := "example";
     Object.Methods := [hello "Bar"; hello "Foo"; MetadataMethod exampleMetadata];
     Object.Metadata := Some exampleMetadata |}.

(** [&second{}] *)
Definition second : Object.t :=
  {| Object.Kind := Pointer;
     Object.IsNil := false;
     Object.TypeString := "*ops.second";
     Object.ElemName := "second";
     Object.Methods := [helloStruct "Foo"];
     Object.Metadata := None |}.

Definition pointerOutputMetadata : ServiceMetadata.t :=
  {| ServiceMetadata.ID := "pointerOutput";
     ServiceMetadata.DisplayName := "";
     ServiceMetadata.Description := "";
     ServiceMetadata.OperationMetadata := ∅ |}.

(** [pointerOutput{}], registered as a bare value: its method set
    has the value-receiver method only. *)
Definition pointerOutputValue : Object.t :=
  {| Object.Kind := Struct;
     Object.IsNil := false;
     Object.TypeString := "ops.pointerOutput";
     Object.ElemName := "";
     Object.Methods := [MetadataMethod pointerOutputMetadata];
     Object.Metadata := Some pointerOutputMetadata |}.

(** A service outside the tests,
    [type legacy struct{}] with
    [func (l *legacy) Ping(name string) string] and
    [func (l *legacy) Status(ctx context.Context) string]:
    the first parameter of [Ping] is not a context. *)
Definition Ping : Method.t :=
  {| Method.Name := "Ping";
     Method.In := [String_];
     Method.Out := [String_];
     Method.Func := fun args =>
       match args with
       | [VString name] => [VString ("pong " +:+ name)]
       | _ => []
       end |}.

Definition Status : Method.t :=
  {| Method.Name := "Status";
     Method.In := [Context_];
     Method.Out := [String_];
     Method.Func := fun _ => [VString "up"] |}.

Definition legacy : Object.t :=
  {| Object.Kind := Pointer;
     Object.IsNil := false;
     Object.TypeString := "*ops.legacy";
     Object.ElemName := "legacy";
     Object.Methods := [Ping; Status];
     Object.Metadata := None |}.

(** A service outside the tests whose [Metadata] method has another
    signature than the one of [ServiceWithMetadata],
    [func (a *audit) Metadata(ctx context.Context) string],
    next to [func (a *audit) Tail(ctx context.Context) string]. *)
Definition audit : Object.t :=
  {| Object.Kind := Pointer;
     Object.IsNil := false;
     Object.TypeString := "*ops.audit";
     Object.ElemName := "audit";
     Object.Methods :=
       [ {| Method.Name := "Metadata";
            Method.In := [Context_];
            Method.Out := [String_];
            Method.Func := fun _ => [VString "audit log"] |};
         {| Method.Name := "Tail";
            Method.In := [Context_];
            Method.Out := [String_];
            Method.Func := fun _ => [VString "no entries"] |} ];
     Object.Metadata := None |}.

(** A service outside the tests,
    [type clock struct{}] with [func (c *clock) Now() string]:
    the method has no parameter at all. *)
Definition Now : Method.t :=
  {| Method.Name := "Now";
     Method.In := [];
     Method.Out := [String_];
     Method.Func := fun _ => [VString "noon"] |}.

Definition clock : Object.t :=
  {| Object.Kind := Pointer;
     Object.IsNil := false;
     Object.TypeString := "*ops.clock";
     Object.ElemName := "clock";
     Object.Methods := [Now];
     Object.Metadata := None |}.

Definition registry (svcs : list Object.t) : Registry :=
  fold_left Register svcs New.

(** The handler [Build] returns for the services, when it returns
    one. *)
Definition built (svcs : list Object.t) : Handler :=
  match (Build (registry svcs)).1 with
  | Ok h => h
  | _ => {| routes := ∅; defs := {| Definitions.Services := [] |} |}
  end.

Definition quoted (s : string) : string :=
  String.String json.dquote (s +:+ String.String json.dquote "").

(** The request body of the tests: an object with the one member
    [bar], of value [testing], a space after the colon. *)
Definition barTesting : string :=
  "{" +:+ quoted "bar" +:+ ": " +:+ quoted "testing" +:+ "}".

(** Example requests, an encoder of the definitions document that
    always gives an empty object, and options for [Start]. *)
Definition post (path : string) (body : string) : Request.t :=
  {| Request.Method := "POST"; Request.Path := path;
     Request.Body := inr body; Request.Ctx := Background |}.

Definition get (path : string) : Request.t :=
  {| Request.Method := "GET"; Request.Path := path;
     Request.Body := inr ""; Request.Ctx := Background |}.

Definition brokenPost (path : string) : Request.t :=
  {| Request.Method := "POST"; Request.Path := path;
     Request.Body := inl (errorString "unexpected EOF"); Request.Ctx := Background |}.

Definition emptyObject : Definitions.t -> error + string := fun _ => inr "{}".

Definition workerOpts : StartOpts.t :=
  {| StartOpts.Namespace := "worker";
     StartOpts.TLSConfig := None;
     StartOpts.QuicConfig := None;
     StartOpts.HasOnConnectionReady := false;
     StartOpts.Addr := tunnel.relayAddr |}.

End ops_test.

(** * Properties *)

Section protocol_properties.
Import protocol.

Lemma int64_small (n : Z) : 0 <= n < 2 ^ 63 -> int64 n = n.
Proof.
  intros H. unfold int64.
  rewrite Z.mod_small by lia. lia.
Qed.

(** Claim C8.  [ResponseCode.String] gives the five fixed names at
    the ordinals 0 to 4 (which are the values of the five constants),
    and for every larger ordinal [n] (below 2^63, so that [int64]
    does not wrap) the tagged string "ResponseCode(<n>)", [<n>] being
    the decimal numeral of [n]. *)
Theorem ResponseCode_String_total :
  (CodeOK = 0 /\ CodeBadRequest = 1 /\ CodeNotFound = 2 /\
   CodeUnauthorized = 3 /\ CodeServerError = 4) /\
  (String 0 = "CodeOK" /\ String 1 = "CodeBadRequest" /\
   String 2 = "CodeNotFound" /\ String 3 = "CodeUnauthorized" /\
   String 4 = "CodeServerError") /\
  (forall n : Z, 5 <= n < 2 ^ 63 ->
     String n = "ResponseCode(" +:+ pretty n +:+ ")").
Proof.
  split; [repeat split|]. split; [repeat split|].
  intros n Hn. unfold String.
  replace (Z.of_nat (length _ResponseCode_index) - 1) with 5 by reflexivity.
  destruct (Z.geb_spec n 5) as [_|Hlt]; [|lia].
  unfold FormatInt10. rewrite int64_small by lia. reflexivity.
Qed.

Lemma ResponseCode_String_total_witness :
  5 <= 200 < 2 ^ 63 /\ String 200 = "ResponseCode(200)".
Proof.
  split; [lia|].
  exact (proj2 (proj2 ResponseCode_String_total) 200 ltac:(lia)).
Defined.

End protocol_properties.

(** ** The tunnel *)

Section tunnel_properties.
Import context protocol tunnel.
Context `{Externals}.

(** *** The backoff loop *)

Section backoff.
Context {St : Type}.
Implicit Types (b : Backoff) (t : timeline) (s : St).
Implicit Types condition : @ConditionWithContextFunc St.

Lemma backoff_loop_S fuel ctx b condition s t :
  backoff_loop (S fuel) ctx b condition s t =
  if Steps b <=? 0 then (Some ErrWaitTimeout, s, t) else
  match context.Err ctx (now t) with
  | Some e => (Some e, s, t)
  | None =>
    let '((ok, err), s1) := condition s in
    match err with
    | Some e => (Some e, s1, tick t)
    | None =>
      if ok then (None, s1, tick t)
      else if Steps b =? 1 then (Some ErrWaitTimeout, s1, tick t)
      else
        match context.Err ctx (S (S (now t))) with
        | Some e => (Some e, s1, sleep (Step b).1 (tick t))
        | None =>
          backoff_loop fuel ctx (Step b).2 condition s1 (sleep (Step b).1 (tick t))
        end
    end
  end.
Proof. reflexivity. Qed.

(** Whatever the condition preserves, the loop preserves. *)
Lemma backoff_loop_invariant (P : St -> Prop) fuel ctx b condition s t :
  (forall s0, P s0 -> P (condition s0).2) ->
  P s -> P (backoff_loop fuel ctx b condition s t).1.2.
Proof.
  intros Hc. revert b s t.
  induction fuel as [|fuel IH]; intros b s t Hs; simpl; [done|].
  destruct (Steps b <=? 0); [done|].
  destruct (context.Err ctx (now t)); [done|].
  specialize (Hc s Hs).
  destruct (condition s) as [[ok err] s1]; simpl in Hc.
  destruct err; [done|]. destruct ok; [done|].
  destruct (Steps b =? 1); [done|]. simpl.
  destruct (context.Err ctx _); [done|]. by apply IH.
Qed.

(** A condition that never reports success uses up the budget when
    the context stays live until the last attempt has started:
    [n] attempts, [n - 1] sleeps, then [ErrWaitTimeout]. *)
Lemma backoff_loop_exhausted (P : nat -> St -> Prop) ctx condition :
  (forall k s0, P k s0 ->
     exists s1, condition s0 = ((false, None), s1) /\ P (S k) s1) ->
  forall (n : nat) b s t k,
    Steps b = Z.of_nat (S n) ->
    (forall i, (i <= now t + 2 * n)%nat -> context.Err ctx i = None) ->
    P k s ->
    exists s' t',
      backoff_loop (S n) ctx b condition s t = (Some ErrWaitTimeout, s', t') /\
      P (S n + k)%nat s' /\
      now t' = (now t + 2 * n + 1)%nat /\
      sleeps t' = sleeps t ++ delays n b.
Proof.
  intros Hc. induction n as [|n IH]; intros b s t k Hb Hctx Hs.
  - simpl. rewrite Hb. simpl.
    rewrite Hctx by lia.
    destruct (Hc k s Hs) as (s1 & -> & Hs1).
    exists s1, (tick t). simpl. rewrite app_nil_r.
    repeat split; [done | lia].
  - rewrite backoff_loop_S, Hb.
    replace (Z.of_nat (S (S n)) <=? 0) with false by (symmetry; apply Z.leb_gt; lia).
    rewrite Hctx by lia.
    destruct (Hc k s Hs) as (s1 & -> & Hs1).
    replace (Z.of_nat (S (S n)) =? 1) with false by (symmetry; apply Z.eqb_neq; lia).
    rewrite Hctx by lia.
    destruct (IH (Step b).2 s1 (sleep (Step b).1 (tick t)) (S k))
      as (s' & t' & Hrun & HP & Hnow & Hsl).
    + simpl. lia.
    + intros i Hi. apply Hctx. simpl in Hi. lia.
    + done.
    + exists s', t'. rewrite Hrun. repeat split.
      * by replace (S (S n) + k)%nat with (S n + S k)%nat by lia.
      * rewrite Hnow. simpl. lia.
      * rewrite Hsl. simpl. by rewrite <- app_assoc.
Qed.

(** A condition that never reports success, under a context that
    is done by the time the last attempt would start: the loop
    leaves with the context's error. *)
Lemma backoff_loop_cancelled ctx condition d :
  (forall s0, exists s1, condition s0 = ((false, None), s1)) ->
  doneAt ctx = Some d ->
  forall (n : nat) b s t,
    Steps b = Z.of_nat (S n) ->
    (d <= now t + 2 * n)%nat ->
    (backoff_loop (S n) ctx b condition s t).1.1 = Some (cause ctx).
Proof.
  intros Hc Hd. induction n as [|n IH]; intros b s t Hb Hle.
  - simpl. rewrite Hb. simpl. unfold context.Err. rewrite Hd.
    destruct (Nat.leb_spec d (now t)); [done | lia].
  - rewrite backoff_loop_S, Hb.
    replace (Z.of_nat (S (S n)) <=? 0) with false by (symmetry; apply Z.leb_gt; lia).
    unfold context.Err at 1. rewrite Hd.
    destruct (Nat.leb_spec d (now t)); [done|].
    destruct (Hc s) as (s1 & ->).
    replace (Z.of_nat (S (S n)) =? 1) with false by (symmetry; apply Z.eqb_neq; lia).
    unfold context.Err at 1. rewrite Hd.
    destruct (Nat.leb_spec d (S (S (now t)))); [done|].
    apply IH; simpl; lia.
Qed.

End backoff.

(** *** One attempt *)

Lemma getTLSConfig_dials s addr st :
  dials (getTLSConfig s addr st).2 = dials st.
Proof.
  unfold getTLSConfig. case_decide; [|done].
  by destruct (url_Parse addr).
Qed.

Lemma register_dials s conn st : dials (register s conn st).2 = dials st.
Proof.
  unfold register. destruct (OpenStream conn); [done|].
  destruct (match Auth s with Some a => a | None => defaultAuthenticator end _)
    as [[aerr req] recs].
  destruct aerr; [done|]. destruct (Encode conn req); [done|].
  destruct (Decode conn) as [|resp]; [done|].
  destruct (negb _); [done|]. by destruct (HasOnConnectionReady s).
Qed.

Lemma dialAndServe_dials s dial addr st :
  dials (dialAndServe s dial addr st).2 = S (dials st).
Proof.
  unfold dialAndServe.
  pose proof (getTLSConfig_dials s addr (count_dial st)) as Hg.
  destruct (getTLSConfig s addr (count_dial st)) as [[err|p] st1]; simpl in *; [done|].
  destruct (dial addr _ _) as [err|conn]; [done|].
  pose proof (register_dials s conn (log LevelDebug "Attempting to register" st1)) as Hr.
  destruct (register s conn _) as [[err|] st2]; simpl in *; congruence.
Qed.






(** When every attempt fails, the condition closure never reports
    success and never reports an error of its own. *)
Lemma attempt_never_done s dialers addr :
  (forall i st, (dialAndServe s (dialers i) addr st).1 <> None) ->
  forall sl, exists sl', attempt s dialers addr sl = ((false, None), sl').
Proof.
  intros Hfail [st lastErr]. unfold attempt.
  specialize (Hfail (dials st) st).
  destruct (dialAndServe s _ addr st) as [[e|] st1]; simpl in *; [|done].
  destruct (Is e Canceled); eauto.
Qed.

(** Claim C3.  With the policy [DefaultBackoff] (5 steps, 100ms,
    factor 2, jitter 1/10), if every attempt fails with one and the
    same error [e] that is not a cancellation, and the context is
    live until the fifth attempt has started, then [DialAndServe]
    makes exactly five attempts, sleeps 100, 200, 400 and 800 ms
    (before jitter) between them, and returns [e] itself. *)
Theorem DialAndServe_returns_last_error_after_five_attempts
    s ctx dialers addr st t e :
  (forall i, (i <= now t + 8)%nat -> context.Err ctx i = None) ->
  (forall i st0, (dialAndServe s (dialers i) addr st0).1 = Some e) ->
  Is e Canceled = false ->
  (Steps DefaultBackoff = 5 /\
   Duration DefaultBackoff = 100 * Millisecond /\
   Qeq (Factor DefaultBackoff) (Qmake 2 1) /\
   Qeq (Jitter DefaultBackoff) (Qmake 1 10)) /\
  (DialAndServe s ctx dialers addr st t).1.1 = Some e /\
  dials (DialAndServe s ctx dialers addr st t).1.2 = (dials st + 5)%nat /\
  sleeps (DialAndServe s ctx dialers addr st t).2 =
    sleeps t ++ [100 * Millisecond; 200 * Millisecond;
                 400 * Millisecond; 800 * Millisecond].
Proof.
  intros Hctx Hfail Hnc.
  split; [by repeat split|].
  unfold DialAndServe, ExponentialBackoffWithContext.
  set (st0 := log LevelDebug "Dialing address" st).
  destruct (backoff_loop_exhausted
              (fun k (sl : process * option error) =>
                 dials sl.1 = (dials st + k)%nat /\
                 ((0 < k)%nat -> sl.2 = Some e))
              ctx (attempt s dialers addr)) with
    (n := 4%nat) (b := DefaultBackoff) (s := (st0, @None error)) (t := t) (k := 0%nat)
    as ([st1 lastErr] & t1 & Hrun & [Hd Hl] & _ & Hs).
  - intros k [st' l] [Hk _]. unfold attempt at 1.
    pose proof (Hfail (dials st') st') as Hf.
    pose proof (dialAndServe_dials s (dialers (dials st')) addr st') as Hdd.
    destruct (dialAndServe s _ addr st') as [err st2]. simpl in *. subst err.
    rewrite Hnc. eexists. split; [reflexivity|]. simpl. split; [lia|done].
  - reflexivity.
  - intros i Hi. apply Hctx. lia.
  - simpl. split; [lia|]. lia.
  - change (Z.to_nat (Steps DefaultBackoff)) with 5%nat.
    rewrite Hrun. simpl in *. rewrite Hl by lia.
    repeat split; [lia | by rewrite Hs].
Qed.

(** Claim C4, as amended.  If the context is cancelled no later than
    the instant at which the fifth attempt would start (before the
    first attempt, during one of the first four attempts, or during
    a backoff sleep) and every attempt made fails, [DialAndServe]
    returns [context.Canceled], whatever the attempts' errors. *)
Theorem DialAndServe_cancelled_before_last_attempt
    s ctx dialers addr st t d :
  doneAt ctx = Some d ->
  cause ctx = Canceled ->
  (d <= now t + 8)%nat ->
  (forall i st0, (dialAndServe s (dialers i) addr st0).1 <> None) ->
  (DialAndServe s ctx dialers addr st t).1.1 = Some Canceled.
Proof.
  intros Hd Hcause Hle Hfail.
  unfold DialAndServe, ExponentialBackoffWithContext.
  pose proof (backoff_loop_cancelled ctx (attempt s dialers addr) d
                (attempt_never_done s dialers addr Hfail) Hd
                4%nat DefaultBackoff
                (log LevelDebug "Dialing address" st, None) t eq_refl) as Hrun.
  change (Z.to_nat (Steps DefaultBackoff)) with 5%nat.
  destruct (backoff_loop 5 ctx DefaultBackoff _ _ t) as [[err [st1 lastErr]] t1].
  simpl in Hrun. rewrite Hrun by lia. rewrite Hcause. reflexivity.
Qed.


End tunnel_properties.

Section tunnel_examples.
Import context protocol tunnel.
#[local] Existing Instance sample_Externals.

Lemma DialAndServe_returns_last_error_after_five_attempts_witness :
  (DialAndServe (H := sample_Externals) plainTunnel Background
     (fun _ => refusingDialer) relayAddr initial startOfCall).1.1
  = Some (Errorf_w "QUIC dial error" refused).
Proof.
  apply (DialAndServe_returns_last_error_after_five_attempts
           (H := sample_Externals) plainTunnel Background
           (fun _ => refusingDialer) relayAddr initial startOfCall
           (Errorf_w "QUIC dial error" refused)).
  - intros i _. reflexivity.
  - intros i st0. unfold dialAndServe.
    destruct (getTLSConfig plainTunnel relayAddr (count_dial st0))
      as [[err|p] st1] eqn:Hg; [|reflexivity].
    unfold getTLSConfig in Hg. simpl in Hg. by case_decide.
  - reflexivity.
Defined.

(** Claim C4, refuted as stated.  The context is cancelled at
    instant 9, while the fifth attempt is under way (the call starts
    at instant 0 and returns at instant 9); every dial is refused.
    [DialAndServe] returns the refused dial's error, which is not a
    cancellation. *)
Lemma DialAndServe_cancelled_during_last_attempt :
  let ctx := {| doneAt := Some 9%nat; cause := Canceled |} in
  let r := DialAndServe (H := sample_Externals) plainTunnel ctx
             (fun _ => refusingDialer) relayAddr initial startOfCall in
  context.Err ctx (now r.2) = Some Canceled /\
  (forall st0,
     (dialAndServe (H := sample_Externals) plainTunnel refusingDialer relayAddr st0).1
     = Some (Errorf_w "QUIC dial error" refused)) /\
  r.1.1 = Some (Errorf_w "QUIC dial error" refused) /\
  errIs r.1.1 Canceled = false.
Proof.
  repeat split.
  intros st0. unfold dialAndServe.
  destruct (getTLSConfig plainTunnel relayAddr (count_dial st0))
    as [[err|p] st1] eqn:Hg; [|reflexivity].
  unfold getTLSConfig in Hg. simpl in Hg. by case_decide.
Qed.

Lemma DialAndServe_cancelled_before_last_attempt_witness :
  (DialAndServe (H := sample_Externals) plainTunnel
     {| doneAt := Some 3%nat; cause := Canceled |}
     (fun _ => refusingDialer) relayAddr initial startOfCall).1.1
  = Some Canceled.
Proof.
  apply (DialAndServe_cancelled_before_last_attempt
           (H := sample_Externals) plainTunnel
           {| doneAt := Some 3%nat; cause := Canceled |}
           (fun _ => refusingDialer) relayAddr initial startOfCall 3%nat).
  - reflexivity.
  - reflexivity.
  - simpl. lia.
  - intros i st0. unfold dialAndServe.
    destruct (getTLSConfig plainTunnel relayAddr (count_dial st0))
      as [[err|p] st1] eqn:Hg; [done|done].
Defined.


End tunnel_examples.

(** ** The registry and the dispatcher *)

Section ops_properties.
Import context reflect servicedef ops.

(** *** One method *)

Lemma withRequestBody_ID op schema :
  Operation.ID (withRequestBody op schema) = Operation.ID op.
Proof. by destruct schema. Qed.

Lemma buildMethod_Metadata meta acc m :
  Method.Name m = "Metadata" -> buildMethod meta acc m = acc.
Proof.
  intros Hm. destruct acc as [[rm ops] log]. unfold buildMethod.
  by case_decide.
Qed.

(** What the loop body does for any other method, whether or not
    [extractMethods] reported an error: the error is logged (by
    [Build] and again by [parseMethod]) and the method is routed and
    described all the same. *)
Lemma buildMethod_other meta rm ops log m :
  Method.Name m <> "Metadata" ->
  buildMethod meta (rm, ops, log) m =
  (<[Method.Name m :=
       {| method := m; inputType := InputType (extractMethods m).1 |}]> rm,
   ops ++ [withRequestBody
             (newOperation (Method.Name m)
                (OperationMetadata.Description
                   (lookupOperationMetadata meta (Method.Name m))))
             (InputSchema (extractMethods m).1)],
   (log ++ logError (extractMethods m).2) ++ logError (extractMethods m).2).
Proof.
  intros Hm. unfold buildMethod, parseMethod.
  case_decide; [done|].
  destruct (extractMethods m) as [extract err]. simpl.
  by rewrite withRequestBody_ID.
Qed.

Lemma extractMethods_notContext m :
  firstParamNotContext m ->
  (extractMethods m).2 = Some (notContext (firstParam m)).
Proof.
  intros (t & rest & Hin & Ht). unfold extractMethods, firstParam.
  rewrite Hin. simpl. by rewrite Ht.
Qed.

(** *** The methods of one service *)

Lemma agree_empty : agree ∅ [].
Proof.
  intros k. rewrite lookup_empty. split.
  - by intros [? ?].
  - by intros (op & [] & _).
Qed.

Lemma agree_step rm ops k f op :
  agree rm ops -> Operation.ID op = k -> agree (<[k := f]> rm) (ops ++ [op]).
Proof.
  intros Ha Hk k'. rewrite lookup_insert. case_decide as Hkk.
  - subst k'. split; [|by eauto]. intros _. exists op.
    split; [|done]. apply in_or_app. right. by left.
  - rewrite (Ha k'). split.
    + intros (op' & Hin & Hid). exists op'. split; [|done].
      apply in_or_app. by left.
    + intros (op' & Hin & Hid). apply in_app_or in Hin as [Hin|[<-|[]]].
      * by exists op'.
      * congruence.
Qed.

Lemma buildMethods_spec meta ms : forall rm ops log rm' ops' log',
  fold_left (buildMethod meta) ms (rm, ops, log) = (rm', ops', log') ->
  (agree rm ops -> agree rm' ops') /\
  (noMetadata rm ops -> noMetadata rm' ops') /\
  (forall r, In r log -> In r log') /\
  (forall m e, In m ms -> Method.Name m <> "Metadata" ->
     (extractMethods m).2 = Some e -> In ("error extracting method", e) log').
Proof.
  induction ms as [|m ms IH]; intros rm ops log rm' ops' log' Hrun;
    cbn [fold_left] in Hrun.
  - inversion Hrun; subst. split; [done|]. split; [done|]. split; [done|].
    by intros m e [].
  - destruct (decide (Method.Name m = "Metadata")) as [Hm|Hm].
    + rewrite buildMethod_Metadata in Hrun by done.
      destruct (IH _ _ _ _ _ _ Hrun) as (Ha & Hn & Hl & He).
      split; [done|]. split; [done|]. split; [done|].
      intros m' e [<-|Hin] Hm' Hex; [done|]. by eapply He.
    + rewrite buildMethod_other in Hrun by done.
      destruct (IH _ _ _ _ _ _ Hrun) as (Ha & Hn & Hl & He).
      split; [|split; [|split]].
      * intros Hag. apply Ha. apply agree_step; [done|].
        by rewrite withRequestBody_ID.
      * intros [Hrm Hops]. apply Hn. split.
        -- by rewrite lookup_insert_ne.
        -- intros op Hin. apply in_app_or in Hin as [Hin|[<-|[]]]; [by apply Hops|].
           by rewrite withRequestBody_ID.
      * intros r Hr. apply Hl. apply in_or_app. left. apply in_or_app. by left.
      * intros m' e [<-|Hin] Hm' Hex; [|by eapply He].
        apply Hl. rewrite Hex. simpl. apply in_or_app. right. by left.
Qed.

(** *** The services *)

Lemma describeService_Operations svc :
  Service.Operations (describeService svc).1 = [].
Proof. unfold describeService. by destruct (Object.Metadata svc). Qed.

Lemma buildServices_cons svc rest h log :
  buildServices (svc :: rest) h log =
  match Object.Kind svc with
  | Pointer =>
    if Object.IsNil svc then (Panic zeroValueType, log) else
    match routes h !! serviceID svc with
    | Some _ => (Err (alreadyRegistered (serviceID svc)), log)
    | None =>
      let r := fold_left (buildMethod (describeService svc).2) (Object.Methods svc)
                 (∅, [], log) in
      buildServices rest (extend h svc r.1.1 r.1.2) r.2
    end
  | _ => (Err (notPointer svc), log)
  end.
Proof.
  simpl. unfold extend, serviceID.
  pose proof (describeService_Operations svc) as Hops.
  destruct (describeService svc) as [sdef meta]. simpl in *. rewrite Hops.
  destruct (Object.Kind svc); try done.
  destruct (Object.IsNil svc); [done|].
  destruct (routes h !! Service.ID sdef); [done|].
  by destruct (fold_left _ _ _) as [[rm ops] log'].
Qed.

Lemma nonNilPointer_isPointer svc : nonNilPointer svc -> isPointer svc.
Proof. by intros [Hk _]. Qed.

(** [Build] panics only on a nil pointer, with the panic of
    [reflect.Value.Type]. *)
Lemma buildServices_Panic_nil svcs : forall h log msg,
  (buildServices svcs h log).1 = Panic msg ->
  msg = zeroValueType /\ Exists nilPointer svcs.
Proof.
  induction svcs as [|svc rest IH]; intros h log msg Hrun; [done|].
  rewrite buildServices_cons in Hrun.
  destruct (Object.Kind svc) eqn:Hk; try done.
  destruct (Object.IsNil svc) eqn:Hnil.
  - simpl in Hrun. inversion Hrun. split; [done|]. by left.
  - destruct (routes h !! serviceID svc); [done|].
    destruct (IH _ _ _ Hrun) as [-> Hex]. split; [done|]. by right.
Qed.

Lemma buildServices_nonNil_never_panics svcs h log msg :
  Forall nonNilPointer svcs -> (buildServices svcs h log).1 <> Panic msg.
Proof.
  intros Hp Hrun. destruct (buildServices_Panic_nil _ _ _ _ Hrun) as [_ Hex].
  apply Exists_exists in Hex as (svc & Hin & _ & Hnil).
  rewrite Forall_forall in Hp. destruct (Hp svc Hin) as [_ Hnn]. congruence.
Qed.

(** An invariant of the handler that every added service preserves
    holds of the handler [Build] returns. *)
Lemma buildServices_invariant (J : Handler -> Prop) :
  (forall h svc log rm ops log',
     J h -> isPointer svc -> routes h !! serviceID svc = None ->
     fold_left (buildMethod (describeService svc).2) (Object.Methods svc)
       (∅, [], log) = (rm, ops, log') ->
     J (extend h svc rm ops)) ->
  forall svcs h log h' log',
    J h -> buildServices svcs h log = (Ok h', log') -> J h'.
Proof.
  intros Hstep. induction svcs as [|svc rest IH]; intros h log h' log' Hh Hrun.
  - simpl in Hrun. by inversion Hrun; subst.
  - rewrite buildServices_cons in Hrun.
    destruct (Object.Kind svc) eqn:Hk; try done.
    destruct (Object.IsNil svc) eqn:Hnil; [done|].
    destruct (routes h !! serviceID svc) eqn:Hfree; [done|].
    destruct (fold_left _ _ _) as [[rm ops] log1] eqn:Hfold. simpl in Hrun.
    eapply IH; [|exact Hrun]. by eapply Hstep.
Qed.

Lemma buildServices_Ok_fresh svcs : forall h log h' log',
  buildServices svcs h log = (Ok h', log') ->
  Forall nonNilPointer svcs /\
  NoDup (map serviceID svcs) /\
  (forall svc, In svc svcs -> routes h !! serviceID svc = None).
Proof.
  induction svcs as [|svc rest IH]; intros h log h' log' Hrun.
  - split; [constructor|]. split; [constructor|]. by intros svc [].
  - rewrite buildServices_cons in Hrun.
    destruct (Object.Kind svc) eqn:Hk; try done.
    destruct (Object.IsNil svc) eqn:Hnil; [done|].
    destruct (routes h !! serviceID svc) eqn:Hfree; [done|].
    destruct (IH _ _ _ _ Hrun) as (Hp & Hnd & Hf).
    assert (Hrest : forall svc', In svc' rest ->
              serviceID svc' <> serviceID svc /\ routes h !! serviceID svc' = None).
    { intros svc' Hin. specialize (Hf svc' Hin). unfold extend in Hf. simpl in Hf.
      rewrite lookup_insert in Hf. by case_decide. }
    split; [by constructor|]. split.
    + simpl. constructor; [|done]. rewrite list_elem_of_In, in_map_iff.
      intros (svc' & Hid & Hin). by destruct (Hrest svc' Hin).
    + intros svc' [<-|Hin]; [done|]. by destruct (Hrest svc' Hin).
Qed.

Lemma buildServices_distinct_pointers svcs : forall h log,
  Forall nonNilPointer svcs ->
  NoDup (map serviceID svcs) ->
  (forall svc, In svc svcs -> routes h !! serviceID svc = None) ->
  exists h' log', buildServices svcs h log = (Ok h', log').
Proof.
  induction svcs as [|svc rest IH]; intros h log Hp Hnd Hf; [by eexists _, _|].
  rewrite buildServices_cons.
  inversion Hp as [|? ? [Hk Hnil] Hp']; subst.
  inversion Hnd as [|? ? Hnotin Hnd']; subst.
  rewrite Hk, Hnil, (Hf svc) by by left.
  apply IH; [done|done|].
  intros svc' Hin. unfold extend. simpl. rewrite lookup_insert_ne.
  - apply Hf. by right.
  - intros Heq. apply Hnotin. rewrite list_elem_of_In, in_map_iff. by exists svc'.
Qed.

(** With pointers only, the one error [Build] can return is the
    duplicate-ID error, for the first service whose ID is already
    routed. *)
Lemma buildServices_pointers_Err svcs : forall h log e,
  Forall isPointer svcs ->
  (buildServices svcs h log).1 = Err e ->
  exists k svc,
    svcs !! k = Some svc /\ e = alreadyRegistered (serviceID svc) /\
    (is_Some (routes h !! serviceID svc) \/
     exists k' svc', (k' < k)%nat /\ svcs !! k' = Some svc' /\
                     serviceID svc' = serviceID svc).
Proof.
  induction svcs as [|svc rest IH]; intros h log e Hp Hrun; [done|].
  rewrite buildServices_cons in Hrun.
  inversion Hp as [|? ? Hk Hp']; subst. rewrite Hk in Hrun.
  destruct (Object.IsNil svc) eqn:Hnil; [done|].
  destruct (routes h !! serviceID svc) eqn:Hfree.
  - simpl in Hrun. inversion Hrun; subst.
    exists 0%nat, svc. split; [done|]. split; [done|]. left. by rewrite Hfree.
  - destruct (IH _ _ _ Hp' Hrun) as (k & svc' & Hk' & -> & Hwhy).
    exists (S k), svc'. split; [done|]. split; [done|].
    destruct Hwhy as [Hrouted | (k' & svc'' & Hlt & Hk'' & Hid)].
    + unfold extend in Hrouted. simpl in Hrouted.
      rewrite lookup_insert in Hrouted. case_decide as Hsame.
      * right. exists 0%nat, svc. split; [lia|]. by split.
      * by left.
    + right. exists (S k'), svc''. split; [lia|]. by split.
Qed.

Lemma buildServices_logs svcs : forall h log h' log',
  buildServices svcs h log = (Ok h', log') ->
  (forall r, In r log -> In r log') /\
  (forall svc m e,
     In svc svcs -> In m (Object.Methods svc) -> Method.Name m <> "Metadata" ->
     (extractMethods m).2 = Some e -> In ("error extracting method", e) log').
Proof.
  induction svcs as [|svc rest IH]; intros h log h' log' Hrun.
  - simpl in Hrun. inversion Hrun; subst. split; [done|]. by intros svc m e [].
  - rewrite buildServices_cons in Hrun.
    destruct (Object.Kind svc) eqn:Hk; try done.
    destruct (Object.IsNil svc) eqn:Hnil; [done|].
    destruct (routes h !! serviceID svc) eqn:Hfree; [done|].
    destruct (fold_left _ _ _) as [[rm ops] log1] eqn:Hfold. simpl in Hrun.
    destruct (buildMethods_spec _ _ _ _ _ _ _ _ Hfold) as (_ & _ & Hl & He).
    destruct (IH _ _ _ _ Hrun) as (Hl' & He').
    split; [by auto|].
    intros svc' m e [<-|Hin] Hm Hname Hex; [|by eapply He'].
    apply Hl'. by eapply He.
Qed.

Lemma prefixb_app sub post : prefixb sub (sub +:+ post) = true.
Proof.
  induction sub as [|a sub IH]; [done|]. simpl.
  by rewrite Ascii.eqb_refl, IH.
Qed.

Lemma contains_containsb sub s : contains sub s -> containsb sub s = true.
Proof.
  intros (pre & post & ->). induction pre as [|a pre IH]; simpl.
  - destruct (sub +:+ post) eqn:Heq; simpl; rewrite <- Heq, prefixb_app; done.
  - rewrite IH. by destruct (prefixb _ _).
Qed.

(** Claim C5.  When [Build] succeeds, a pair (service ID, operation
    ID) is a key of the routing table exactly when the definitions
    document of the handler has that operation under that service. *)
Theorem Build_definitions_mirror_routes r h log :
  Build r = (Ok h, log) ->
  forall service operation,
    routed h service operation <->
    defined (ServiceDefinitions h) service operation.
Proof.
  intros Hrun.
  assert (HJ :
    (forall sdef, In sdef (Definitions.Services (defs h)) ->
       exists rm, routes h !! Service.ID sdef = Some rm /\
                  agree rm (Service.Operations sdef)) /\
    (forall s rm, routes h !! s = Some rm ->
       exists sdef, In sdef (Definitions.Services (defs h)) /\
                    Service.ID sdef = s /\ agree rm (Service.Operations sdef))).
  { revert Hrun. unfold Build.
    apply (buildServices_invariant (fun h =>
      (forall sdef, In sdef (Definitions.Services (defs h)) ->
         exists rm, routes h !! Service.ID sdef = Some rm /\
                    agree rm (Service.Operations sdef)) /\
      (forall s rm, routes h !! s = Some rm ->
         exists sdef, In sdef (Definitions.Services (defs h)) /\
                      Service.ID sdef = s /\ agree rm (Service.Operations sdef)))).
    - intros h0 svc log0 rm ops log1 [Hd Hr] _ Hfree Hfold.
      destruct (buildMethods_spec _ _ _ _ _ _ _ _ Hfold) as (Ha & _).
      specialize (Ha agree_empty). unfold extend. simpl. split.
      + intros sdef Hin. apply in_app_or in Hin as [Hin|[<-|[]]].
        * destruct (Hd sdef Hin) as (rm0 & Hrm0 & Hag). exists rm0.
          split; [|done]. rewrite lookup_insert_ne; [done|]. congruence.
        * exists rm. split; [|done]. simpl. apply lookup_insert_eq.
      + intros s rm1 Hlook. rewrite lookup_insert in Hlook.
        case_decide as Hs.
        * inversion Hlook; subst.
          exists (withOperations (describeService svc).1 ops).
          split; [|done]. apply in_or_app. right. by left.
        * destruct (Hr s rm1 Hlook) as (sdef & Hin & Hid & Hag).
          exists sdef. split; [|done]. apply in_or_app. by left.
    - simpl. split; [by intros sdef []|].
      intros s rm Hlook. by rewrite lookup_empty in Hlook. }
  destruct HJ as [Hd Hr]. intros service operation. split.
  - intros (rm & f & Hrm & Hf).
    destruct (Hr service rm Hrm) as (sdef & Hin & Hid & Hag).
    destruct (proj1 (Hag operation)) as (op & Hop & Hopid); [by eauto|].
    by exists sdef, op.
  - intros (sdef & op & Hin & Hop & Hid & Hopid).
    destruct (Hd sdef Hin) as (rm & Hrm & Hag).
    destruct (proj2 (Hag operation)) as [f Hf]; [by eauto|].
    exists rm, f. by rewrite <- Hid.
Qed.

(** Claim C10.  When [Build] succeeds, no service has an operation
    with the ID [Metadata], neither in the routing table nor in the
    definitions document; this does not depend on the object
    satisfying [ServiceWithMetadata]. *)
Theorem Build_never_exposes_Metadata r h log :
  Build r = (Ok h, log) ->
  forall service,
    ~ routed h service "Metadata" /\
    ~ defined (ServiceDefinitions h) service "Metadata".
Proof.
  intros Hrun.
  assert (HJ :
    (forall s rm, routes h !! s = Some rm -> rm !! "Metadata" = None) /\
    (forall sdef op, In sdef (Definitions.Services (defs h)) ->
       In op (Service.Operations sdef) -> Operation.ID op <> "Metadata")).
  { revert Hrun. unfold Build.
    apply (buildServices_invariant (fun h =>
      (forall s rm, routes h !! s = Some rm -> rm !! "Metadata" = None) /\
      (forall sdef op, In sdef (Definitions.Services (defs h)) ->
         In op (Service.Operations sdef) -> Operation.ID op <> "Metadata"))).
    - intros h0 svc log0 rm ops log1 [Hr Hd] _ Hfree Hfold.
      destruct (buildMethods_spec _ _ _ _ _ _ _ _ Hfold) as (_ & Hn & _).
      destruct Hn as [Hrm Hops]; [by split|].
      unfold extend. simpl. split.
      + intros s rm1 Hlook. rewrite lookup_insert in Hlook.
        case_decide; [by inversion Hlook; subst|by eapply Hr].
      + intros sdef op Hin Hop. apply in_app_or in Hin as [Hin|[<-|[]]].
        * by eapply Hd.
        * by apply Hops.
    - simpl. split; [|by intros sdef op []].
      intros s rm Hlook. by rewrite lookup_empty in Hlook. }
  destruct HJ as [Hr Hd]. intros service. split.
  - intros (rm & f & Hrm & Hf). rewrite (Hr _ _ Hrm) in Hf. done.
  - intros (sdef & op & Hin & Hop & _ & Hid). by apply (Hd sdef op).
Qed.

(** Claim C6, as amended.  If two registered services resolve to
    the same service ID, [Build] produces no handler.  Unless a nil
    pointer is registered, on which [Build] can panic, it returns an
    error.  If moreover every registered object is a non-nil
    pointer, the error is the duplicate-ID error, and the ID it
    names within its message is one that two registrations share. *)
Theorem Build_rejects_duplicate_service_ID r (i j : nat) a b :
  (i < j)%nat ->
  services r !! i = Some a ->
  services r !! j = Some b ->
  serviceID a = serviceID b ->
  (forall h, (Build r).1 <> Ok h) /\
  (~ Exists nilPointer (services r) -> exists e, (Build r).1 = Err e) /\
  (Forall nonNilPointer (services r) ->
   exists (i' j' : nat) a' b',
     (i' < j')%nat /\
     services r !! i' = Some a' /\ services r !! j' = Some b' /\
     serviceID a' = serviceID b' /\
     (Build r).1 = Err (alreadyRegistered (serviceID b')) /\
     contains (serviceID b') (Error (alreadyRegistered (serviceID b')))).
Proof.
  intros Hlt Ha Hb Hid.
  assert (Hno : forall h, (Build r).1 <> Ok h).
  { intros h Hok. destruct (Build r) as [o log] eqn:Hrun. simpl in Hok. subst o.
    unfold Build in Hrun.
    destruct (buildServices_Ok_fresh _ _ _ _ _ Hrun) as (_ & Hnd & _).
    assert (i = j); [|lia].
    apply (NoDup_lookup _ i j (serviceID a) Hnd).
    - by rewrite list_lookup_fmap, Ha.
    - by rewrite list_lookup_fmap, Hb, Hid. }
  assert (Herr : ~ Exists nilPointer (services r) -> exists e, (Build r).1 = Err e).
  { intros Hnil. destruct (Build r).1 as [h|e|msg] eqn:Hrun.
    - by destruct (Hno h).
    - by exists e.
    - unfold Build in Hrun.
      by destruct (buildServices_Panic_nil _ _ _ _ Hrun) as [_ Hex]. }
  split; [done|]. split; [done|]. intros Hp.
  destruct Herr as [e He].
  { rewrite Exists_exists. intros (svc & Hin & _ & Hnil).
    rewrite Forall_forall in Hp. destruct (Hp svc Hin) as [_ Hnn]. congruence. }
  assert (Hp' : Forall isPointer (services r)).
  { eapply Forall_impl; [exact Hp|]. apply nonNilPointer_isPointer. }
  destruct (buildServices_pointers_Err _ _ _ _ Hp' He)
    as (k & svc & Hk & -> & [Hrouted | (k' & svc' & Hlt' & Hk' & Hid')]).
  - simpl in Hrouted. rewrite lookup_empty in Hrouted. by destruct Hrouted.
  - exists k', k, svc', svc. repeat split; try done.
    unfold alreadyRegistered. simpl. by eexists _, _.
Qed.

(** Claim C2, as amended.  A method whose first parameter is not a
    context does not make [Build] fail: when every registered object
    is a non-nil pointer and the service IDs are distinct, [Build]
    returns a handler, whatever the signatures of the methods, and
    for every such method the error [first arg was not
    context.Context] is among the records logged. *)
Theorem Build_logs_missing_context r :
  Forall nonNilPointer (services r) ->
  NoDup (map serviceID (services r)) ->
  exists h,
    (Build r).1 = Ok h /\
    forall svc m,
      In svc (services r) -> In m (Object.Methods svc) ->
      Method.Name m <> "Metadata" -> firstParamNotContext m ->
      In ("error extracting method", notContext (firstParam m)) (Build r).2.
Proof.
  intros Hp Hnd. unfold Build.
  destruct (buildServices_distinct_pointers (services r)
              {| routes := ∅; defs := {| Definitions.Services := [] |} |} [] Hp Hnd)
    as (h & log & Hrun); [by intros; apply lookup_empty|].
  exists h. rewrite Hrun. split; [done|].
  intros svc m Hsvc Hm Hname Hbad.
  destruct (buildServices_logs _ _ _ _ _ Hrun) as [_ He].
  eapply He; [done|done|done|]. by apply extractMethods_notContext.
Qed.

End ops_properties.

Section ops_examples.
Import context reflect servicedef ops ops_test.

(** Claim C7.  With the test service [example] registered, [Build]
    succeeds without logging anything, and calling [Foo] of
    [example] on the test body returns the JSON string
    ["hello testing"], quotes included, and no error. *)
Theorem Call_example_Foo (ctx : Context) :
  exists h,
    Build (registry [example]) = (Ok h, []) /\
    Call h ctx "example" "Foo" barTesting = Ok (quoted "hello testing").
Proof.
  eexists. split; [reflexivity|]. vm_compute. reflexivity.
Qed.

Lemma Build_definitions_mirror_routes_witness :
  routed (built [example; second]) "second" "Foo" <->
  defined (ServiceDefinitions (built [example; second])) "second" "Foo".
Proof.
  apply (Build_definitions_mirror_routes
           (registry [example; second]) (built [example; second]) []).
  reflexivity.
Defined.

Lemma Build_never_exposes_Metadata_witness :
  ~ routed (built [audit]) "audit" "Metadata" /\
  ~ defined (ServiceDefinitions (built [audit])) "audit" "Metadata".
Proof.
  apply (Build_never_exposes_Metadata (registry [audit]) (built [audit]) []).
  reflexivity.
Defined.

Lemma Build_rejects_duplicate_service_ID_witness :
  (Build (registry [example; second; example])).1
  = Err (alreadyRegistered "example") /\
  forall h, (Build (registry [example; second; example])).1 <> Ok h.
Proof.
  split; [reflexivity|].
  apply (Build_rejects_duplicate_service_ID
           (registry [example; second; example]) 0 2 example example).
  - lia.
  - reflexivity.
  - reflexivity.
  - reflexivity.
Defined.

(** Claim C6, refuted as stated.  The test service [example] is
    registered twice, with the bare value [pointerOutput{}] between
    the two registrations.  [Build] fails at the bare value: the
    error is the not-a-pointer error, and its message does not
    contain the repeated ID. *)
Lemma Build_duplicate_behind_bare_value :
  let r := registry [example; pointerOutputValue; example] in
  services r !! 0%nat = Some example /\
  services r !! 2%nat = Some example /\
  serviceID example = "example" /\
  (Build r).1 = Err (notPointer pointerOutputValue) /\
  ~ contains "example" (Error (notPointer pointerOutputValue)).
Proof.
  repeat split.
  intros Hc. apply contains_containsb in Hc. vm_compute in Hc. discriminate.
Qed.

Lemma Build_logs_missing_context_witness :
  exists h,
    (Build (registry [legacy])).1 = Ok h /\
    forall svc m,
      In svc (services (registry [legacy])) -> In m (Object.Methods svc) ->
      Method.Name m <> "Metadata" -> firstParamNotContext m ->
      In ("error extracting method", notContext (firstParam m))
         (Build (registry [legacy])).2.
Proof.
  apply (Build_logs_missing_context (registry [legacy])).
  - repeat constructor.
  - repeat constructor. by intros Hin%elem_of_nil.
Defined.

(** A nil pointer registered ahead of a repeated ID: [Build]
    panics before it reaches the second registration. *)
Lemma Build_panics_on_nil_pointer :
  (Build (registry [example; unset; example])).1
  = Panic "reflect: call of reflect.Value.Type on zero Value".
Proof. reflexivity. Qed.

(** Claim C2, refuted as stated.  The service [legacy] has the
    exported method [Ping], whose first parameter is a string;
    [Build] returns a handler and no error. *)
Lemma Build_succeeds_without_context :
  In legacy (services (registry [legacy])) /\
  In Ping (Object.Methods legacy) /\
  firstParamNotContext Ping /\
  (Build (registry [legacy])).1 = Ok (built [legacy]) /\
  forall e, (Build (registry [legacy])).1 <> Err e.
Proof.
  split; [by left|]. split; [by left|].
  split; [by exists String_, []|]. split; [reflexivity|]. done.
Qed.

(** Claim C1, evaluated at the failing input.  For the service
    [legacy], whose method [Ping] has a string as first parameter,
    [Build] logs the error twice and still routes [Ping] and lists
    it in the definitions document, next to the valid [Status];
    calling the routed [Ping] panics, since the dispatcher passes
    the context as first argument. *)
Theorem Build_routes_method_without_context :
  let r := registry [legacy] in
  let h := built [legacy] in
  firstParamNotContext Ping /\
  Build r =
    (Ok h,
     [("error extracting method", notContext String_);
      ("error extracting method", notContext String_)]) /\
  routed h "legacy" "Ping" /\
  defined (ServiceDefinitions h) "legacy" "Ping" /\
  routed h "legacy" "Status" /\
  forall ctx input,
    Call h ctx "legacy" "Ping" input
    = Panic "reflect: Call using value of wrong type".
Proof.
  assert (Hrouted : forall op,
            is_Some (match routes (built [legacy]) !! "legacy" with
                     | Some rm => rm !! op
                     | None => None
                     end) ->
            routed (built [legacy]) "legacy" op).
  { intros op [f Hf]. unfold routed.
    destruct (routes (built [legacy]) !! "legacy") as [rm|]; [|done].
    by exists rm, f. }
  split; [by exists String_, []|]. split; [reflexivity|].
  split; [apply Hrouted; vm_compute; by eexists|].
  split.
  - eexists _, _. split; [by left|]. split; [by left|]. by split.
  - split; [apply Hrouted; vm_compute; by eexists|].
    intros ctx input. reflexivity.
Qed.

End ops_examples.

(** ** More on the registry: closed forms of [Build] *)

Section ops_build.
Import context reflect servicedef ops.

Lemma is_context_true t : is_context t = true <-> t = Context_.
Proof. by destruct t. Qed.

(** The loop of [extractMethods] in closed form. *)
Lemma extractMethods_closed m :
  extractMethods m =
  match Method.In m with
  | [] => ({| InputSchema := None; InputType := None |}, None)
  | t :: rest =>
    if is_context t then
      match rest with
      | [] => ({| InputSchema := None; InputType := None |}, None)
      | t2 :: _ =>
        ({| InputSchema := Some (jsonschema.Reflect t2); InputType := Some t2 |}, None)
      end
    else ({| InputSchema := None; InputType := None |}, Some (notContext t))
  end.
Proof.
  unfold extractMethods. destruct (Method.In m) as [|t rest]; [done|].
  simpl. destruct (is_context t); simpl; [|done].
  destruct rest as [|t2 rest]; [done|]. simpl. by rewrite andb_false_r.
Qed.

Lemma extractMethods_InputType m : InputType (extractMethods m).1 = inputOf m.
Proof.
  rewrite extractMethods_closed. unfold inputOf.
  destruct (Method.In m) as [|t rest]; [done|].
  destruct t; simpl; try done; by destruct rest.
Qed.

Lemma extractMethods_InputSchema m :
  InputSchema (extractMethods m).1 = option_map jsonschema.Reflect (inputOf m).
Proof.
  rewrite extractMethods_closed. unfold inputOf.
  destruct (Method.In m) as [|t rest]; [done|].
  destruct t; simpl; try done; by destruct rest.
Qed.

Lemma logError_twice m :
  isOperation m = true ->
  logError (extractMethods m).2 ++ logError (extractMethods m).2 = complaints m.
Proof.
  intros Hop. unfold complaints. rewrite Hop, extractMethods_closed.
  destruct (Method.In m) as [|t rest]; [done|].
  destruct (is_context t); [|done]. by destruct rest.
Qed.

Lemma isOperation_true m : isOperation m = true <-> Method.Name m <> "Metadata".
Proof.
  unfold isOperation. rewrite negb_true_iff, bool_decide_eq_false. done.
Qed.

Lemma isOperation_false m : isOperation m = false <-> Method.Name m = "Metadata".
Proof.
  unfold isOperation. rewrite negb_false_iff, bool_decide_eq_true. done.
Qed.

Lemma buildMethod_operation meta m :
  withRequestBody
    (newOperation (Method.Name m)
       (OperationMetadata.Description (lookupOperationMetadata meta (Method.Name m))))
    (InputSchema (extractMethods m).1)
  = operationOf meta m.
Proof.
  rewrite extractMethods_InputSchema. unfold operationOf, lookupOperationMetadata.
  destruct (ServiceMetadata.OperationMetadata meta !! Method.Name m);
    by destruct (inputOf m).
Qed.

(** The loop over the methods of one service in closed form. *)
Lemma buildMethods_closed meta ms : forall rm ops log,
  fold_left (buildMethod meta) ms (rm, ops, log) =
  (fold_left (fun acc m =>
                if isOperation m
                then <[Method.Name m := {| method := m; inputType := inputOf m |}]> acc
                else acc) ms rm,
   ops ++ map (operationOf meta) (List.filter isOperation ms),
   log ++ flat_map complaints ms).
Proof.
  induction ms as [|m ms IH]; intros rm ops log; cbn [fold_left].
  - simpl. by rewrite !app_nil_r.
  - destruct (isOperation m) eqn:Hop.
    + rewrite buildMethod_other by by apply isOperation_true.
      rewrite IH, buildMethod_operation, extractMethods_InputType.
      cbn [List.filter flat_map map]. rewrite Hop. cbn [map].
      rewrite <- (logError_twice m) by done. by rewrite <- !app_assoc.
    + rewrite buildMethod_Metadata by by apply isOperation_false.
      rewrite IH. cbn [List.filter flat_map]. rewrite Hop.
      unfold complaints at 2. rewrite Hop. done.
Qed.

Lemma find_append {A} (p : A -> bool) (l1 l2 : list A) :
  List.find p (l1 ++ l2) =
  match List.find p l1 with
  | Some x => Some x
  | None => List.find p l2
  end.
Proof.
  induction l1 as [|x l1 IH]; [done|]. simpl. by destruct (p x).
Qed.

Lemma routes_fold ms : forall (rm : gmap string function) k,
  fold_left (fun acc m =>
               if isOperation m
               then <[Method.Name m := {| method := m; inputType := inputOf m |}]> acc
               else acc) ms rm !! k =
  match routeOf ms k with
  | Some f => Some f
  | None => rm !! k
  end.
Proof.
  unfold routeOf.
  induction ms as [|m ms IH]; intros rm k; cbn [fold_left]; [done|].
  rewrite IH. cbn [List.filter].
  destruct (isOperation m) eqn:Hop; [|done].
  cbn [rev]. rewrite find_append.
  destruct (List.find _ (rev (List.filter isOperation ms))); [done|].
  simpl. destruct (String.eqb_spec (Method.Name m) k) as [->|Hne].
  - by rewrite lookup_insert_eq.
  - by rewrite lookup_insert_ne.
Qed.

Lemma definitionOf_describe svc :
  withOperations (describeService svc).1
    (map (operationOf (describeService svc).2)
       (List.filter isOperation (Object.Methods svc)))
  = definitionOf svc.
Proof.
  unfold definitionOf, describeService, withOperations.
  destruct (Object.Metadata svc); reflexivity.
Qed.

(** The loop over the services in closed form, when it succeeds. *)
Lemma buildServices_closed svcs : forall h log h' log',
  buildServices svcs h log = (Ok h', log') ->
  Definitions.Services (defs h') = Definitions.Services (defs h) ++ map definitionOf svcs /\
  log' = log ++ flat_map (fun svc => flat_map complaints (Object.Methods svc)) svcs /\
  (forall svc, In svc svcs ->
     exists rm, routes h' !! serviceID svc = Some rm /\
                forall k, rm !! k = routeOf (Object.Methods svc) k) /\
  (forall sid, ~ In sid (map serviceID svcs) -> routes h' !! sid = routes h !! sid).
Proof.
  induction svcs as [|svc rest IH]; intros h log h' log' Hrun.
  - simpl in Hrun. inversion Hrun; subst. simpl. rewrite !app_nil_r.
    split; [done|]. split; [done|]. split; [by intros svc []|done].
  - pose proof (buildServices_Ok_fresh _ _ _ _ _ Hrun) as (_ & Hnd & _).
    rewrite buildServices_cons in Hrun.
    destruct (Object.Kind svc) eqn:Hk; try done.
    destruct (Object.IsNil svc) eqn:Hnil; [done|].
    destruct (routes h !! serviceID svc) eqn:Hfree; [done|].
    rewrite buildMethods_closed in Hrun. cbn [fst snd] in Hrun.
    destruct (IH _ _ _ _ Hrun) as (Hd & Hl & Hr & Ho).
    inversion Hnd as [|? ? Hnotin Hnd']; subst.
    split; [|split; [|split]].
    + rewrite Hd. unfold extend. simpl.
      by rewrite definitionOf_describe, <- app_assoc.
    + simpl. by rewrite <- app_assoc.
    + intros svc' [<-|Hin]; [|by apply Hr].
      rewrite Ho by by rewrite <- list_elem_of_In.
      unfold extend. simpl. rewrite lookup_insert_eq.
      eexists. split; [done|]. intros k. rewrite routes_fold, lookup_empty.
      by destruct (routeOf _ k).
    + intros sid Hsid. rewrite Ho.
      * unfold extend. simpl. rewrite lookup_insert_ne; [done|].
        intros Heq. apply Hsid. by left.
      * intros Hin. apply Hsid. by right.
Qed.

End ops_build.

Section ops_registry.
Import context reflect servicedef ops.

Lemma Build_run r :
  Build r = ((Build r).1, (Build r).2).
Proof. by destruct (Build r). Qed.

(** Non-nil pointers with fresh, distinct IDs at the head of the
    list are consumed, and their IDs are then routed. *)
Lemma buildServices_prefix pre rest : forall h log,
  Forall nonNilPointer pre ->
  NoDup (map serviceID pre) ->
  (forall svc, In svc pre -> routes h !! serviceID svc = None) ->
  exists h' log',
    buildServices (pre ++ rest) h log = buildServices rest h' log' /\
    forall sid, is_Some (routes h' !! sid) <->
                is_Some (routes h !! sid) \/ In sid (map serviceID pre).
Proof.
  induction pre as [|svc pre IH]; intros h log Hp Hnd Hf.
  - exists h, log. split; [done|]. intros sid. simpl. tauto.
  - inversion Hp as [|? ? [Hk Hnil] Hp']; subst.
    inversion Hnd as [|? ? Hnotin Hnd']; subst.
    cbn [app]. rewrite buildServices_cons, Hk, Hnil, (Hf svc) by by left.
    cbv zeta.
    destruct (IH (extend h svc
                    (fold_left (buildMethod (describeService svc).2)
                       (Object.Methods svc) (∅, [], log)).1.1
                    (fold_left (buildMethod (describeService svc).2)
                       (Object.Methods svc) (∅, [], log)).1.2)
                 (fold_left (buildMethod (describeService svc).2)
                    (Object.Methods svc) (∅, [], log)).2 Hp' Hnd')
      as (h' & log' & Hrun & Hkeys).
    + intros svc' Hin. unfold extend. simpl. rewrite lookup_insert_ne.
      * apply Hf. by right.
      * intros Heq. apply Hnotin. rewrite list_elem_of_In, in_map_iff. by exists svc'.
    + exists h', log'. split; [done|]. intros sid. rewrite Hkeys.
      unfold extend. simpl. rewrite lookup_insert. case_decide as Hsid.
      * split; [|by eauto]. intros _. right. by left.
      * split; [intros [?|?]; by eauto|]. intros [?|[?|?]]; by eauto.
Qed.

(** Property X1.  [Build] returns a handler exactly when every registered object is
    a non-nil pointer and the service IDs they resolve to are
    pairwise distinct. *)
Theorem Build_succeeds_iff r :
  (exists h, (Build r).1 = Ok h) <->
  Forall nonNilPointer (services r) /\ NoDup (map serviceID (services r)).
Proof.
  split.
  - intros [h Hh]. pose proof (Build_run r) as Hrun. rewrite Hh in Hrun.
    unfold Build in Hrun.
    destruct (buildServices_Ok_fresh _ _ _ _ _ Hrun) as (Hp & Hnd & _). done.
  - intros [Hp Hnd]. unfold Build.
    destruct (buildServices_distinct_pointers (services r)
                {| routes := ∅; defs := {| Definitions.Services := [] |} |} [] Hp Hnd)
      as (h & log & Hrun); [by intros; apply lookup_empty|].
    exists h. by rewrite Hrun.
Qed.

(** Property X2.  [Build] stops at the first registration that cannot be compiled:
    after non-nil pointers with distinct IDs, a value that is not a
    pointer gives the not-a-pointer error for that value, a nil
    pointer makes [Build] panic, and a non-nil pointer whose ID one
    of them has already taken gives the duplicate-ID error for that
    ID; what is registered afterwards plays no part. *)
Theorem Build_stops_at_first_failure r pre svc post :
  services r = pre ++ svc :: post ->
  Forall nonNilPointer pre ->
  NoDup (map serviceID pre) ->
  (~ isPointer svc -> (Build r).1 = Err (notPointer svc)) /\
  (nilPointer svc -> (Build r).1 = Panic zeroValueType) /\
  (nonNilPointer svc -> In (serviceID svc) (map serviceID pre) ->
   (Build r).1 = Err (alreadyRegistered (serviceID svc))).
Proof.
  intros Hs Hp Hnd. unfold Build. rewrite Hs.
  destruct (buildServices_prefix pre (svc :: post)
              {| routes := ∅; defs := {| Definitions.Services := [] |} |} [] Hp Hnd)
    as (h' & log' & -> & Hkeys); [by intros; apply lookup_empty|].
  rewrite buildServices_cons. split; [|split].
  - intros Hk. unfold isPointer in Hk. by destruct (Object.Kind svc).
  - intros [Hk Hnil]. by rewrite Hk, Hnil.
  - intros [Hk Hnil] Hin. rewrite Hk, Hnil.
    destruct (proj2 (Hkeys (serviceID svc))) as [rm ->]; [by right|]. done.
Qed.

(** Property X3.  The definitions document of a successful [Build] lists the
    services in registration order; each entry takes its ID, name and
    description from the object's metadata (or its type name), and has
    one operation per method other than [Metadata], in method order,
    with the description the metadata gives for it and, when the
    method takes an input after the context, the schema of that
    input. *)
Theorem Build_definitions_in_registration_order r h log :
  Build r = (Ok h, log) ->
  Definitions.Services (ServiceDefinitions h) = map definitionOf (services r).
Proof.
  intros Hrun. unfold Build in Hrun. unfold ServiceDefinitions.
  by destruct (buildServices_closed _ _ _ _ _ Hrun) as (-> & _).
Qed.

(** Property X4.  A successful [Build] logs two records for every method (other
    than [Metadata]) whose first parameter is not a context, in
    registration and method order, and nothing else; in particular it
    logs nothing for a method without parameters. *)
Theorem Build_log r h log :
  Build r = (Ok h, log) ->
  log = flat_map (fun svc => flat_map complaints (Object.Methods svc)) (services r).
Proof.
  intros Hrun. unfold Build in Hrun.
  by destruct (buildServices_closed _ _ _ _ _ Hrun) as (_ & -> & _).
Qed.

Lemma NoDup_map_inj {A B} (f : A -> B) (l : list A) a b :
  NoDup (map f l) -> In a l -> In b l -> f a = f b -> a = b.
Proof.
  induction l as [|x l IH]; [done|]. simpl.
  intros Hnd [<-|Ha] [<-|Hb] Hf; try done.
  - inversion Hnd as [|? ? Hnotin _]; subst. exfalso. apply Hnotin.
    rewrite list_elem_of_In, in_map_iff. by exists b.
  - inversion Hnd as [|? ? Hnotin _]; subst. exfalso. apply Hnotin.
    rewrite list_elem_of_In, in_map_iff. by exists a.
  - inversion Hnd; subst. by apply IH.
Qed.

Lemma routeOf_method ms m :
  NoDup (map Method.Name ms) -> In m ms -> Method.Name m <> "Metadata" ->
  routeOf ms (Method.Name m) = Some {| method := m; inputType := inputOf m |}.
Proof.
  intros Hnd Hin Hname. unfold routeOf.
  destruct (List.find _ _) as [m'|] eqn:Hfind.
  - apply find_some in Hfind as [Hin' Heq].
    rewrite <- in_rev, filter_In in Hin'. destruct Hin' as [Hin' _].
    apply String.eqb_eq in Heq.
    by rewrite (NoDup_map_inj Method.Name ms m' m Hnd Hin' Hin Heq).
  - exfalso. pose proof (find_none _ _ Hfind m) as Hno. simpl in Hno.
    rewrite String.eqb_refl in Hno. enough (true = false) by done. apply Hno.
    rewrite <- in_rev, filter_In. split; [done|]. by apply isOperation_true.
Qed.

Lemma routeOf_none ms k :
  (forall m, In m ms -> Method.Name m <> k) \/ k = "Metadata" ->
  routeOf ms k = None.
Proof.
  intros Hk. unfold routeOf.
  destruct (List.find _ _) as [m'|] eqn:Hfind; [|done].
  apply find_some in Hfind as [Hin' Heq].
  rewrite <- in_rev, filter_In in Hin'. destruct Hin' as [Hin' Hop].
  apply String.eqb_eq in Heq. apply isOperation_true in Hop.
  destruct Hk as [Hk| ->]; [by destruct (Hk m' Hin')|done].
Qed.

Lemma routes_of_registered_service r h log svc :
  Build r = (Ok h, log) ->
  In svc (services r) ->
  NoDup (map Method.Name (Object.Methods svc)) ->
  exists rm,
    routes h !! serviceID svc = Some rm /\
    (forall m, In m (Object.Methods svc) -> Method.Name m <> "Metadata" ->
       rm !! Method.Name m = Some {| method := m; inputType := inputOf m |}) /\
    (forall k, (forall m, In m (Object.Methods svc) -> Method.Name m <> k) \/
               k = "Metadata" ->
       rm !! k = None).
Proof.
  intros Hrun Hsvc Hnd. unfold Build in Hrun.
  destruct (buildServices_closed _ _ _ _ _ Hrun) as (_ & _ & Hr & _).
  destruct (Hr svc Hsvc) as (rm & Hrm & Hk).
  exists rm. split; [done|]. split.
  - intros m Hm Hname. rewrite Hk. by apply routeOf_method.
  - intros k Hnone. rewrite Hk. by apply routeOf_none.
Qed.

(** Property X5.  After a successful [Build], the routes of a registered service
    are its methods: every method other than [Metadata] is routed
    under its own name, bound with the type of its second parameter
    as input type when the first is a context (and with none
    otherwise), and no other name is routed.  Method names within one
    object are distinct, as in a Go method set. *)
Theorem Build_routes_the_methods r h log svc :
  Build r = (Ok h, log) ->
  In svc (services r) ->
  NoDup (map Method.Name (Object.Methods svc)) ->
  exists rm,
    routes h !! serviceID svc = Some rm /\
    (forall m, In m (Object.Methods svc) -> Method.Name m <> "Metadata" ->
       rm !! Method.Name m = Some {| method := m; inputType := inputOf m |}) /\
    (forall k, (forall m, In m (Object.Methods svc) -> Method.Name m <> k) \/
               k = "Metadata" ->
       rm !! k = None).
Proof. exact (routes_of_registered_service r h log svc). Qed.

End ops_registry.

(** ** The call path *)

Section ops_call.
Import context reflect servicedef ops.

Lemma append_nil_r (x : string) : x +:+ "" = x.
Proof.
  induction x as [|a x IH]; [done|].
  change (String.String a (x +:+ "") = String.String a x). by rewrite IH.
Qed.

Lemma append_assoc (x y z : string) : (x +:+ y) +:+ z = x +:+ (y +:+ z).
Proof.
  induction x as [|a x IH]; [done|].
  change (String.String a ((x +:+ y) +:+ z) = String.String a (x +:+ (y +:+ z))).
  by rewrite IH.
Qed.

(** What [json.Unmarshal] decodes for a type can be passed for a
    parameter of that type. *)
Lemma store_assignable d j t cur v e :
  j <> json.JNull ->
  assignable cur t = true ->
  json.store d j t cur = (v, e) -> assignable v t = true.
Proof.
  intros Hj Hcur.
  destruct j as [|b|lit|str|elems|members]; [done|..];
    destruct t as [| | | | |pkg name types]; cbn -[json.ParseInt];
    try (intros [= <- <-]; done).
  - destruct (json.ParseInt lit); intros [= <- <-]; done.
  - destruct cur as [| | | | | |pkg' name' fields]; try done.
    match goal with
    | |- context [let '(_, _) := ?x in _] => destruct x as [fields' err]
    end.
    intros [= <- <-]. simpl. by rewrite !bool_decide_eq_true_2.
Qed.

Lemma assignable_Zero t :
  t <> Context_ -> t <> Error_ -> assignable (Zero t) t = true.
Proof.
  destruct t; try done. intros _ _. simpl. by rewrite !bool_decide_eq_true_2.
Qed.

Lemma Unmarshal_assignable input t v :
  json.Unmarshal input t = json.Decoded v -> assignable v t = true.
Proof.
  unfold json.Unmarshal. destruct (json.parse input) as [e|j]; [done|].
  assert (Hgo : j <> json.JNull ->
                match json.store json.top j t (Zero t) with
                | (_, Some e) => json.Failed e
                | (v, None) => json.Decoded v
                end = json.Decoded v -> assignable v t = true).
  { intros Hj.
    destruct (json.store json.top j t (Zero t)) as [v' [e|]] eqn:Hst; [done|].
    intros [= ->]. destruct t as [| | | | |pkg name types].
    1-2: by destruct j.
    all: eapply store_assignable; [done| |exact Hst]; by apply assignable_Zero. }
  destruct j; [done|..]; by apply Hgo.
Qed.

(** Property X6.  After a successful [Build], a call that names no registered
    service fails with [service ... not found], whatever the
    operation and the body. *)
Theorem Call_unknown_service r h log ctx service operation input :
  Build r = (Ok h, log) ->
  ~ In service (map serviceID (services r)) ->
  Call h ctx service operation input
  = Err (errorString ("service " +:+ service +:+ " not found")).
Proof.
  intros Hrun Hs. unfold Build in Hrun.
  destruct (buildServices_closed _ _ _ _ _ Hrun) as (_ & _ & _ & Ho).
  unfold Call. rewrite (Ho service Hs). simpl. by rewrite lookup_empty.
Qed.

(** Property X7.  After a successful [Build], a call to a registered service with a
    name that none of its methods has, or with the name [Metadata],
    fails with an error whose message contains the operation and the
    service; the body is not looked at. *)
Theorem Call_unknown_operation r h log ctx svc operation input :
  Build r = (Ok h, log) ->
  In svc (services r) ->
  (forall m, In m (Object.Methods svc) -> Method.Name m <> operation) \/
  operation = "Metadata" ->
  exists msg,
    Call h ctx (serviceID svc) operation input = Err (errorString msg) /\
    contains operation msg /\ contains (serviceID svc) msg.
Proof.
  intros Hrun Hsvc Hop. unfold Build in Hrun.
  destruct (buildServices_closed _ _ _ _ _ Hrun) as (_ & _ & Hr & _).
  destruct (Hr svc Hsvc) as (rm & Hrm & Hk).
  unfold Call. rewrite Hrm, Hk, routeOf_none by done.
  eexists. split; [reflexivity|]. split.
  - by exists "operation ", (" not found for service " +:+ serviceID svc).
  - exists ("operation " +:+ operation +:+ " not found for service "), "".
    by rewrite append_nil_r, !append_assoc.
Qed.

Lemma Call_routed h ctx service operation input rm f :
  routes h !! service = Some rm ->
  rm !! operation = Some f ->
  Call h ctx service operation input =
  match
    match inputType f with
    | Some t =>
      match json.Unmarshal input t with
      | json.Failed err => Err (Errorf_w "error unmarshalling input" err)
      | json.InterfaceNil => Panic "reflect: call of reflect.Value.Elem on zero Value"
      | json.Decoded v => Ok ([VContext ctx] ++ [v])
      end
    | None => Ok [VContext ctx]
    end
  with
  | Err e => Err e
  | Panic msg => Panic msg
  | Ok args =>
    match reflectCall (method f) args with
    | Err e => Err e
    | Panic msg => Panic msg
    | Ok output =>
      match output with
      | [] => Panic "runtime error: index out of range [0] with length 0"
      | result :: _ => Ok (json.Marshal result)
      end
    end
  end.
Proof. intros Hrm Hf. unfold Call. by rewrite Hrm, Hf. Qed.

(** Property X8.  A method [(ctx, input)] of a registered service whose input is
    a string, an integer, a boolean or a struct of such, passed by
    value, called through a built handler: a body that does not
    decode into the input type gives an error that wraps the
    decoder's, and the method is not invoked; the body [null]
    panics; otherwise the method is invoked on the context and the
    decoded input, and when its first result is again such a value,
    the encoding of that result is returned.  Its other results, an
    error among them, are not looked at; a method without results
    panics. *)
Theorem Call_method_with_input r h log svc m t ctx input :
  Build r = (Ok h, log) ->
  In svc (services r) ->
  NoDup (map Method.Name (Object.Methods svc)) ->
  In m (Object.Methods svc) ->
  Method.Name m <> "Metadata" ->
  Method.In m = [Context_; t] ->
  plainType t = true ->
  match json.Unmarshal input t with
  | json.Failed err =>
    Call h ctx (serviceID svc) (Method.Name m) input
    = Err (Errorf_w "error unmarshalling input" err)
  | json.InterfaceNil =>
    Call h ctx (serviceID svc) (Method.Name m) input
    = Panic "reflect: call of reflect.Value.Elem on zero Value"
  | json.Decoded v =>
    match Method.Func m [VContext ctx; v] with
    | result :: _ =>
      plainValue result = true ->
      Call h ctx (serviceID svc) (Method.Name m) input = Ok (json.Marshal result)
    | [] =>
      Call h ctx (serviceID svc) (Method.Name m) input
      = Panic "runtime error: index out of range [0] with length 0"
    end
  end.
Proof.
  intros Hrun Hsvc Hnd Hm Hname Hin _.
  destruct (routes_of_registered_service r h log svc Hrun Hsvc Hnd) as (rm & Hrm & Hb & _).
  rewrite (Call_routed _ _ _ _ _ _ _ Hrm (Hb m Hm Hname)). simpl.
  unfold inputOf. rewrite Hin.
  destruct (json.Unmarshal input t) as [v| |err] eqn:Hdec; try done.
  unfold reflectCall. rewrite Hin. simpl.
  rewrite (Unmarshal_assignable _ _ _ Hdec).
  by destruct (Method.Func m [VContext ctx; v]).
Qed.

(** Property X9.  A method [(ctx)] of a registered service, called through a built
    handler, is invoked on the context alone: the body is never
    decoded, so any body, valid JSON or not, gives the same result. *)
Theorem Call_method_without_input r h log svc m ctx input :
  Build r = (Ok h, log) ->
  In svc (services r) ->
  NoDup (map Method.Name (Object.Methods svc)) ->
  In m (Object.Methods svc) ->
  Method.Name m <> "Metadata" ->
  Method.In m = [Context_] ->
  Call h ctx (serviceID svc) (Method.Name m) input =
  match Method.Func m [VContext ctx] with
  | result :: _ => Ok (json.Marshal result)
  | [] => Panic "runtime error: index out of range [0] with length 0"
  end.
Proof.
  intros Hrun Hsvc Hnd Hm Hname Hin.
  destruct (routes_of_registered_service r h log svc Hrun Hsvc Hnd) as (rm & Hrm & Hb & _).
  rewrite (Call_routed _ _ _ _ _ _ _ Hrm (Hb m Hm Hname)). simpl.
  unfold inputOf, reflectCall. rewrite Hin. done.
Qed.

(** Property X10.  A method declared without any parameter is compiled without
    complaint: [extractMethods] gives no error for it and [Build]
    routes it.  Yet no call reaches it: the dispatcher always passes
    the context, and [reflect]'s [Call] panics on the argument the
    method does not take, whatever the request body. *)
Theorem Call_method_without_parameters r h log svc m ctx input :
  Build r = (Ok h, log) ->
  In svc (services r) ->
  NoDup (map Method.Name (Object.Methods svc)) ->
  In m (Object.Methods svc) ->
  Method.Name m <> "Metadata" ->
  Method.In m = [] ->
  (extractMethods m).2 = None /\
  routed h (serviceID svc) (Method.Name m) /\
  Call h ctx (serviceID svc) (Method.Name m) input
  = Panic "reflect: Call with too many input arguments".
Proof.
  intros Hrun Hsvc Hnd Hm Hname Hin.
  destruct (routes_of_registered_service r h log svc Hrun Hsvc Hnd) as (rm & Hrm & Hb & _).
  split; [|split].
  - unfold extractMethods. by rewrite Hin.
  - exists rm. eexists. split; [exact Hrm|]. by apply Hb.
  - rewrite (Call_routed _ _ _ _ _ _ _ Hrm (Hb m Hm Hname)). simpl.
    unfold inputOf, reflectCall. by rewrite Hin.
Qed.

End ops_call.

(** ** The HTTP surface *)

Section ops_http.
Import context reflect servicedef ops.
Variable Encode : Definitions.t -> error + string.

Lemma length_Split s sep : length (Split s sep) = S (occurrences sep s).
Proof.
  induction s as [|c s IH]; [done|]. simpl.
  destruct (Ascii.eqb c sep); simpl; [by rewrite IH|].
  destruct (Split s sep); simpl in *; done.
Qed.

Lemma Split_without_separator s sep : occurrences sep s = O -> Split s sep = [s].
Proof.
  induction s as [|c s IH]; [done|]. simpl.
  destruct (Ascii.eqb c sep); [done|]. intros Hs. by rewrite IH.
Qed.

Lemma Split_at_first_separator a b sep :
  occurrences sep a = O ->
  Split (a +:+ String.String sep b) sep = a :: Split b sep.
Proof.
  induction a as [|c a IH].
  - intros _. change (Split (String.String sep b) sep = "" :: Split b sep).
    simpl. by rewrite Ascii.eqb_refl.
  - change (String.String c a +:+ String.String sep b)
      with (String.String c (a +:+ String.String sep b)).
    simpl. destruct (Ascii.eqb c sep); [done|]. intros Ha. by rewrite IH.
Qed.

(** Property X11.  Any request that is neither a POST nor the GET of the operations
    document is answered 405 with the standard text; nothing is
    dispatched. *)
Theorem ServeHTTP_method_not_allowed h r :
  Request.Method r <> "POST" ->
  ~ (Request.Method r = "GET" /\ Request.Path r = "/.lightwave/operations") ->
  ServeHTTP Encode h r ResponseWriter.fresh
  = (Ok (response 405 "Method Not Allowed"), []).
Proof.
  intros Hpost Hget. unfold ServeHTTP.
  destruct (bool_decide (Request.Method r = "GET") &&
            bool_decide (Request.Path r = "/.lightwave/operations")) eqn:Hg.
  - apply andb_true_iff in Hg as [H1%bool_decide_eq_true H2%bool_decide_eq_true].
    by destruct Hget.
  - by rewrite bool_decide_eq_false_2.
Qed.

(** Property X12.  A POST is answered 404, with the path in the body, exactly when
    its path, less one leading slash, does not consist of two segments
    separated by one slash; the body of the request is not read and
    nothing is dispatched. *)
Theorem ServeHTTP_invalid_path h r :
  Request.Method r = "POST" ->
  (ServeHTTP Encode h r ResponseWriter.fresh
   = (Ok (response 404 ("invalid path: " +:+ Request.Path r)), [])
   <-> occurrences "/" (TrimPrefix (Request.Path r) "/") <> 1%nat).
Proof.
  intros Hpost. unfold ServeHTTP. rewrite Hpost. cbn [andb negb bool_decide].
  replace (bool_decide ("POST" = "GET")) with false by done.
  replace (bool_decide ("POST" = "POST")) with true by done.
  cbn [andb negb].
  pose proof (length_Split (TrimPrefix (Request.Path r) "/") "/") as Hlen.
  destruct (Split (TrimPrefix (Request.Path r) "/") "/") as [|a [|b [|c rest]]];
    simpl in Hlen.
  - done.
  - split; [lia|done].
  - split; [|lia]. intros Hr. exfalso.
    destruct (Request.Body r) as [err|body]; [by inversion Hr|].
    destruct (Call h (Request.Ctx r) a b body); by inversion Hr.
  - split; [lia|done].
Qed.

(** Property X13.  A POST to [/service/operation], both segments free of slashes,
    with a readable body, is the call of that operation on that body
    under the request's context: the result is answered 200, an error
    is answered 400 with its message, and a panic of the call is a
    panic of the handler. *)
Theorem ServeHTTP_dispatches h r service operation body :
  Request.Method r = "POST" ->
  Request.Path r = "/" +:+ service +:+ "/" +:+ operation ->
  occurrences "/" service = O ->
  occurrences "/" operation = O ->
  Request.Body r = inr body ->
  ServeHTTP Encode h r ResponseWriter.fresh =
  match Call h (Request.Ctx r) service operation body with
  | Ok res => (Ok (response 200 res), [])
  | Err err => (Ok (response 400 (Error err)), [])
  | Panic msg => (Panic msg, [])
  end.
Proof.
  intros Hpost Hpath Hs Ho Hbody. unfold ServeHTTP. rewrite Hpost, Hpath, Hbody.
  replace (bool_decide ("POST" = "GET")) with false by done.
  replace (bool_decide ("POST" = "POST")) with true by done.
  cbn [andb negb].
  change (TrimPrefix ("/" +:+ service +:+ "/" +:+ operation) "/")
    with (service +:+ String.String "/" operation).
  rewrite Split_at_first_separator, Split_without_separator by done.
  by destruct (Call h (Request.Ctx r) service operation body).
Qed.

(** An unreadable body of a well-addressed POST is answered 400 with
    the read error; nothing is dispatched. *)
Theorem ServeHTTP_unreadable_body h r err :
  Request.Method r = "POST" ->
  occurrences "/" (TrimPrefix (Request.Path r) "/") = 1%nat ->
  Request.Body r = inl err ->
  ServeHTTP Encode h r ResponseWriter.fresh = (Ok (response 400 (Error err)), []).
Proof.
  intros Hpost Hocc Hbody. unfold ServeHTTP. rewrite Hpost, Hbody.
  replace (bool_decide ("POST" = "GET")) with false by done.
  replace (bool_decide ("POST" = "POST")) with true by done.
  cbn [andb negb].
  pose proof (length_Split (TrimPrefix (Request.Path r) "/") "/") as Hlen.
  rewrite Hocc in Hlen.
  by destruct (Split (TrimPrefix (Request.Path r) "/") "/") as [|a [|b [|c rest]]].
Qed.

(** Property X14.  The GET of [/.lightwave/operations] is answered 200 with the
    encoded definitions document, and also 200, with the encoder's
    error as the body and one logged record, when the encoding
    fails. *)
Theorem ServeHTTP_operations h r :
  Request.Method r = "GET" ->
  Request.Path r = "/.lightwave/operations" ->
  ServeHTTP Encode h r ResponseWriter.fresh =
  match Encode (ServiceDefinitions h) with
  | inr bytes => (Ok (response 200 bytes), [])
  | inl err => (Ok (response 200 (Error err)), [("error marshalling operations", err)])
  end.
Proof.
  intros Hget Hpath. unfold ServeHTTP, ServiceDefinitions. rewrite Hget, Hpath.
  replace (bool_decide ("GET" = "GET")) with true by done.
  replace (bool_decide ("/.lightwave/operations" = "/.lightwave/operations"))
    with true by done.
  cbn [andb]. by destruct (Encode (defs h)).
Qed.

(** Property X15.  Whatever the request, a handler that returns has answered with
    one of the statuses 200, 400, 404 and 405. *)
Theorem ServeHTTP_statuses h r w log :
  ServeHTTP Encode h r ResponseWriter.fresh = (Ok w, log) ->
  ResponseWriter.status w = Some 200 \/ ResponseWriter.status w = Some 400 \/
  ResponseWriter.status w = Some 404 \/ ResponseWriter.status w = Some 405.
Proof.
  unfold ServeHTTP.
  destruct (_ && _).
  - destruct (Encode (defs h)); intros [= <- _]; by left.
  - destruct (negb _); [intros [= <- _]; by eauto|].
    destruct (Split _ _) as [|a [|b [|c rest]]]; try (intros [= <- _]; by eauto).
    destruct (Request.Body r); [intros [= <- _]; by eauto|].
    destruct (Call _ _ _ _ _); intros [= <- _]; by eauto.
Qed.

End ops_http.

(** ** More on the tunnel *)

Section tunnel_more.
Import context protocol tunnel.
Context `{Externals}.

Section loop.
Context {St : Type}.
Implicit Types (b : Backoff) (t : timeline) (s : St).
Implicit Types condition : @ConditionWithContextFunc St.

(** The loop runs the condition at most as often as it has fuel. *)
Lemma backoff_loop_bounded (P : nat -> St -> Prop) ctx condition :
  (forall k s0, P k s0 -> P (S k) (condition s0).2) ->
  forall fuel b s t k,
    P k s ->
    exists k', (k <= k' <= k + fuel)%nat /\
               P k' (backoff_loop fuel ctx b condition s t).1.2.
Proof.
  intros Hc. induction fuel as [|fuel IH]; intros b s t k Hs.
  - exists k. split; [lia|done].
  - rewrite backoff_loop_S.
    destruct (Steps b <=? 0); [exists k; split; [lia|done]|].
    destruct (context.Err ctx (now t)); [exists k; split; [lia|done]|].
    specialize (Hc k s Hs).
    destruct (condition s) as [[ok err] s1]. simpl in Hc.
    destruct err; [exists (S k); split; [lia|done]|].
    destruct ok; [exists (S k); split; [lia|done]|].
    destruct (Steps b =? 1); [exists (S k); split; [lia|done]|].
    destruct (context.Err ctx _); [exists (S k); split; [lia|done]|].
    destruct (IH (Step b).2 s1 (sleep (Step b).1 (tick t)) (S k) Hc) as (k' & Hk' & HP).
    exists k'. split; [lia|done].
Qed.

(** [k] failures followed by a success, under a live context: the
    loop returns nil after [k + 1] runs of the condition and [k]
    sleeps. *)
Lemma backoff_loop_succeeds (P : nat -> St -> Prop) (Q : St -> Prop) ctx condition :
  forall (k j0 n : nat) b s t,
    (forall j s0, (j0 <= j < j0 + k)%nat -> P j s0 ->
       exists s1, condition s0 = ((false, None), s1) /\ P (S j) s1) ->
    (forall s0, P (j0 + k)%nat s0 ->
       exists s1, condition s0 = ((true, None), s1) /\ Q s1) ->
    Steps b = Z.of_nat (S n) ->
    (k <= n)%nat ->
    (forall i, (i <= now t + 2 * k)%nat -> context.Err ctx i = None) ->
    P j0 s ->
    exists s' t',
      backoff_loop (S n) ctx b condition s t = (None, s', t') /\
      Q s' /\
      now t' = (now t + 2 * k + 1)%nat /\
      sleeps t' = sleeps t ++ delays k b.
Proof.
  induction k as [|k IH]; intros j0 n b s t Hfail Hok Hb Hkn Hctx Hs.
  - rewrite backoff_loop_S, Hb.
    replace (Z.of_nat (S n) <=? 0) with false by (symmetry; apply Z.leb_gt; lia).
    rewrite Hctx by lia.
    destruct (Hok s) as (s1 & -> & HQ); [by rewrite Nat.add_0_r|].
    exists s1, (tick t). simpl. rewrite app_nil_r. repeat split; [done|lia].
  - destruct n as [|n]; [lia|].
    rewrite backoff_loop_S, Hb.
    replace (Z.of_nat (S (S n)) <=? 0) with false by (symmetry; apply Z.leb_gt; lia).
    rewrite Hctx by lia.
    destruct (Hfail j0 s) as (s1 & -> & Hs1); [lia|done|].
    replace (Z.of_nat (S (S n)) =? 1) with false by (symmetry; apply Z.eqb_neq; lia).
    rewrite Hctx by lia.
    destruct (IH (S j0) n (Step b).2 s1 (sleep (Step b).1 (tick t)))
      as (s' & t' & Hrun & HQ & Hnow & Hsl).
    + intros j s0 Hj. apply Hfail. lia.
    + intros s0 Hs0. apply Hok. by replace (j0 + S k)%nat with (S j0 + k)%nat by lia.
    + simpl. lia.
    + lia.
    + intros i Hi. apply Hctx. simpl in Hi. lia.
    + done.
    + exists s', t'. rewrite Hrun. repeat split; [done| |].
      * rewrite Hnow. simpl. lia.
      * rewrite Hsl. simpl. by rewrite <- app_assoc.
Qed.

(** A condition that never reports success, under a context that is
    done by the time the last attempt would start: the loop leaves
    with the context's error, after at least one run of the condition
    if the context was live at the start. *)
Lemma backoff_loop_interrupted (P : nat -> St -> Prop) ctx condition d :
  (forall k s0, P k s0 ->
     exists s1, condition s0 = ((false, None), s1) /\ P (S k) s1) ->
  doneAt ctx = Some d ->
  forall (n : nat) b s t k,
    Steps b = Z.of_nat (S n) ->
    (d <= now t + 2 * n)%nat ->
    P k s ->
    exists s' t' k',
      backoff_loop (S n) ctx b condition s t = (Some (cause ctx), s', t') /\
      P k' s' /\ (k <= k')%nat /\ ((now t < d)%nat -> (k < k')%nat) /\
      ((d <= now t)%nat -> k' = k /\ s' = s /\ t' = t).
Proof.
  intros Hc Hd. induction n as [|n IH]; intros b s t k Hb Hle Hs.
  - rewrite backoff_loop_S, Hb. simpl. unfold context.Err. rewrite Hd.
    destruct (Nat.leb_spec d (now t)); [|lia].
    exists s, t, k. repeat split; try done; lia.
  - rewrite backoff_loop_S, Hb.
    replace (Z.of_nat (S (S n)) <=? 0) with false by (symmetry; apply Z.leb_gt; lia).
    unfold context.Err at 1. rewrite Hd.
    destruct (Nat.leb_spec d (now t)).
    { exists s, t, k. repeat split; try done; lia. }
    destruct (Hc k s Hs) as (s1 & -> & Hs1).
    replace (Z.of_nat (S (S n)) =? 1) with false by (symmetry; apply Z.eqb_neq; lia).
    unfold context.Err at 1. rewrite Hd.
    destruct (Nat.leb_spec d (S (S (now t)))).
    { exists s1, (sleep (Step b).1 (tick t)), (S k).
      repeat split; try done; lia. }
    destruct (IH (Step b).2 s1 (sleep (Step b).1 (tick t)) (S k))
      as (s' & t' & k' & Hrun & HP & Hk & _); [simpl; lia|simpl; lia|done|].
    exists s', t', k'. rewrite Hrun. repeat split; try done; lia.
Qed.

End loop.

(** Property X16.  Whatever the network and the context do, one [DialAndServe]
    makes at most five attempts. *)
Theorem DialAndServe_at_most_five_attempts s ctx dialers addr st t :
  (dials st <= dials (DialAndServe s ctx dialers addr st t).1.2 <= dials st + 5)%nat.
Proof.
  unfold DialAndServe, ExponentialBackoffWithContext.
  destruct (backoff_loop_bounded
              (fun k (sl : process * option error) => dials sl.1 = (dials st + k)%nat)
              ctx (attempt s dialers addr)) with
    (fuel := Z.to_nat (Steps DefaultBackoff)) (b := DefaultBackoff)
    (s := (log LevelDebug "Dialing address" st, @None error)) (t := t) (k := 0%nat)
    as (k & Hk & Hd).
  - intros k [st0 l] Hst0. unfold attempt. simpl in Hst0.
    pose proof (dialAndServe_dials s (dialers (dials st0)) addr st0) as Hdd.
    destruct (dialAndServe s _ addr st0) as [[e|] st1]; simpl in *.
    + destruct (Is e Canceled); simpl; lia.
    + lia.
  - simpl. lia.
  - change (Z.to_nat (Steps DefaultBackoff)) with 5%nat in *.
    destruct (backoff_loop 5 ctx DefaultBackoff _ _ t) as [[err [st1 lastErr]] t1].
    simpl in *. lia.
Qed.

(** Property X17.  If the first [k] attempts fail ([k] at most 4), the next one
    succeeds, and the context stays live until it starts,
    [DialAndServe] returns nil after exactly [k + 1] attempts and [k]
    backoff sleeps: earlier failures leave no trace in the result. *)
Theorem DialAndServe_returns_nil_on_success s ctx dialers addr st t (k : nat) :
  (k <= 4)%nat ->
  (forall i, (i <= now t + 2 * k)%nat -> context.Err ctx i = None) ->
  (forall i st0, (dials st <= i < dials st + k)%nat ->
     (dialAndServe s (dialers i) addr st0).1 <> None) ->
  (forall st0, (dialAndServe s (dialers (dials st + k)%nat) addr st0).1 = None) ->
  (DialAndServe s ctx dialers addr st t).1.1 = None /\
  dials (DialAndServe s ctx dialers addr st t).1.2 = (dials st + k + 1)%nat /\
  sleeps (DialAndServe s ctx dialers addr st t).2 = sleeps t ++ delays k DefaultBackoff.
Proof.
  intros Hk Hctx Hfail Hok.
  unfold DialAndServe, ExponentialBackoffWithContext.
  destruct (backoff_loop_succeeds
              (fun j (sl : process * option error) => dials sl.1 = (dials st + j)%nat)
              (fun sl : process * option error => dials sl.1 = (dials st + k + 1)%nat)
              ctx (attempt s dialers addr) k 0%nat 4%nat DefaultBackoff
              (log LevelDebug "Dialing address" st, @None error) t)
    as ([st1 lastErr] & t1 & Hrun & Hd & _ & Hs).
  - intros j [st0 l] Hj Hst0. simpl in Hst0. unfold attempt.
    pose proof (Hfail (dials st0) st0 ltac:(lia)) as Hf.
    pose proof (dialAndServe_dials s (dialers (dials st0)) addr st0) as Hdd.
    destruct (dialAndServe s _ addr st0) as [[e|] st2]; simpl in *; [|done].
    destruct (Is e Canceled); eexists; (split; [reflexivity|]); simpl; lia.
  - intros [st0 l] Hst0. simpl in Hst0. unfold attempt.
    pose proof (Hok st0) as Hf. rewrite <- Hst0 in Hf.
    pose proof (dialAndServe_dials s (dialers (dials st0)) addr st0) as Hdd.
    destruct (dialAndServe s _ addr st0) as [[e|] st2]; simpl in *; [done|].
    eexists. split; [reflexivity|]. simpl. lia.
  - reflexivity.
  - done.
  - done.
  - simpl. lia.
  - change (Z.to_nat (Steps DefaultBackoff)) with 5%nat.
    rewrite Hrun. simpl in *. by rewrite Hs.
Qed.

(** Property X18.  Deadline is not cancellation: when the context ends with
    [DeadlineExceeded] no later than the start of the fifth attempt
    and every attempt fails with the error [e], [DialAndServe] returns
    [e], not the deadline error; and when the deadline has passed
    before the first attempt, it makes no attempt and returns nil. *)
Theorem DialAndServe_deadline_returns_last_error s ctx dialers addr st t d e :
  doneAt ctx = Some d ->
  cause ctx = DeadlineExceeded ->
  (d <= now t + 8)%nat ->
  (forall i st0, (dialAndServe s (dialers i) addr st0).1 = Some e) ->
  (DialAndServe s ctx dialers addr st t).1.1 = (if (d <=? now t)%nat then None else Some e) /\
  ((d <= now t)%nat -> dials (DialAndServe s ctx dialers addr st t).1.2 = dials st).
Proof.
  intros Hd Hcause Hle Hfail.
  unfold DialAndServe, ExponentialBackoffWithContext.
  destruct (backoff_loop_interrupted
              (fun k (sl : process * option error) =>
                 sl.2 = (if (k =? 0)%nat then None else Some e))
              ctx (attempt s dialers addr) d) with
    (n := 4%nat) (b := DefaultBackoff)
    (s := (log LevelDebug "Dialing address" st, @None error)) (t := t) (k := 0%nat)
    as ([st1 lastErr] & t1 & k' & Hrun & HP & _ & Hpos & Hzero); try done.
  - intros k [st0 l] _. unfold attempt.
    pose proof (Hfail (dials st0) st0) as Hf.
    destruct (dialAndServe s _ addr st0) as [err st2]. simpl in Hf. subst err.
    destruct (Is e Canceled); eexists; (split; [reflexivity|]); done.
  - change (Z.to_nat (Steps DefaultBackoff)) with 5%nat.
    rewrite Hrun, Hcause. simpl in *. split.
    + destruct (Nat.leb_spec d (now t)) as [Hdn|Hdn].
      * destruct (Hzero Hdn) as (-> & _). done.
      * specialize (Hpos Hdn). destruct k'; [lia|done].
    + intros Hdn. destruct (Hzero Hdn) as (_ & Hst & _). by inversion Hst.
Qed.

End tunnel_more.

(** ** Registration, authentication, TLS configuration *)

Section tunnel_register.
Import context protocol tunnel.
Context `{Externals}.

Lemma register_unfold s conn st :
  register s conn st =
  match OpenStream conn with
  | Some err => (Some (Errorf_w "accepting stream" err), st)
  | None =>
    let '(aerr, req, recs) := authenticator s (request s) in
    let st := log_all recs st in
    match aerr with
    | Some err => (Some (Errorf_w "registering new connection" err), st)
    | None =>
      let st := record_sent req st in
      match Encode conn req with
      | Some err => (Some (Errorf_w "encoding register listener request" err), st)
      | None =>
        match Decode conn with
        | inl err => (Some (Errorf_w "decoding register listener response" err), st)
        | inr resp =>
          if negb (Code resp =? CodeOK) then
            (Some (errorString
                     ("unexpected response code: " +:+ protocol.String (Code resp))),
             st)
          else if HasOnConnectionReady s then (None, record_ready resp st)
          else (None, st)
        end
      end
    end
  end.
Proof. reflexivity. Qed.

(** Property X19.  [register] succeeds exactly when the stream opens, the
    authenticator accepts, the request is encoded, and the response
    decodes with the code OK. *)
Theorem register_succeeds_iff s conn st :
  (register s conn st).1 = None <->
  OpenStream conn = None /\
  (authenticator s (request s)).1.1 = None /\
  Encode conn (authenticator s (request s)).1.2 = None /\
  exists resp, Decode conn = inr resp /\ Code resp = CodeOK.
Proof.
  rewrite register_unfold. destruct (OpenStream conn); [by split; [|intros [? _]]|].
  destruct (authenticator s (request s)) as [[aerr req] recs]. simpl.
  destruct aerr; [by split; [|intros (_ & ? & _)]|].
  destruct (Encode conn req); [by split; [|intros (_ & _ & ? & _)]|].
  destruct (Decode conn) as [err|resp].
  { split; [done|]. by intros (_ & _ & _ & resp & ? & _). }
  destruct (Z.eqb_spec (Code resp) CodeOK) as [Hok|Hno]; simpl.
  - split; [|by destruct (HasOnConnectionReady s)].
    intros _. repeat split. by exists resp.
  - split; [done|]. intros (_ & _ & _ & resp' & [= <-] & Hok). done.
Qed.

(** Property X20.  The connection-ready callback runs at most once per
    registration, only for a registration that succeeds, and with the
    response whose code is OK; when a callback is set, every
    successful registration runs it. *)
Theorem register_calls_back_once s conn st :
  (ready (register s conn st).2 = ready st /\
   ((register s conn st).1 = None -> HasOnConnectionReady s = false)) \/
  (exists resp,
     Decode conn = inr resp /\ Code resp = CodeOK /\
     HasOnConnectionReady s = true /\
     (register s conn st).1 = None /\
     ready (register s conn st).2 = ready st ++ [resp]).
Proof.
  rewrite register_unfold. destruct (OpenStream conn); [by left|].
  destruct (authenticator s (request s)) as [[aerr req] recs].
  destruct aerr; [by left|]. destruct (Encode conn req); [by left|].
  destruct (Decode conn) as [err|resp]; [by left|].
  destruct (Z.eqb_spec (Code resp) CodeOK) as [Hok|Hno]; simpl; [|by left].
  destruct (HasOnConnectionReady s); [|by left].
  right. by exists resp.
Qed.

(** Property X29.  A response with any code other than OK fails the registration
    with [unexpected response code:] followed by the name of the code;
    the callback does not run. *)
Theorem register_unexpected_code s conn st resp :
  OpenStream conn = None ->
  (authenticator s (request s)).1.1 = None ->
  Encode conn (authenticator s (request s)).1.2 = None ->
  Decode conn = inr resp ->
  Code resp <> CodeOK ->
  (register s conn st).1
  = Some (errorString ("unexpected response code: " +:+ protocol.String (Code resp))) /\
  ready (register s conn st).2 = ready st.
Proof.
  intros Hopen Hauth Henc Hdec Hcode. rewrite register_unfold, Hopen.
  destruct (authenticator s (request s)) as [[aerr req] recs]. simpl in *.
  rewrite Hauth, Henc, Hdec.
  by destruct (Z.eqb_spec (Code resp) CodeOK).
Qed.

(** Property X21.  [register] hands exactly one request to the encoder, the one the
    authenticator returned, and none at all when the stream does not
    open or the authenticator refuses; in the latter case the error
    wraps the authenticator's. *)
Theorem register_sends_authenticated_request s conn st :
  sent (register s conn st).2 =
  match OpenStream conn, (authenticator s (request s)).1.1 with
  | None, None => sent st ++ [(authenticator s (request s)).1.2]
  | _, _ => sent st
  end /\
  (forall err,
     OpenStream conn = None -> (authenticator s (request s)).1.1 = Some err ->
     (register s conn st).1 = Some (Errorf_w "registering new connection" err)).
Proof.
  rewrite register_unfold. destruct (OpenStream conn); [done|].
  destruct (authenticator s (request s)) as [[aerr req] recs]. simpl.
  destruct aerr as [e|]; [split; [done|by intros err _ [= ->]]|].
  split; [|done].
  destruct (Encode conn req); [done|].
  destruct (Decode conn) as [err|resp]; [done|].
  destruct (negb _); [done|]. by destruct (HasOnConnectionReady s).
Qed.

(** Property X22.  [BearerAuthenticator] never fails and logs nothing; it sets the
    [Authorization] entry to [Bearer], a space and the token,
    allocating the metadata map when the request has none, and leaves
    the other entries, the version and the service as they are. *)
Theorem BearerAuthenticator_sets_Authorization token rlr :
  exists md,
    BearerAuthenticator token rlr
    = (None, {| Version := Version rlr; Service := Service rlr; Metadata := Some md |}, []) /\
    md !! "Authorization" = Some ("Bearer " +:+ token) /\
    forall k, k <> "Authorization" ->
      md !! k = match Metadata rlr with Some m => m !! k | None => None end.
Proof.
  unfold BearerAuthenticator. eexists. split; [reflexivity|]. split.
  - by rewrite lookup_insert_eq.
  - intros k Hk. unfold authorizationMetadataKey. rewrite lookup_insert_ne by done.
    destruct (Metadata rlr); [done|]. by rewrite lookup_empty.
Qed.

(** Property X23.  With a bearer authenticator, the request that goes out once the
    stream is open carries the protocol version, the tunnel's
    namespace, and the [Authorization] entry alone. *)
Theorem register_with_bearer_token s conn st token :
  Auth s = Some (BearerAuthenticator token) ->
  OpenStream conn = None ->
  sent (register s conn st).2 =
  sent st ++ [{| Version := protocol_Version;
                 Service := Namespace s;
                 Metadata := Some {[ "Authorization" := "Bearer " +:+ token ]} |}].
Proof.
  intros Hauth Hopen. unfold register. rewrite Hopen, Hauth.
  unfold BearerAuthenticator. cbn [Metadata Version Service].
  rewrite insert_empty.
  destruct (Encode conn _); [done|].
  destruct (Decode conn) as [err|resp]; [done|].
  destruct (negb _); [done|]. by destruct (HasOnConnectionReady s).
Qed.

(** Property X24.  [getTLSConfig] writes to no configuration but the one it
    selects, and to that one only its server name; when the selected
    configuration names a server, nothing is written and the address
    is not parsed. *)
Theorem getTLSConfig_frame s addr st :
  let p := match TLSConfig s with Some q => q | None => DefaultTLSConfig end in
  (forall q, q <> p -> tls (getTLSConfig s addr st).2 q = tls st q) /\
  NextProtos (tls (getTLSConfig s addr st).2 p) = NextProtos (tls st p) /\
  (ServerName (tls st p) <> "" -> getTLSConfig s addr st = (inr p, st)) /\
  sent (getTLSConfig s addr st).2 = sent st /\
  logs (getTLSConfig s addr st).2 = logs st.
Proof.
  intros p. unfold getTLSConfig. fold p.
  case_decide as Hname.
  - destruct (url_Parse addr) as [err|url]; simpl.
    + by repeat split.
    + repeat split; try done.
      * intros q Hq. by case_decide.
      * by case_decide.
  - by repeat split.
Qed.

(** Property X25.  An address that does not parse, with no server name configured:
    the attempt returns the parse error itself, not wrapped, without
    dialling, and leaves the configuration as it was. *)
Theorem dialAndServe_unparsable_address s dial addr st err :
  ServerName (tls st (match TLSConfig s with Some q => q | None => DefaultTLSConfig end)) = "" ->
  url_Parse addr = inl err ->
  dialAndServe s dial addr st = (Some err, count_dial st).
Proof.
  intros Hname Hparse. unfold dialAndServe, getTLSConfig. simpl.
  rewrite Hparse. by case_decide.
Qed.

End tunnel_register.

Section protocol_more.
Import protocol.

Lemma String_small_cases n :
  0 <= n < 5 -> n = 0 \/ n = 1 \/ n = 2 \/ n = 3 \/ n = 4.
Proof. lia. Qed.

(** Property X26.  Response codes below 2^63 render differently from one another:
    the name, or the tagged number, identifies the code. *)
Theorem ResponseCode_String_injective m n :
  0 <= m < 2 ^ 63 -> 0 <= n < 2 ^ 63 ->
  String m = String n -> m = n.
Proof.
  assert (Hbig : forall k, 5 <= k < 2 ^ 63 ->
            String k = "ResponseCode(" +:+ pretty k +:+ ")").
  { intros k Hk. unfold String.
    replace (Z.of_nat (length _ResponseCode_index) - 1) with 5 by reflexivity.
    destruct (Z.geb_spec k 5) as [_|Hlt]; [|lia].
    unfold FormatInt10. by rewrite int64_small by lia. }
  assert (Hsmall : forall k, 0 <= k < 5 ->
            exists c rest, String k = String.String "C" (String.String c rest) /\
                           c = "o"%char).
  { intros k Hk.
    destruct (String_small_cases k Hk) as [->|[->|[->|[->| ->]]]]; by eexists _, _. }
  intros Hm Hn Heq.
  destruct (Z.lt_ge_cases m 5) as [Hm5|Hm5], (Z.lt_ge_cases n 5) as [Hn5|Hn5].
  - destruct (String_small_cases m ltac:(lia)) as [->|[->|[->|[->| ->]]]];
      destruct (String_small_cases n ltac:(lia)) as [->|[->|[->|[->| ->]]]];
      done.
  - destruct (Hsmall m ltac:(lia)) as (c & rest & Hs & _).
    rewrite Hs, (Hbig n) in Heq by lia. done.
  - destruct (Hsmall n ltac:(lia)) as (c & rest & Hs & _).
    rewrite Hs, (Hbig m) in Heq by lia. done.
  - rewrite (Hbig m), (Hbig n) in Heq by lia.
    apply (inj (String.app "ResponseCode(")) in Heq.
    assert (Hpre : forall x y : string, x +:+ ")" = y +:+ ")" -> x = y).
    { induction x as [|a x IH]; intros [|b y] Hxy; try done.
      - destruct y; done.
      - destruct x; done.
      - inversion Hxy; subst. f_equal. by apply IH. }
    apply Hpre in Heq. by apply (inj pretty) in Heq.
Qed.

End protocol_more.

(** ** [Registry.Start] *)

Section ops_start.
Import context protocol tunnel reflect servicedef ops.
Context `{Externals}.

Lemma getTLSConfig_sent s addr st : sent (getTLSConfig s addr st).2 = sent st.
Proof.
  unfold getTLSConfig. case_decide; [|done]. by destruct (url_Parse addr).
Qed.

Lemma register_sent s conn st :
  sent (register s conn st).2 = sent st \/
  sent (register s conn st).2 = sent st ++ [(authenticator s (request s)).1.2].
Proof.
  unfold register. fold (request s). fold (authenticator s).
  destruct (OpenStream conn); [by left|].
  destruct (authenticator s (request s)) as [[aerr req] recs]. simpl.
  destruct aerr; [by left|]. right.
  destruct (Encode conn req); [done|].
  destruct (Decode conn) as [err|resp]; [done|].
  destruct (negb _); [done|]. by destruct (HasOnConnectionReady s).
Qed.

Lemma dialAndServe_sent s dial addr st :
  sent (dialAndServe s dial addr st).2 = sent st \/
  sent (dialAndServe s dial addr st).2 = sent st ++ [(authenticator s (request s)).1.2].
Proof.
  unfold dialAndServe.
  pose proof (getTLSConfig_sent s addr (count_dial st)) as Hg.
  destruct (getTLSConfig s addr (count_dial st)) as [[err|p] st1]; simpl in *; [by left|].
  destruct (dial addr _ _) as [err|conn]; [by left|].
  pose proof (register_sent s conn (log LevelDebug "Attempting to register" st1)) as Hr.
  destruct (register s conn _) as [[err|] st2]; simpl in *; rewrite <- Hg; done.
Qed.


(** Property X28.  [Start] has no way to set an authenticator: every registration
    request sent while it runs carries the protocol version and the
    namespace of the options and no metadata at all, so no
    credentials. *)
Theorem Start_registers_without_credentials r ctx opts dialers st t err st' t' :
  Start r ctx opts dialers st t = Ok (err, st', t') ->
  exists reqs,
    sent st' = sent st ++ reqs /\
    Forall (fun q => q = {| Version := protocol_Version;
                            Service := StartOpts.Namespace opts;
                            Metadata := None |}) reqs.
Proof.
  unfold Start. destruct (Build r).1 as [h|e|msg].
  2: { intros [= <- <- <-]. exists []. by rewrite app_nil_r. }
  2: done.
  intros [= Hrun]. revert Hrun.
  unfold DialAndServe, ExponentialBackoffWithContext.
  pose proof (backoff_loop_invariant
    (fun sl : process * option error =>
       exists reqs,
         sent sl.1 = sent st ++ reqs /\
         Forall (fun q => q = {| Version := protocol_Version;
                                 Service := StartOpts.Namespace opts;
                                 Metadata := None |}) reqs)
    (Z.to_nat (Steps DefaultBackoff)) ctx DefaultBackoff
    (attempt (serverOf opts) dialers (StartOpts.Addr opts))
    (log LevelDebug "Dialing address" st, None) t) as Hinv.
  destruct (backoff_loop _ ctx DefaultBackoff _ _ t) as [[e [st1 lastErr]] t1].
  intros [= _ <- _]. apply Hinv.
  - intros [st0 l] (reqs & Hs & Hall). unfold attempt.
    pose proof (dialAndServe_sent (serverOf opts) (dialers (dials st0))
                  (StartOpts.Addr opts) st0) as Hd.
    assert (Hnext : exists reqs',
              sent (dialAndServe (serverOf opts) (dialers (dials st0))
                      (StartOpts.Addr opts) st0).2 = sent st ++ reqs' /\
              Forall (fun q => q = {| Version := protocol_Version;
                                      Service := StartOpts.Namespace opts;
                                      Metadata := None |}) reqs').
    { destruct Hd as [-> | ->].
      - by exists reqs.
      - exists (reqs ++ [(authenticator (serverOf opts) (request (serverOf opts))).1.2]).
        simpl in Hs. rewrite Hs, <- app_assoc. split; [done|].
        apply Forall_app. split; [done|]. by constructor. }
    destruct (dialAndServe _ _ _ st0) as [[e0|] st2]; simpl in *; [|done].
    by destruct (Is e0 Canceled).
  - exists []. simpl. by rewrite app_nil_r.
Qed.

End ops_start.

(** ** The properties above at example inputs *)

Section more_examples.
Import context protocol tunnel reflect servicedef ops ops_test.
#[local] Existing Instance sample_Externals.

Lemma Build_stops_at_first_failure_witness :
  (Build (registry [example; pointerOutputValue; example])).1
  = Err (notPointer pointerOutputValue) /\
  (Build (registry [second; unset; example])).1 = Panic zeroValueType.
Proof.
  split.
  - apply (Build_stops_at_first_failure
             (registry [example; pointerOutputValue; example])
             [example] pointerOutputValue [example]).
    + reflexivity.
    + repeat constructor.
    + repeat constructor. by intros Hin%elem_of_nil.
    + discriminate.
  - apply (Build_stops_at_first_failure
             (registry [second; unset; example]) [second] unset [example]).
    + reflexivity.
    + repeat constructor.
    + repeat constructor. by intros Hin%elem_of_nil.
    + by split.
Defined.

Lemma Build_definitions_in_registration_order_witness :
  Definitions.Services (ServiceDefinitions (built [example; second]))
  = map definitionOf (services (registry [example; second])).
Proof.
  apply (Build_definitions_in_registration_order
           (registry [example; second]) (built [example; second]) []).
  reflexivity.
Defined.

Lemma Build_log_witness :
  (Build (registry [legacy])).2
  = flat_map (fun svc => flat_map complaints (Object.Methods svc))
      (services (registry [legacy])).
Proof.
  apply (Build_log (registry [legacy]) (built [legacy])). reflexivity.
Defined.

Lemma example_method_names :
  NoDup (map Method.Name (Object.Methods example)).
Proof.
  simpl.
  repeat (constructor; [rewrite ?elem_of_cons, elem_of_nil; intuition discriminate|]).
  constructor.
Defined.

Lemma legacy_method_names :
  NoDup (map Method.Name (Object.Methods legacy)).
Proof.
  simpl.
  repeat (constructor; [rewrite ?elem_of_cons, elem_of_nil; intuition discriminate|]).
  constructor.
Defined.

Lemma Build_routes_the_methods_witness :
  exists rm,
    routes (built [example; second]) !! serviceID example = Some rm /\
    (forall m, In m (Object.Methods example) -> Method.Name m <> "Metadata" ->
       rm !! Method.Name m = Some {| method := m; inputType := inputOf m |}) /\
    (forall k, (forall m, In m (Object.Methods example) -> Method.Name m <> k) \/
               k = "Metadata" ->
       rm !! k = None).
Proof.
  apply (Build_routes_the_methods (registry [example; second])
           (built [example; second]) [] example).
  - reflexivity.
  - by left.
  - exact example_method_names.
Defined.

Lemma Call_unknown_service_witness :
  Call (built [example]) Background "nope" "Foo" barTesting
  = Err (errorString ("service " +:+ "nope" +:+ " not found")).
Proof.
  apply (Call_unknown_service (registry [example]) (built [example]) []).
  - reflexivity.
  - intros [Hin|[]]. discriminate.
Defined.

Lemma Call_unknown_operation_witness :
  exists msg,
    Call (built [example]) Background (serviceID example) "Baz" barTesting
    = Err (errorString msg) /\
    contains "Baz" msg /\ contains (serviceID example) msg.
Proof.
  apply (Call_unknown_operation (registry [example]) (built [example]) []).
  - reflexivity.
  - by left.
  - left. intros m [<-|[<-|[<-|[]]]]; discriminate.
Defined.

Lemma Call_method_with_input_witness :
  Call (built [example]) Background "example" "Foo" barTesting
  = Ok (quoted "hello testing").
Proof.
  generalize (Call_method_with_input (registry [example]) (built [example]) []
                example (hello "Foo") fooInput Background barTesting
                eq_refl (or_introl eq_refl) example_method_names
                (or_intror (or_introl eq_refl))
                ltac:(discriminate) eq_refl eq_refl).
  vm_compute. intros Hcall. by apply Hcall.
Defined.

Lemma Call_method_without_input_witness :
  Call (built [legacy]) Background (serviceID legacy) (Method.Name Status)
    "not even JSON" =
  match Method.Func Status [VContext Background] with
  | result :: _ => Ok (json.Marshal result)
  | [] => Panic "runtime error: index out of range [0] with length 0"
  end.
Proof.
  apply (Call_method_without_input (registry [legacy]) (built [legacy])
           (Build (registry [legacy])).2 legacy Status).
  - reflexivity.
  - by left.
  - exact legacy_method_names.
  - right. by left.
  - discriminate.
  - reflexivity.
Defined.

Lemma Call_method_without_parameters_witness :
  (extractMethods Now).2 = None /\
  routed (built [clock]) "clock" "Now" /\
  Call (built [clock]) Background "clock" "Now" barTesting
  = Panic "reflect: Call with too many input arguments".
Proof.
  apply (Call_method_without_parameters (registry [clock]) (built [clock]) []
           clock Now Background barTesting).
  - reflexivity.
  - by left.
  - repeat constructor. by intros Hin%elem_of_nil.
  - by left.
  - discriminate.
  - reflexivity.
Defined.

Lemma ServeHTTP_method_not_allowed_witness :
  ServeHTTP emptyObject (built [example]) (get "/example/Foo") ResponseWriter.fresh
  = (Ok (response 405 "Method Not Allowed"), []).
Proof.
  apply (ServeHTTP_method_not_allowed emptyObject (built [example]) (get "/example/Foo")).
  - discriminate.
  - intros [_ Hpath]. discriminate.
Defined.

Lemma ServeHTTP_invalid_path_witness :
  ServeHTTP emptyObject (built [example]) (post "/example/Foo/" barTesting)
    ResponseWriter.fresh
  = (Ok (response 404 ("invalid path: " +:+ "/example/Foo/")), []).
Proof.
  apply (ServeHTTP_invalid_path emptyObject (built [example])
           (post "/example/Foo/" barTesting)).
  - reflexivity.
  - vm_compute. lia.
Defined.

Lemma ServeHTTP_dispatches_witness :
  ServeHTTP emptyObject (built [example]) (post "/example/Foo" barTesting)
    ResponseWriter.fresh =
  match Call (built [example]) Background "example" "Foo" barTesting with
  | Ok res => (Ok (response 200 res), [])
  | Err err => (Ok (response 400 (Error err)), [])
  | Panic msg => (Panic msg, [])
  end.
Proof.
  apply (ServeHTTP_dispatches emptyObject (built [example])
           (post "/example/Foo" barTesting) "example" "Foo" barTesting);
    reflexivity.
Defined.

Lemma ServeHTTP_unreadable_body_witness :
  ServeHTTP emptyObject (built [example]) (brokenPost "/example/Foo")
    ResponseWriter.fresh
  = (Ok (response 400 "unexpected EOF"), []).
Proof.
  apply (ServeHTTP_unreadable_body emptyObject (built [example])
           (brokenPost "/example/Foo") (errorString "unexpected EOF"));
    reflexivity.
Defined.

Lemma ServeHTTP_operations_witness :
  ServeHTTP emptyObject (built [example]) (get "/.lightwave/operations")
    ResponseWriter.fresh
  = (Ok (response 200 "{}"), []).
Proof.
  apply (ServeHTTP_operations emptyObject (built [example])
           (get "/.lightwave/operations")); reflexivity.
Defined.

Lemma ServeHTTP_statuses_witness :
  ResponseWriter.status (response 400 "service nope not found") = Some 200 \/
  ResponseWriter.status (response 400 "service nope not found") = Some 400 \/
  ResponseWriter.status (response 400 "service nope not found") = Some 404 \/
  ResponseWriter.status (response 400 "service nope not found") = Some 405.
Proof.
  apply (ServeHTTP_statuses emptyObject (built [example]) (post "/nope/Foo" barTesting)
           (response 400 "service nope not found") []).
  reflexivity.
Defined.

Lemma refused_while_flaky i st0 :
  (dials (initial (H := sample_Externals)) <= i
   < dials (initial (H := sample_Externals)) + 2)%nat ->
  (dialAndServe plainTunnel (flakyDialers i) relayAddr st0).1 <> None.
Proof.
  intros Hi. assert (Hflaky : flakyDialers i = refusingDialer).
  { unfold flakyDialers. simpl in Hi. destruct (Nat.ltb_spec i 2); [done|lia]. }
  rewrite Hflaky. unfold dialAndServe.
  by destruct (getTLSConfig plainTunnel relayAddr (count_dial st0)) as [[err|p] st1].
Defined.

Lemma accepted_after_flaky st0 :
  (dialAndServe plainTunnel
     (flakyDialers (dials (initial (H := sample_Externals)) + 2)) relayAddr st0).1 = None.
Proof.
  unfold dialAndServe, getTLSConfig. simpl. by case_decide.
Defined.

Lemma DialAndServe_returns_nil_on_success_witness :
  (DialAndServe plainTunnel Background flakyDialers relayAddr initial startOfCall).1.1
  = None.
Proof.
  apply (DialAndServe_returns_nil_on_success plainTunnel Background flakyDialers
           relayAddr initial startOfCall 2).
  - lia.
  - intros i _. reflexivity.
  - exact refused_while_flaky.
  - exact accepted_after_flaky.
Defined.

Lemma always_refused (i : nat) st0 :
  (dialAndServe plainTunnel refusingDialer relayAddr st0).1
  = Some (Errorf_w "QUIC dial error" refused).
Proof.
  clear i. unfold dialAndServe.
  destruct (getTLSConfig plainTunnel relayAddr (count_dial st0))
    as [[err|p] st1] eqn:Hg; [|reflexivity].
  unfold getTLSConfig in Hg. simpl in Hg. by case_decide.
Defined.

Lemma DialAndServe_deadline_returns_last_error_witness :
  (DialAndServe plainTunnel {| doneAt := Some 3%nat; cause := DeadlineExceeded |}
     (fun _ => refusingDialer) relayAddr initial startOfCall).1.1
  = Some (Errorf_w "QUIC dial error" refused).
Proof.
  apply (DialAndServe_deadline_returns_last_error plainTunnel
           {| doneAt := Some 3%nat; cause := DeadlineExceeded |}
           (fun _ => refusingDialer) relayAddr initial startOfCall 3%nat
           (Errorf_w "QUIC dial error" refused)).
  - reflexivity.
  - reflexivity.
  - simpl. lia.
  - exact always_refused.
Defined.

Lemma register_unexpected_code_witness :
  (register plainTunnel unauthorizedConn initial).1
  = Some (errorString ("unexpected response code: " +:+ "CodeUnauthorized")).
Proof.
  apply (register_unexpected_code plainTunnel unauthorizedConn initial
           {| Code := CodeUnauthorized |}); try reflexivity.
  discriminate.
Defined.

Lemma register_sends_authenticated_request_witness :
  (register lockedTunnel acceptingConn initial).1
  = Some (Errorf_w "registering new connection" (errorString "no token")).
Proof.
  apply (proj2 (register_sends_authenticated_request lockedTunnel acceptingConn initial)
           (errorString "no token")); reflexivity.
Defined.

Lemma BearerAuthenticator_sets_Authorization_witness :
  exists md,
    BearerAuthenticator "s3cr3t" tracedRequest
    = (None, {| Version := 1; Service := "worker"; Metadata := Some md |}, []) /\
    md !! "Authorization" = Some ("Bearer " +:+ "s3cr3t") /\
    md !! "trace" = Some "abc".
Proof.
  destruct (BearerAuthenticator_sets_Authorization "s3cr3t" tracedRequest)
    as (md & Hrun & Hauth & Hrest).
  exists md. split; [exact Hrun|]. split; [exact Hauth|].
  rewrite (Hrest "trace") by discriminate. reflexivity.
Defined.

Lemma register_with_bearer_token_witness :
  sent (register bearerTunnel acceptingConn initial).2 =
  sent initial ++ [{| Version := protocol_Version;
                      Service := Namespace bearerTunnel;
                      Metadata := Some {[ "Authorization" := "Bearer " +:+ "s3cr3t" ]} |}].
Proof.
  apply (register_with_bearer_token bearerTunnel acceptingConn initial "s3cr3t");
    reflexivity.
Defined.

Lemma getTLSConfig_frame_witness :
  getTLSConfig plainTunnel "not a url" named = (inr DefaultTLSConfig, named).
Proof.
  apply (proj1 (proj2 (proj2 (getTLSConfig_frame plainTunnel "not a url" named)))).
  discriminate.
Defined.

Lemma dialAndServe_unparsable_address_witness :
  dialAndServe plainTunnel acceptingDialer "127.0.0.1:4433" initial
  = (Some (wrapError
             ("parse " +:+ url.quoted "127.0.0.1:4433"
              +:+ ": first path segment in URL cannot contain colon")
             (errorString "first path segment in URL cannot contain colon")),
     count_dial initial).
Proof.
  apply (dialAndServe_unparsable_address plainTunnel acceptingDialer
           "127.0.0.1:4433" initial); reflexivity.
Defined.

Lemma ResponseCode_String_injective_witness :
  CodeUnauthorized = 3.
Proof.
  apply (ResponseCode_String_injective CodeUnauthorized 3).
  - split; [done|]. reflexivity.
  - split; [done|]. reflexivity.
  - reflexivity.
Defined.


(** A nil pointer registered behind a valid service: [Start] panics
    in [Build]. *)
Lemma Start_panics_on_nil_pointer :
  Start (registry [second; unset]) Background workerOpts
    (fun _ => acceptingDialer) initial startOfCall
  = Panic "reflect: call of reflect.Value.Type on zero Value".
Proof. reflexivity. Qed.

Lemma Start_registers_without_credentials_witness :
  exists reqs,
    sent (DialAndServe (serverOf workerOpts) Background (fun _ => acceptingDialer)
            relayAddr initial startOfCall).1.2
    = sent initial ++ reqs /\
    Forall (fun q => q = {| Version := protocol_Version;
                            Service := StartOpts.Namespace workerOpts;
                            Metadata := None |}) reqs.
Proof.
  apply (Start_registers_without_credentials (registry [example]) Background
           workerOpts (fun _ => acceptingDialer) initial startOfCall
           (DialAndServe (serverOf workerOpts) Background (fun _ => acceptingDialer)
              relayAddr initial startOfCall).1.1
           (DialAndServe (serverOf workerOpts) Background (fun _ => acceptingDialer)
              relayAddr initial startOfCall).1.2
           (DialAndServe (serverOf workerOpts) Background (fun _ => acceptingDialer)
              relayAddr initial startOfCall).2).
  reflexivity.
Defined.

Lemma Build_succeeds_iff_witness :
  exists h, (Build (registry [example; second])).1 = Ok h.
Proof.
  apply (proj2 (Build_succeeds_iff (registry [example; second]))). split.
  - repeat constructor.
  - simpl.
    repeat (constructor; [rewrite ?elem_of_cons, elem_of_nil; intuition discriminate|]).
    constructor.
Defined.

Lemma register_succeeds_iff_witness :
  (register plainTunnel acceptingConn initial).1 = None.
Proof.
  apply (proj2 (register_succeeds_iff plainTunnel acceptingConn initial)).
  split; [reflexivity|]. split; [reflexivity|]. split; [reflexivity|].
  exists {| Code := CodeOK |}. split; reflexivity.
Defined.

Lemma register_calls_back_once_witness :
  ready (register bearerTunnel acceptingConn initial).2
  = ready initial ++ [{| Code := CodeOK |}].
Proof.
  destruct (register_calls_back_once bearerTunnel acceptingConn initial)
    as [[_ Hno]|(resp & Hdec & _ & _ & _ & Hready)].
  - specialize (Hno eq_refl). discriminate.
  - inversion Hdec; subst. exact Hready.
Defined.

End more_examples.
